(** * Todo chatbot backend: tool registry, orchestration loop, conversation store

    A shallow embedding of the Phase III backend
    ([mcp/tools.py], [mcp/server.py], [mcp/schemas.py], [models.py],
    [services/conversation_service.py], [ai/runner.py], [ai/converter.py],
    [ai/mock_runner.py], [routes/chat.py], [routes/tasks.py], [db.py])
    together with the properties stated about it.

    Conventions of the embedding.
    - Python values that travel as dicts, lists, strings and integers are
      terms of [value]; a dict is an association list in insertion order.
    - The database session is the record [Session]: the three tables as
      lists of rows in insertion order, the three identity sequences and the
      number of clock readings taken so far.
    - Code that can raise runs in the monad [M] (state and exception); a
      [try ... except Exception] block is [try_except].
    - What the Python runtime and its libraries compute ([uuid.UUID],
      [datetime.utcnow], [json.loads], [str] of a container, [re.search])
      is a field of the record [Runtime]; every definition takes the
      runtime as a parameter.
    - Column length limits of the storage schema are not part of the Python
      sources and are not modelled: a row whose fields have the declared
      Python types is accepted by [flush]. *)

From Stdlib Require Import ZArith List String Ascii Bool Lia.
From Stdlib Require Import Permutation Sorted DecimalString.
Import ListNotations.

Local Open Scope Z_scope.
Local Open Scope list_scope.
Local Open Scope string_scope.

(** ** Python values *)

#[local] Set Warnings "-register-all".

Inductive value : Type :=
| VNone
| VBool (b : bool)
| VInt (z : Z)
| VStr (s : string)
| VList (l : list value)
| VDict (d : list (string * value)).

Definition dict := list (string * value).

(** [d.get(k)] / [d[k]] *)
Fixpoint dict_get (k : string) (d : dict) : option value :=
  match d with
  | [] => None
  | (k', v) :: r => if String.eqb k k' then Some v else dict_get k r
  end.

(** [k in d] *)
Definition dict_has (k : string) (d : dict) : bool :=
  match dict_get k d with Some _ => true | None => false end.

(** [d[k] = v]: an existing key keeps its position, a new key goes last. *)
Fixpoint dict_set (k : string) (v : value) (d : dict) : dict :=
  match d with
  | [] => [(k, v)]
  | (k', v') :: r =>
      if String.eqb k k' then (k, v) :: r else (k', v') :: dict_set k v r
  end.

Definition dict_keys (d : dict) : list string := map fst d.

(** ** Strings *)

Definition string_of_Z (z : Z) : string := NilZero.string_of_int (Z.to_int z).

Definition lower_ascii (c : ascii) : ascii :=
  let n := nat_of_ascii c in
  if andb (Nat.leb 65 n) (Nat.leb n 90) then ascii_of_nat (n + 32) else c.

(** [s.lower()] on the ASCII letters; other bytes are kept. *)
Fixpoint lower (s : string) : string :=
  match s with
  | EmptyString => EmptyString
  | String c r => String (lower_ascii c) (lower r)
  end.

(** [needle in hay] *)
Fixpoint contains (needle hay : string) : bool :=
  if prefix needle hay then true
  else match hay with
       | EmptyString => false
       | String _ r => contains needle r
       end.

Definition newline : string := String (ascii_of_nat 10) EmptyString.
Definition dquote : string := String (ascii_of_nat 34) EmptyString.

(** ** Exceptions *)

Inductive exn_class := ValueError | TypeError | OtherException.

Record exn := Exn { exn_class_of : exn_class; exn_str : string }.

(** ** The runtime: library behaviour the sources rely on *)

Definition uuid := Z.

Record Runtime := {
  (** [uuid.UUID(s)]; [None] when it raises [ValueError] *)
  UUID : string -> option uuid;
  (** [str(u)] for a UUID *)
  uuid_str : uuid -> string;
  (** the n-th reading of [datetime.utcnow()] *)
  utcnow : nat -> Z;
  (** [json.loads(s)]; [JSONDecodeError] is a [ValueError] *)
  json_loads : string -> exn + value;
  (** [str(x)] of a tool result *)
  py_str : value -> string;
  (** [re.search(r'(?:task\s+)?(\d+)', s)] followed by [int(group(1))] *)
  search_task_number : string -> option Z;
  (** [re.search(r'(?:add|create).*?(?:task)?.*?(?:to|for)\s+(.+)', s)],
      [group(1).strip()] *)
  search_add_to : string -> option string;
  (** [re.search(r'(?:add|create|new task)\s+(.+)', s)], [group(1).strip()] *)
  search_add_plain : string -> option string;
  (** [re.search(r'(?:to|into|as)\s+(.+)', s)], [group(1).strip()] *)
  search_update_to : string -> option string;
  (** [re.sub(r'^(a|an|the|to|task|:|for)\s+', '', s)] *)
  sub_filler : string -> string;
  (** [s.strip()] *)
  strip : string -> string;
  (** [os.getenv("OPENAI_API_KEY")] *)
  OPENAI_API_KEY : option string;
  (** [get_system_prompt()]; a fixed text *)
  system_prompt : string;
  (** the fixed text [MockAgentRunner._handle_help] returns *)
  help_text : string
}.

(** ** Data model ([models.py])

    Timestamps are integers (a count of microseconds).  The length bounds
    that [Field(min_length=..., max_length=...)] declares are not checked
    when a table model is constructed, and are not part of the rows. *)

Module Task.
Record t := mk {
  id : option Z;
  user_id : uuid;
  title : string;
  description : option string;
  completed : bool;
  created_at : Z;
  updated_at : Z
}.
End Task.

Module Conversation.
Record t := mk {
  id : option Z;
  user_id : uuid;
  created_at : Z;
  updated_at : Z
}.
End Conversation.

Module Message.
Record t := mk {
  id : option Z;
  conversation_id : Z;
  user_id : uuid;
  role : string;
  content : string;
  created_at : Z
}.
End Message.

(** The session: table contents, identity sequences, clock readings taken. *)
Record Session := mkSession {
  tasks : list Task.t;
  conversations : list Conversation.t;
  messages : list Message.t;
  tasks_id_seq : Z;
  conversations_id_seq : Z;
  messages_id_seq : Z;
  clock : nat
}.

Definition with_tasks (s : Session) (l : list Task.t) : Session :=
  mkSession l (conversations s) (messages s)
            (tasks_id_seq s) (conversations_id_seq s) (messages_id_seq s) (clock s).

(** Primary key discipline of the [tasks] table. *)
Definition tasks_wf (s : Session) : Prop :=
  NoDup (map Task.id (tasks s)) /\
  Forall (fun t => exists i, Task.id t = Some i /\ i < tasks_id_seq s) (tasks s).

(** ** State and exception monad *)

Definition M (A : Type) : Type := Session -> (exn + A) * Session.

Definition ret {A} (a : A) : M A := fun s => (inr a, s).

Definition bind {A B} (m : M A) (f : A -> M B) : M B :=
  fun s => match m s with
           | (inr a, s') => f a s'
           | (inl e, s') => (inl e, s')
           end.

Definition raise {A} (e : exn) : M A := fun s => (inl e, s).

Definition get_session : M Session := fun s => (inr s, s).

Notation "x <- m ;; k" := (bind m (fun x => k))
  (at level 61, m at next level, right associativity).
Notation "m ;;; k" := (bind m (fun _ => k))
  (at level 61, right associativity).

(** [try: body except Exception as e: return handler(e)] for a body that
    returns on every path. *)
Definition try_except (body : M value) (handler : exn -> value)
  : Session -> value * Session :=
  fun s => match body s with
           | (inr v, s') => (v, s')
           | (inl e, s') => (handler e, s')
           end.

(** ** Storage operations used by the tools *)

Definition opt_Z_eqb (a : option Z) (b : option Z) : bool :=
  match a, b with
  | Some x, Some y => Z.eqb x y
  | None, None => true
  | _, _ => false
  end.

(** [result.scalar_one_or_none()] *)
Definition scalar_one_or_none {A} (rows : list A) : M (option A) :=
  match rows with
  | [] => ret None
  | [r] => ret (Some r)
  | _ => raise (Exn OtherException
                 "Multiple rows were found when one or none was required")
  end.

(** [select(Task).where(Task.id == task_id, Task.user_id == user_uuid)] *)
Definition select_task (task_id : Z) (user_uuid : uuid) (s : Session)
  : list Task.t :=
  filter (fun t => andb (opt_Z_eqb (Task.id t) (Some task_id))
                        (Z.eqb (Task.user_id t) user_uuid))
         (tasks s).

Definition find_task (task_id : Z) (user_uuid : uuid) : M (option Task.t) :=
  s <- get_session ;;
  scalar_one_or_none (select_task task_id user_uuid s).

(** Python does not check the annotations of a tool's [run].  An argument
    of another type than annotated is stored unchecked and reaches the
    storage driver, which is not part of the sources, when a statement binds
    it to a column; the model takes the driver to reject it there. *)
Definition ill_typed : exn :=
  Exn OtherException "argument of a type the storage driver rejects".

Definition column_text (v : value) : M string :=
  match v with VStr s => ret s | _ => raise ill_typed end.

Definition column_opt_text (v : value) : M (option string) :=
  match v with
  | VNone => ret None
  | VStr s => ret (Some s)
  | _ => raise ill_typed
  end.

Definition column_int (v : value) : M Z :=
  match v with VInt z => ret z | _ => raise ill_typed end.

(** [datetime.utcnow()]: the next reading of the clock. *)
Definition now (rt : Runtime) : M Z :=
  fun s =>
    (inr (utcnow rt (clock s)),
     mkSession (tasks s) (conversations s) (messages s)
       (tasks_id_seq s) (conversations_id_seq s) (messages_id_seq s)
       (S (clock s))).

(** [Task(user_id=..., title=..., description=..., completed=False)]:
    the two timestamp defaults each call [datetime.utcnow].  The constructor
    keeps [title] and [description] unchecked and the flush that follows binds
    them; nothing happens in between, so they are bound here. *)
Definition Task_new (rt : Runtime) (user_uuid : uuid) (title : value)
    (description : value) : M Task.t :=
  created <- now rt ;;
  updated <- now rt ;;
  title <- column_text title ;;
  description <- column_opt_text description ;;
  ret (Task.mk None user_uuid title description false created updated).

(** [session.add(task); flush; refresh]: the row gets the next identity. *)
Definition add_task_row (t : Task.t) : M Task.t :=
  fun s =>
    let row := Task.mk (Some (tasks_id_seq s)) (Task.user_id t) (Task.title t)
                 (Task.description t) (Task.completed t)
                 (Task.created_at t) (Task.updated_at t) in
    (inr row,
     mkSession (tasks s ++ [row])%list (conversations s) (messages s)
               (tasks_id_seq s + 1) (conversations_id_seq s) (messages_id_seq s)
               (clock s)).

(** [flush; refresh] after attribute assignment: UPDATE by primary key. *)
Definition update_task_row (t : Task.t) : M Task.t :=
  fun s =>
    (inr t,
     with_tasks s
       (map (fun r => if opt_Z_eqb (Task.id r) (Task.id t) then t else r)
            (tasks s))).

(** [session.delete(task); flush]: DELETE by primary key. *)
Definition delete_task_row (t : Task.t) : M unit :=
  fun s =>
    (inr tt,
     with_tasks s
       (filter (fun r => negb (opt_Z_eqb (Task.id r) (Task.id t))) (tasks s))).

(** Insertion sort, largest key first: [ORDER BY key DESC].  SQL leaves the
    order of rows with equal keys open; here the later row of the table
    comes first. *)
Fixpoint insert_desc {A} (key : A -> Z) (x : A) (l : list A) : list A :=
  match l with
  | [] => [x]
  | y :: r => if Z.ltb (key y) (key x) then x :: y :: r
              else y :: insert_desc key x r
  end.

Definition order_by_desc {A} (key : A -> Z) (l : list A) : list A :=
  fold_right (insert_desc key) [] l.

(** ** Tools ([mcp/tools.py]) *)

Definition opt_int_value (o : option Z) : value :=
  match o with Some z => VInt z | None => VNone end.

Definition error_result (kind message : string) : value :=
  VDict [("error", VStr kind); ("message", VStr message)].

Definition invalid_user_id (user_id : string) : value :=
  error_result "validation_error" ("Invalid user_id format: " ++ user_id).

Definition task_not_found (task_id : Z) : value :=
  error_result "not_found" ("Task " ++ string_of_Z task_id ++ " not found").

Definition internal_error (e : exn) : value :=
  error_result "internal_error" (exn_str e).

Definition task_result (task_id : value) (status title : string) : value :=
  VDict [("task_id", task_id); ("status", VStr status); ("title", VStr title)].

Section Tools.
Context (rt : Runtime).

(** [AddTaskTool.run] *)
Definition AddTaskTool_run (user_id : string) (title description : value)
  : Session -> value * Session :=
  try_except
    (match UUID rt user_id with
     | None => ret (invalid_user_id user_id)
     | Some user_uuid =>
         task <- Task_new rt user_uuid title description ;;
         task <- add_task_row task ;;
         ret (task_result (opt_int_value (Task.id task)) "created"
                          (Task.title task))
     end)
    internal_error.

Definition task_summary (t : Task.t) : value :=
  VDict [("id", opt_int_value (Task.id t));
         ("title", VStr (Task.title t));
         ("completed", VBool (Task.completed t))].

(** The [where] clause [ListTasksTool.run] adds for a status: one for
    "pending", one for "completed", none for any other value. *)
Definition status_filter (status : value) (t : Task.t) : bool :=
  match status with
  | VStr st =>
      if String.eqb st "pending" then negb (Task.completed t)
      else if String.eqb st "completed" then Task.completed t
      else true
  | _ => true
  end.

(** The rows the query of [ListTasksTool.run] selects, before ordering. *)
Definition list_tasks_rows (user_uuid : uuid) (status : value) (s : Session)
  : list Task.t :=
  filter (fun t => andb (Z.eqb (Task.user_id t) user_uuid)
                        (status_filter status t))
         (tasks s).

(** [ListTasksTool.run]; the error results are one-element lists. *)
Definition ListTasksTool_run (user_id : string) (status : value)
  : Session -> value * Session :=
  try_except
    (match UUID rt user_id with
     | None => ret (VList [invalid_user_id user_id])
     | Some user_uuid =>
         s <- get_session ;;
         ret (VList (map task_summary
                       (order_by_desc Task.created_at
                          (list_tasks_rows user_uuid status s))))
     end)
    (fun e => VList [internal_error e]).

(** [CompleteTaskTool.run] *)
Definition CompleteTaskTool_run (user_id : string) (task_id : value)
  : Session -> value * Session :=
  try_except
    (match UUID rt user_id with
     | None => ret (invalid_user_id user_id)
     | Some user_uuid =>
         task_id <- column_int task_id ;;
         found <- find_task task_id user_uuid ;;
         match found with
         | None => ret (task_not_found task_id)
         | Some task =>
             task <- update_task_row
                       (Task.mk (Task.id task) (Task.user_id task)
                          (Task.title task) (Task.description task) true
                          (Task.created_at task) (Task.updated_at task)) ;;
             ret (task_result (opt_int_value (Task.id task)) "completed"
                              (Task.title task))
         end
     end)
    internal_error.

(** [DeleteTaskTool.run] *)
Definition DeleteTaskTool_run (user_id : string) (task_id : value)
  : Session -> value * Session :=
  try_except
    (match UUID rt user_id with
     | None => ret (invalid_user_id user_id)
     | Some user_uuid =>
         task_id <- column_int task_id ;;
         found <- find_task task_id user_uuid ;;
         match found with
         | None => ret (task_not_found task_id)
         | Some task =>
             let task_title := Task.title task in
             delete_task_row task ;;;
             ret (task_result (VInt task_id) "deleted" task_title)
         end
     end)
    internal_error.

(** The attribute assignments of [UpdateTaskTool.run]: a field is
    assigned when its argument is not [None]. *)
Definition assign_title (title : value) (task : Task.t) : M Task.t :=
  match title with
  | VNone => ret task
  | _ =>
      new_title <- column_text title ;;
      ret (Task.mk (Task.id task) (Task.user_id task) new_title
             (Task.description task) (Task.completed task)
             (Task.created_at task) (Task.updated_at task))
  end.

Definition assign_description (description : value) (task : Task.t)
  : M Task.t :=
  match description with
  | VNone => ret task
  | _ =>
      new_description <- column_text description ;;
      ret (Task.mk (Task.id task) (Task.user_id task) (Task.title task)
             (Some new_description) (Task.completed task)
             (Task.created_at task) (Task.updated_at task))
  end.

(** [UpdateTaskTool.run] *)
Definition UpdateTaskTool_run (user_id : string) (task_id : value)
    (title description : value) : Session -> value * Session :=
  try_except
    (match UUID rt user_id with
     | None => ret (invalid_user_id user_id)
     | Some user_uuid =>
         match title, description with
         | VNone, VNone =>
             ret (error_result "validation_error"
                    "At least one of title or description must be provided")
         | _, _ =>
             task_id <- column_int task_id ;;
             found <- find_task task_id user_uuid ;;
             match found with
             | None => ret (task_not_found task_id)
             | Some task =>
                 task <- assign_title title task ;;
                 task <- assign_description description task ;;
                 task <- update_task_row task ;;
                 ret (task_result (opt_int_value (Task.id task)) "updated"
                                  (Task.title task))
             end
         end
     end)
    internal_error.

End Tools.

(** ** Declared input schemas ([mcp/schemas.py]) *)

Definition string_property (min_length : option Z) (max_length : option Z)
    (descr : string) : value :=
  VDict ([("type", VStr "string")]
         ++ match min_length with Some n => [("minLength", VInt n)] | None => [] end
         ++ match max_length with Some n => [("maxLength", VInt n)] | None => [] end
         ++ [("description", VStr descr)])%list.

Definition task_id_property (descr : string) : value :=
  VDict [("type", VStr "integer"); ("minimum", VInt 1);
         ("description", VStr descr)].

Definition object_schema (properties : dict) (required : list string) : value :=
  VDict [("type", VStr "object");
         ("properties", VDict properties);
         ("required", VList (map VStr required));
         ("additionalProperties", VBool false)].

Definition ADD_TASK_SCHEMA : value :=
  object_schema
    [("user_id", string_property None None "UUID of the user creating the task");
     ("title", string_property (Some 1) (Some 200) "Task title (1-200 characters)");
     ("description", string_property None (Some 1000)
                       "Optional task description (max 1000 characters)")]
    ["user_id"; "title"].

Definition LIST_TASKS_SCHEMA : value :=
  object_schema
    [("user_id", string_property None None "UUID of the user");
     ("status", VDict [("type", VStr "string");
                       ("enum", VList [VStr "all"; VStr "pending"; VStr "completed"]);
                       ("default", VStr "all");
                       ("description", VStr "Filter tasks by status")])]
    ["user_id"].

Definition COMPLETE_TASK_SCHEMA : value :=
  object_schema
    [("user_id", string_property None None "UUID of the user");
     ("task_id", task_id_property "ID of the task to complete")]
    ["user_id"; "task_id"].

Definition DELETE_TASK_SCHEMA : value :=
  object_schema
    [("user_id", string_property None None "UUID of the user");
     ("task_id", task_id_property "ID of the task to delete")]
    ["user_id"; "task_id"].

Definition UPDATE_TASK_SCHEMA : value :=
  object_schema
    [("user_id", string_property None None "UUID of the user");
     ("task_id", task_id_property "ID of the task to update");
     ("title", string_property (Some 1) (Some 200) "New task title (optional)");
     ("description", string_property None (Some 1000)
                       "New task description (optional)")]
    ["user_id"; "task_id"].

(** What a declared schema requires of an argument mapping, read as JSON
    Schema: property types, [minLength], [maxLength], [minimum], [enum],
    [required] and [additionalProperties].  No function of the sources
    evaluates a schema; this reading is used in statements only.  Lengths
    are counted on the model's strings. *)
Definition value_eqb_atom (a b : value) : bool :=
  match a, b with
  | VStr x, VStr y => String.eqb x y
  | VInt x, VInt y => Z.eqb x y
  | VBool x, VBool y => Bool.eqb x y
  | VNone, VNone => true
  | _, _ => false
  end.



(** ** Registry and dispatch ([mcp/server.py]) *)

Definition lift {A} (f : Session -> A * Session) : M A :=
  fun s => let (a, s') := f s in (inr a, s').

Definition as_str (v : value) : option string :=
  match v with VStr s => Some s | _ => None end.

(** Keyword binding of [tool.run(session, **kwargs)]: a key that is no
    parameter, or a required parameter without a key, is a [TypeError]. *)
Definition bind_kwargs (cls : string) (params required : list string)
    (kwargs : dict) (body : M value) : M value :=
  match filter (fun k => negb (existsb (String.eqb k) params)) (dict_keys kwargs) with
  | k :: _ =>
      raise (Exn TypeError
               (cls ++ ".run() got an unexpected keyword argument '" ++ k ++ "'"))
  | [] =>
      match filter (fun p => negb (dict_has p kwargs)) required with
      | p :: _ =>
          raise (Exn TypeError
                   (cls ++ ".run() missing 1 required positional argument: '"
                        ++ p ++ "'"))
      | [] => body
      end
  end.

Module Tool.
Record t := mk {
  name : string;
  description : string;
  input_schema : value;
  run : dict -> M value
}.
End Tool.

Section Registry.
Context (rt : Runtime).

(** The value bound to a parameter: the keyword's, else the default. *)
Definition arg (k : string) (default : value) (kwargs : dict) : value :=
  match dict_get k kwargs with Some v => v | None => default end.

(** [UUID(user_id)] on a [user_id] that is no string fails with an
    [AttributeError], which the tool's outer [except] reports. *)
Definition no_str_user_id : exn :=
  Exn OtherException "object has no attribute 'replace'".

Definition AddTaskTool : Tool.t :=
  Tool.mk "add_task" "Create a new task for the user" ADD_TASK_SCHEMA
    (fun kwargs =>
       bind_kwargs "AddTaskTool" ["user_id"; "title"; "description"]
         ["user_id"; "title"] kwargs
         (match as_str (arg "user_id" VNone kwargs) with
          | Some user_id =>
              lift (AddTaskTool_run rt user_id (arg "title" VNone kwargs)
                      (arg "description" VNone kwargs))
          | None => ret (internal_error no_str_user_id)
          end)).

Definition ListTasksTool : Tool.t :=
  Tool.mk "list_tasks"
    "List all tasks for the user, optionally filtered by status"
    LIST_TASKS_SCHEMA
    (fun kwargs =>
       bind_kwargs "ListTasksTool" ["user_id"; "status"] ["user_id"] kwargs
         (match as_str (arg "user_id" VNone kwargs) with
          | Some user_id =>
              lift (ListTasksTool_run rt user_id
                      (arg "status" (VStr "all") kwargs))
          | None => ret (VList [internal_error no_str_user_id])
          end)).

Definition CompleteTaskTool : Tool.t :=
  Tool.mk "complete_task" "Mark a task as completed" COMPLETE_TASK_SCHEMA
    (fun kwargs =>
       bind_kwargs "CompleteTaskTool" ["user_id"; "task_id"]
         ["user_id"; "task_id"] kwargs
         (match as_str (arg "user_id" VNone kwargs) with
          | Some user_id =>
              lift (CompleteTaskTool_run rt user_id
                      (arg "task_id" VNone kwargs))
          | None => ret (internal_error no_str_user_id)
          end)).

Definition DeleteTaskTool : Tool.t :=
  Tool.mk "delete_task" "Delete a task" DELETE_TASK_SCHEMA
    (fun kwargs =>
       bind_kwargs "DeleteTaskTool" ["user_id"; "task_id"]
         ["user_id"; "task_id"] kwargs
         (match as_str (arg "user_id" VNone kwargs) with
          | Some user_id =>
              lift (DeleteTaskTool_run rt user_id
                      (arg "task_id" VNone kwargs))
          | None => ret (internal_error no_str_user_id)
          end)).

Definition UpdateTaskTool : Tool.t :=
  Tool.mk "update_task" "Update a task's title and/or description"
    UPDATE_TASK_SCHEMA
    (fun kwargs =>
       bind_kwargs "UpdateTaskTool"
         ["user_id"; "task_id"; "title"; "description"]
         ["user_id"; "task_id"] kwargs
         (match as_str (arg "user_id" VNone kwargs) with
          | Some user_id =>
              lift (UpdateTaskTool_run rt user_id
                      (arg "task_id" VNone kwargs)
                      (arg "title" VNone kwargs)
                      (arg "description" VNone kwargs))
          | None => ret (internal_error no_str_user_id)
          end)).

(** The global registry [_tools]. *)
Definition _tools : list (string * Tool.t) :=
  [("add_task", AddTaskTool);
   ("list_tasks", ListTasksTool);
   ("complete_task", CompleteTaskTool);
   ("delete_task", DeleteTaskTool);
   ("update_task", UpdateTaskTool)].

Fixpoint lookup_tool (tool_name : string) (reg : list (string * Tool.t))
  : option Tool.t :=
  match reg with
  | [] => None
  | (k, tool) :: r =>
      if String.eqb tool_name k then Some tool else lookup_tool tool_name r
  end.

(** [execute_mcp_tool(tool_name=..., session=..., **kwargs)].  A key of
    [kwargs] that repeats one of the two named arguments fails the call. *)
Definition execute_mcp_tool (tool_name : string) (kwargs : dict) : M value :=
  if orb (dict_has "tool_name" kwargs) (dict_has "session" kwargs) then
    raise (Exn TypeError
             "execute_mcp_tool() got multiple values for keyword argument")
  else
    match lookup_tool tool_name _tools with
    | None => raise (Exn ValueError ("Unknown tool: " ++ tool_name))
    | Some tool => Tool.run tool kwargs
    end.

End Registry.

(** ** Conversation store ([services/conversation_service.py]) *)

Definition message_dict (role content : string) : value :=
  VDict [("role", VStr role); ("content", VStr content)].

Definition conversation_not_found (conversation_id : Z) : exn :=
  Exn ValueError ("Conversation " ++ string_of_Z conversation_id
                  ++ " not found or doesn't belong to user").

(** [select(Conversation).where(Conversation.id == conversation_id,
    Conversation.user_id == user_id)] *)
Definition select_conversation (conversation_id : Z) (user_id : uuid)
    (s : Session) : list Conversation.t :=
  filter (fun c => andb (opt_Z_eqb (Conversation.id c) (Some conversation_id))
                        (Z.eqb (Conversation.user_id c) user_id))
         (conversations s).

Definition find_conversation (conversation_id : Z) (user_id : uuid)
  : M (option Conversation.t) :=
  s <- get_session ;;
  scalar_one_or_none (select_conversation conversation_id user_id s).

(** [session.add(conversation); flush; refresh] *)
Definition add_conversation_row (c : Conversation.t) : M Conversation.t :=
  fun s =>
    let row := Conversation.mk (Some (conversations_id_seq s))
                 (Conversation.user_id c) (Conversation.created_at c)
                 (Conversation.updated_at c) in
    (inr row,
     mkSession (tasks s) (conversations s ++ [row])%list (messages s)
       (tasks_id_seq s) (conversations_id_seq s + 1) (messages_id_seq s)
       (clock s)).

(** [session.add(message); flush; refresh] *)
Definition add_message_row (m : Message.t) : M Message.t :=
  fun s =>
    let row := Message.mk (Some (messages_id_seq s)) (Message.conversation_id m)
                 (Message.user_id m) (Message.role m) (Message.content m)
                 (Message.created_at m) in
    (inr row,
     mkSession (tasks s) (conversations s) (messages s ++ [row])%list
       (tasks_id_seq s) (conversations_id_seq s) (messages_id_seq s + 1)
       (clock s)).

(** [update(Conversation).where(Conversation.id == conversation_id)
    .values(updated_at=...)] *)
Definition touch_conversation (conversation_id : Z) (updated : Z) : M unit :=
  fun s =>
    (inr tt,
     mkSession (tasks s)
       (map (fun c =>
               if opt_Z_eqb (Conversation.id c) (Some conversation_id)
               then Conversation.mk (Conversation.id c) (Conversation.user_id c)
                      (Conversation.created_at c) updated
               else c)
            (conversations s))
       (messages s)
       (tasks_id_seq s) (conversations_id_seq s) (messages_id_seq s)
       (clock s)).

(** The query of [get_conversation_messages]:
    [select(Message).where(Message.conversation_id == conversation_id)
     .order_by(desc(Message.created_at)).limit(limit)] *)
Definition newest_messages (conversation_id : Z) (limit : Z) (s : Session)
  : list Message.t :=
  firstn (Z.to_nat limit)
    (order_by_desc Message.created_at
       (filter (fun m => Z.eqb (Message.conversation_id m) conversation_id)
               (messages s))).

Section ConversationService.
Context (rt : Runtime).

(** [get_or_create_conversation] *)
Definition get_or_create_conversation (user_id : uuid)
    (conversation_id : option Z) : M Conversation.t :=
  match conversation_id with
  | Some cid =>
      found <- find_conversation cid user_id ;;
      match found with
      | None => raise (conversation_not_found cid)
      | Some conversation => ret conversation
      end
  | None =>
      created <- now rt ;;
      updated <- now rt ;;
      add_conversation_row (Conversation.mk None user_id created updated)
  end.

(** [get_conversation_messages]; the storage refuses a negative [LIMIT]. *)
Definition get_conversation_messages (conversation_id : Z) (user_id : uuid)
    (limit : Z) : M (list value) :=
  found <- find_conversation conversation_id user_id ;;
  match found with
  | None => raise (conversation_not_found conversation_id)
  | Some _ =>
      if Z.ltb limit 0 then
        raise (Exn OtherException "LIMIT must not be negative")
      else
        s <- get_session ;;
        let messages := rev (newest_messages conversation_id limit s) in
        ret (map (fun message =>
                    message_dict (Message.role message)
                                 (Message.content message))
                 messages)
  end.

(** [store_message] *)
Definition store_message (conversation_id : Z) (user_id : uuid)
    (role : string) (content : value) : M Message.t :=
  if negb (existsb (String.eqb role) ["user"; "assistant"]) then
    raise (Exn ValueError
             ("Invalid role: " ++ role ++ ". Must be 'user' or 'assistant'"))
  else
    found <- find_conversation conversation_id user_id ;;
    match found with
    | None => raise (conversation_not_found conversation_id)
    | Some _ =>
        created <- now rt ;;
        content <- column_text content ;;
        message <- add_message_row
                     (Message.mk None conversation_id user_id role content
                                 created) ;;
        updated <- now rt ;;
        touch_conversation conversation_id updated ;;;
        ret message
    end.

End ConversationService.

(** ** Orchestration loop ([ai/runner.py]) *)

Record tool_call := {
  tc_id : string;
  tc_type : string;
  tc_name : string;        (* [tool_call.function.name] *)
  tc_arguments : string    (* [tool_call.function.arguments], JSON text *)
}.

(** What one call of the reasoning engine yields: a failure, or a message
    with optional content and the requested tool calls ([None] and the
    empty list are both "no tool call"). *)
Inductive engine_response :=
| EngineRaises (e : exn)
| EngineMessage (content : option string) (tool_calls : list tool_call).

(** The engine, given the number of calls made before and the message
    array.  The model name and the tool catalog passed with every call are
    constants and are not among its inputs. *)
Definition Engine := nat -> list value -> engine_response.

Record run_state := mk_run_state {
  full_messages : list value;
  tool_calls_made : list value;
  iterations : Z;
  session : Session;
  (** bookkeeping of the model, not program state: the number of engine
      calls made and the calls handed to [execute_mcp_tool] *)
  reasoning_calls : nat;
  dispatched : list (string * dict)
}.

Definition tool_call_value (tc : tool_call) : value :=
  VDict [("id", VStr (tc_id tc));
         ("type", VStr (tc_type tc));
         ("function", VDict [("name", VStr (tc_name tc));
                             ("arguments", VStr (tc_arguments tc))])].

Definition opt_str_value (o : option string) : value :=
  match o with Some s => VStr s | None => VNone end.

Definition apology : string :=
  "I apologize, but I'm having trouble completing that request. Could you try rephrasing?".

Definition final_result (content : option string) (st : run_state) : value :=
  VDict [("assistant_message", opt_str_value content);
         ("tool_calls", VList (tool_calls_made st));
         ("iterations", VInt (iterations st))].

Definition max_iterations_result (st : run_state) : value :=
  VDict [("assistant_message", VStr apology);
         ("tool_calls", VList (tool_calls_made st));
         ("iterations", VInt (iterations st));
         ("error", VStr "max_iterations_reached")].

Definition audit_record (tool_name : string) (tool_args : dict)
    (tool_result : value) : value :=
  VDict [("tool", VStr tool_name);
         ("arguments", VDict tool_args);
         ("result", tool_result)].

(** The state in which the tool calls of a step are executed: one more
    iteration and engine call, and the assistant's message with its tool
    calls appended to the history. *)
Definition step_state (content : option string) (tool_calls : list tool_call)
    (st : run_state) : run_state :=
  mk_run_state
    (full_messages st
       ++ [VDict [("role", VStr "assistant");
                  ("content",
                   VStr (match content with Some c => c | None => "" end));
                  ("tool_calls", VList (map tool_call_value tool_calls))]])%list
    (tool_calls_made st) (iterations st + 1) (session st)
    (S (reasoning_calls st)) (dispatched st).

Section AgentRunner.
Context (rt : Runtime) (engine : Engine).

(** One pass of [for tool_call in assistant_message.tool_calls]. *)
Definition exec_tool_call (user_id : string) (tc : tool_call)
    (st : run_state) : (exn + unit) * run_state :=
  let tool_name := tc_name tc in
  match json_loads rt (tc_arguments tc) with
  | inl e => (inl e, st)
  | inr (VDict parsed) =>
      let tool_args := dict_set "user_id" (VStr user_id) parsed in
      let st1 := mk_run_state (full_messages st) (tool_calls_made st)
                   (iterations st) (session st) (reasoning_calls st)
                   (dispatched st ++ [(tool_name, tool_args)])%list in
      match execute_mcp_tool rt tool_name tool_args (session st) with
      | (inl e, s') =>
          (inl e,
           mk_run_state (full_messages st1) (tool_calls_made st1)
             (iterations st1) s' (reasoning_calls st1) (dispatched st1))
      | (inr tool_result, s') =>
          (inr tt,
           mk_run_state
             (full_messages st1
                ++ [VDict [("role", VStr "tool");
                           ("tool_call_id", VStr (tc_id tc));
                           ("name", VStr tool_name);
                           ("content", VStr (py_str rt tool_result))]])%list
             (tool_calls_made st1
                ++ [audit_record tool_name tool_args tool_result])%list
             (iterations st1) s' (reasoning_calls st1) (dispatched st1))
      end
  | inr _ =>
      (inl (Exn TypeError "object does not support item assignment"), st)
  end.

Fixpoint exec_tool_calls (user_id : string) (tcs : list tool_call)
    (st : run_state) : (exn + unit) * run_state :=
  match tcs with
  | [] => (inr tt, st)
  | tc :: rest =>
      match exec_tool_call user_id tc st with
      | (inl e, st') => (inl e, st')
      | (inr _, st') => exec_tool_calls user_id rest st'
      end
  end.

(** The [while iterations < max_iterations] loop.  [fuel] bounds the
    number of passes; [AgentRunner_run] starts it at [max_iterations],
    which the test of the loop never lets it exceed. *)
Fixpoint run_loop (user_id : string) (max_iterations : Z) (fuel : nat)
    (st : run_state) : (exn + value) * run_state :=
  match fuel with
  | O => (inr (max_iterations_result st), st)
  | S fuel' =>
      if Z.ltb (iterations st) max_iterations then
        let st1 := mk_run_state (full_messages st) (tool_calls_made st)
                     (iterations st + 1) (session st)
                     (S (reasoning_calls st)) (dispatched st) in
        match engine (reasoning_calls st) (full_messages st) with
        | EngineRaises e => (inl e, st1)
        | EngineMessage content [] => (inr (final_result content st1), st1)
        | EngineMessage content tool_calls =>
            let st2 := step_state content tool_calls st in
            match exec_tool_calls user_id tool_calls st2 with
            | (inl e, st3) => (inl e, st3)
            | (inr _, st3) => run_loop user_id max_iterations fuel' st3
            end
        end
      else (inr (max_iterations_result st), st)
  end.

(** [AgentRunner.run(session, user_id, messages, max_iterations)] *)
Definition AgentRunner_run (s : Session) (user_id : string)
    (messages : list value) (max_iterations : Z)
  : (exn + value) * run_state :=
  run_loop user_id max_iterations (Z.to_nat max_iterations)
    (mk_run_state
       (VDict [("role", VStr "system"); ("content", VStr (system_prompt rt))]
          :: messages)
       [] 0 s O []).

(** The default of the [max_iterations] parameter. *)
Definition default_max_iterations : Z := 5.

(** [AgentRunner.__init__]: the key given, else the environment's. *)
Definition AgentRunner_init (api_key : option string) : exn + string :=
  let key := match api_key with
             | Some k => if String.eqb k "" then OPENAI_API_KEY rt else Some k
             | None => OPENAI_API_KEY rt
             end in
  match key with
  | Some k => if String.eqb k "" then
                inl (Exn ValueError
                       "OPENAI_API_KEY environment variable is not set")
              else inr k
  | None => inl (Exn ValueError
                   "OPENAI_API_KEY environment variable is not set")
  end.

(** [run_agent]: construct a runner, run with the default budget. *)
Definition run_agent (s : Session) (user_id : string)
    (messages : list value) (api_key : option string)
  : (exn + value) * run_state :=
  match AgentRunner_init api_key with
  | inl e => (inl e, mk_run_state [] [] 0 s O [])
  | inr _ => AgentRunner_run s user_id messages default_max_iterations
  end.

End AgentRunner.

(** ** Fallback responder ([ai/mock_runner.py])

    The pictographs of the replies are written as short codes, and lengths
    are counted on the model's strings. *)

Definition pictograph (code : string) : string := ":" ++ code ++ ":".

(** Truth value of a Python value in a condition. *)
Definition truthy (v : value) : bool :=
  match v with
  | VNone => false
  | VBool b => b
  | VInt z => negb (Z.eqb z 0)
  | VStr s => negb (String.eqb s "")
  | VList l => match l with [] => false | _ => true end
  | VDict d => match d with [] => false | _ => true end
  end.

(** [any(keyword in s for keyword in keywords)] *)
Definition keyword_in (keywords : list string) (s : string) : bool :=
  existsb (fun keyword => contains keyword s) keywords.

(** [s.split(keyword, 1)[1]] when [keyword] occurs in [s]. *)
Fixpoint after_first (keyword s : string) : option string :=
  if prefix keyword s then
    Some (substring (String.length keyword)
                    (String.length s - String.length keyword) s)
  else match s with
       | EmptyString => None
       | String _ r => after_first keyword r
       end.

(** [t[k]] on a tool result. *)
Definition item (k : string) (t : value) : exn + value :=
  match t with
  | VDict d => match dict_get k d with
               | Some v => inr v
               | None => inl (Exn OtherException ("'" ++ k ++ "'"))
               end
  | _ => inl (Exn TypeError "object is not subscriptable")
  end.

(** [t.get(k, default)] on a tool result. *)
Definition get_or (k : string) (default : value) (t : value) : exn + value :=
  match t with
  | VDict d => inr (match dict_get k d with Some v => v | None => default end)
  | _ => inl (Exn OtherException "object has no attribute 'get'")
  end.

Definition exn_bind {A B} (m : exn + A) (f : A -> exn + B) : exn + B :=
  match m with inl e => inl e | inr a => f a end.

Section MockAgentRunner.
Context (rt : Runtime).

(** The text an f-string puts for a value. *)
Definition fmt (v : value) : string :=
  match v with
  | VStr s => s
  | VInt z => string_of_Z z
  | VNone => "None"
  | VBool true => "True"
  | VBool false => "False"
  | _ => py_str rt v
  end.

Definition nonempty (o : option string) : bool :=
  match o with Some s => negb (String.eqb s "") | None => false end.

(** Pattern 3 of [_handle_add_task]: the text after the first keyword of
    the list that occurs in the message. *)
Fixpoint after_keyword (keywords : list string) (message_lower : string)
  : option string :=
  match keywords with
  | [] => None
  | keyword :: rest =>
      if contains keyword message_lower then
        match after_first keyword message_lower with
        | Some tail => Some (sub_filler rt (strip rt tail))
        | None => after_keyword rest message_lower
        end
      else after_keyword rest message_lower
  end.

(** The description [_handle_add_task] extracts, patterns tried in order. *)
Definition add_description (message_lower : string) : option string :=
  let d1 := match search_add_to rt message_lower with
            | Some g => Some (strip rt g)
            | None => None
            end in
  let d2 := if nonempty d1 then d1
            else match search_add_plain rt message_lower with
                 | Some g => Some (strip rt g)
                 | None => d1
                 end in
  if nonempty d2 then d2
  else match after_keyword ["add"; "create"; "new task"; "todo"]
               message_lower with
       | Some d => Some d
       | None => d2
       end.

Definition too_short (description : option string) : bool :=
  match description with
  | Some d => orb (String.eqb d "") (Nat.ltb (String.length d) 3)
  | None => true
  end.

Definition reply := (string * list value)%type.

(** [_handle_add_task] *)
Definition _handle_add_task (user_id original_message message_lower : string)
  : Session -> reply * Session :=
  fun s =>
    let description := add_description message_lower in
    if too_short description then
      (("I'd be happy to add a task! Could you please tell me what you'd like to add? For example, 'Add a task to buy groceries'.", []), s)
    else
      let description := match description with Some d => d | None => "" end in
      match execute_mcp_tool rt "add_task"
              [("user_id", VStr user_id); ("title", VStr description);
               ("description", VNone)] s with
      | (inr result, s') =>
          match get_or "task_id" VNone result with
          | inr task_id =>
              if truthy task_id then
                ((pictograph "check" ++ " I've added the task: " ++ dquote
                    ++ description ++ dquote ++ newline ++ newline
                    ++ "Task ID: " ++ fmt task_id ++ newline ++ newline
                    ++ "Would you like to add another task or see your task list?",
                  [VDict [("tool", VStr "add_task");
                          ("arguments", VDict [("title", VStr description)]);
                          ("result", result)]]), s')
              else
                (("I tried to add the task, but encountered an issue: "
                    ++ match get_or "error" (VStr "Unknown error") result with
                       | inr v => fmt v
                       | inl _ => ""
                       end
                    ++ ". Please try again.", []), s')
          | inl e =>
              (("I encountered an error while adding the task: "
                  ++ exn_str e ++ ". Please try again.", []), s')
          end
      | (inl e, s') =>
          (("I encountered an error while adding the task: "
              ++ exn_str e ++ ". Please try again.", []), s')
      end.

(** The lines [f"  {task['id']}. {task['title']}\n"] of a task list. *)
Fixpoint task_lines (bullet : string) (tasks : list value) : exn + string :=
  match tasks with
  | [] => inr ""
  | task :: rest =>
      exn_bind (item "id" task) (fun id =>
      exn_bind (item "title" task) (fun title =>
      exn_bind (task_lines bullet rest) (fun lines =>
      inr ("  " ++ bullet ++ fmt id ++ ". " ++ fmt title ++ newline ++ lines))))
  end.

(** [[t for t in tasks if t.get("completed")]] and its complement. *)
Fixpoint split_completed (tasks : list value)
  : exn + (list value * list value) :=
  match tasks with
  | [] => inr ([], [])
  | t :: rest =>
      exn_bind (get_or "completed" VNone t) (fun c =>
      exn_bind (split_completed rest) (fun pc =>
      inr (if truthy c then (fst pc, t :: snd pc)
           else (t :: fst pc, snd pc))))
  end.

Definition list_response (tasks : list value) : exn + string :=
  exn_bind (split_completed tasks) (fun pc =>
  let pending_tasks := fst pc in
  let completed_tasks := snd pc in
  exn_bind (match pending_tasks with
            | [] => inr ""
            | _ => exn_bind (task_lines "" pending_tasks) (fun lines =>
                   inr ("**Pending:**" ++ newline ++ lines))
            end) (fun pending_part =>
  exn_bind (match completed_tasks with
            | [] => inr ""
            | _ =>
                exn_bind (task_lines (pictograph "tick" ++ " ")
                            (firstn 3 completed_tasks)) (fun lines =>
                inr (newline ++ "**Completed:** ("
                      ++ string_of_Z (Z.of_nat (List.length completed_tasks))
                      ++ ")" ++ newline ++ lines
                      ++ (if Nat.ltb 3 (List.length completed_tasks)
                          then "  ... and "
                               ++ string_of_Z
                                    (Z.of_nat (List.length completed_tasks) - 3)
                               ++ " more" ++ newline
                          else "")))
            end) (fun completed_part =>
  inr (pictograph "clipboard" ++ " Here are your tasks ("
         ++ string_of_Z (Z.of_nat (List.length tasks)) ++ " total):"
         ++ newline ++ newline ++ pending_part ++ completed_part
         ++ newline ++ "Need help with any of these tasks?")))).

(** [_handle_list_tasks]; the branch for a result that is no list refers
    to an unbound name, which its [except] turns into a reply. *)
Definition _handle_list_tasks (user_id : string)
  : Session -> reply * Session :=
  fun s =>
    match execute_mcp_tool rt "list_tasks"
            [("user_id", VStr user_id); ("status", VStr "all")] s with
    | (inr (VList tasks), s') =>
        let audit := [VDict [("tool", VStr "list_tasks");
                             ("arguments", VDict []);
                             ("result", VList tasks)]] in
        match tasks with
        | [] =>
            ((pictograph "clipboard"
                ++ " You don't have any tasks yet. Would you like to add one?",
              audit), s')
        | _ =>
            match list_response tasks with
            | inr response => ((response, audit), s')
            | inl e =>
                (("I encountered an error while fetching your tasks: "
                    ++ exn_str e, []), s')
            end
        end
    | (inr _, s') =>
        (("I encountered an error while fetching your tasks: name 'result' is not defined",
          []), s')
    | (inl e, s') =>
        (("I encountered an error while fetching your tasks: " ++ exn_str e,
          []), s')
    end.

(** The part the three task-addressing handlers share: the reply to a
    result that holds an error, and the success reply otherwise. *)
Definition reply_to_result (task_id : Z) (failure : string)
    (success : string) (audit : value -> value) (result : value)
  : exn + reply :=
  match result with
  | VDict d =>
      if dict_has "error" d then
        let error_msg :=
          match dict_get "message" d with
          | Some v => v
          | None => match dict_get "error" d with
                    | Some v => v
                    | None => VStr "Unknown error"
                    end
          end in
        match error_msg with
        | VStr text =>
            if contains "not found" (lower text) then
              inr ("I couldn't find task " ++ string_of_Z task_id
                     ++ ". Would you like to see your task list?", [])
            else inr (failure ++ text, [])
        | _ => inl (Exn OtherException "object has no attribute 'lower'")
        end
      else inr (success, [audit result])
  | VList l =>
      if existsb (value_eqb_atom (VStr "error")) l then
        inl (Exn OtherException "'list' object has no attribute 'get'")
      else inr (success, [audit result])
  | _ => inl (Exn TypeError "argument is not iterable")
  end.

Definition handled (r : exn + reply) : reply :=
  match r with
  | inr x => x
  | inl e => ("I encountered an error: " ++ exn_str e, [])
  end.

(** [_handle_complete_task] *)
Definition _handle_complete_task (user_id message_lower : string)
  : Session -> reply * Session :=
  fun s =>
    match search_task_number rt message_lower with
    | Some task_id =>
        if Z.eqb task_id 0 then
          (("Which task would you like to mark as complete? Please provide the task number (e.g., 'Complete task 1').", []), s)
        else
          match execute_mcp_tool rt "complete_task"
                  [("user_id", VStr user_id); ("task_id", VInt task_id)] s with
          | (inr result, s') =>
              (handled
                 (reply_to_result task_id "I couldn't complete that task: "
                    (pictograph "check" ++ " Great job! I've marked task "
                       ++ string_of_Z task_id ++ " as complete." ++ newline
                       ++ newline
                       ++ "Would you like to see your remaining tasks?")
                    (fun result =>
                       VDict [("tool", VStr "complete_task");
                              ("arguments", VDict [("task_id", VInt task_id)]);
                              ("result", result)])
                    result), s')
          | (inl e, s') => (handled (inl e), s')
          end
    | None =>
        (("Which task would you like to mark as complete? Please provide the task number (e.g., 'Complete task 1').", []), s)
    end.

(** [_handle_delete_task] *)
Definition _handle_delete_task (user_id message_lower : string)
  : Session -> reply * Session :=
  fun s =>
    match search_task_number rt message_lower with
    | Some task_id =>
        if Z.eqb task_id 0 then
          (("Which task would you like to delete? Please provide the task number (e.g., 'Delete task 1').", []), s)
        else
          match execute_mcp_tool rt "delete_task"
                  [("user_id", VStr user_id); ("task_id", VInt task_id)] s with
          | (inr result, s') =>
              (handled
                 (reply_to_result task_id "I couldn't delete that task: "
                    (pictograph "bin" ++ " I've deleted task "
                       ++ string_of_Z task_id ++ "." ++ newline ++ newline
                       ++ "Is there anything else I can help you with?")
                    (fun result =>
                       VDict [("tool", VStr "delete_task");
                              ("arguments", VDict [("task_id", VInt task_id)]);
                              ("result", result)])
                    result), s')
          | (inl e, s') => (handled (inl e), s')
          end
    | None =>
        (("Which task would you like to delete? Please provide the task number (e.g., 'Delete task 1').", []), s)
    end.

(** [_handle_update_task] *)
Definition _handle_update_task (user_id original_message message_lower : string)
  : Session -> reply * Session :=
  fun s =>
    let ask_which :=
      "Which task would you like to update? Please provide the task number and new description (e.g., 'Update task 1 to buy milk and bread')." in
    match search_task_number rt message_lower with
    | Some task_id =>
        if Z.eqb task_id 0 then ((ask_which, []), s)
        else
          let description :=
            match search_update_to rt message_lower with
            | Some g => Some (strip rt g)
            | None => None
            end in
          if too_short description then
            (("What would you like to change task " ++ string_of_Z task_id
                ++ " to?", []), s)
          else
            let description :=
              match description with Some d => d | None => "" end in
            match execute_mcp_tool rt "update_task"
                    [("user_id", VStr user_id); ("task_id", VInt task_id);
                     ("title", VStr description); ("description", VNone)] s with
            | (inr result, s') =>
                (handled
                   (reply_to_result task_id "I couldn't update that task: "
                      (pictograph "pencil" ++ " I've updated task "
                         ++ string_of_Z task_id ++ " to: " ++ dquote
                         ++ description ++ dquote ++ newline ++ newline
                         ++ "Anything else you'd like to change?")
                      (fun result =>
                         VDict [("tool", VStr "update_task");
                                ("arguments",
                                 VDict [("task_id", VInt task_id);
                                        ("description", VStr description)]);
                                ("result", result)])
                      result), s')
            | (inl e, s') => (handled (inl e), s')
            end
    | None => ((ask_which, []), s)
    end.

(** [_handle_default]: one of three replies, chosen by the length of the
    message. *)
Definition _handle_default (message : string) : string :=
  match Nat.modulo (String.length message) 3 with
  | O => "I'm here to help you manage your tasks! You can ask me to add, list, complete, delete, or update tasks. What would you like to do?"
  | S O => "I'm not quite sure what you'd like me to do. I can help with adding tasks, viewing your task list, marking tasks as complete, or deleting tasks. What do you need?"
  | _ => "I'm your task management assistant! Try asking me to 'list my tasks' or 'add a task to [something]'. How can I help?"
  end.

(** [_process_intent]: the first bucket with a keyword in the message. *)
Definition _process_intent (user_id original_message message_lower : string)
  : Session -> reply * Session :=
  if keyword_in ["add"; "create"; "new task"; "make a task"; "todo"]
                message_lower then
    _handle_add_task user_id original_message message_lower
  else if keyword_in ["list"; "show"; "what"; "tasks"; "my tasks";
                      "all tasks"; "view"] message_lower then
    _handle_list_tasks user_id
  else if keyword_in ["complete"; "finish"; "done"; "finished";
                      "mark as complete"] message_lower then
    _handle_complete_task user_id message_lower
  else if keyword_in ["delete"; "remove"; "cancel"] message_lower then
    _handle_delete_task user_id message_lower
  else if keyword_in ["update"; "change"; "modify"; "edit"; "rename"]
                     message_lower then
    _handle_update_task user_id original_message message_lower
  else if keyword_in ["help"; "what can you do"; "commands"; "how"]
                     message_lower then
    fun s => ((help_text rt, []), s)
  else
    fun s => ((_handle_default original_message, []), s).

(** [for msg in reversed(messages): if msg["role"] == "user": ...] *)
Fixpoint last_user_message (reversed_messages : list value) : exn + value :=
  match reversed_messages with
  | [] => inr (VStr "")
  | msg :: rest =>
      exn_bind (item "role" msg) (fun role =>
      if value_eqb_atom role (VStr "user") then item "content" msg
      else last_user_message rest)
  end.

Definition greeting : string :=
  "Hello! I'm your AI task assistant. I can help you manage your tasks. Try asking me to add a task, list your tasks, or mark one as complete!".

(** [MockAgentRunner.run]; the counter [conversation_count] of the
    instance is written and never read, and is left out. *)
Definition MockAgentRunner_run (user_id : string) (messages : list value)
  : M value :=
  fun s =>
    match last_user_message (rev messages) with
    | inl e => (inl e, s)
    | inr user_message =>
        if negb (truthy user_message) then
          (inr (VDict [("message", VStr greeting); ("tool_calls", VList [])]),
           s)
        else
          match user_message with
          | VStr text =>
              let (r, s') := _process_intent user_id text (lower text) s in
              (inr (VDict [("message", VStr (fst r));
                           ("tool_calls", VList (snd r))]), s')
          | _ =>
              (inl (Exn OtherException "object has no attribute 'lower'"), s)
          end
    end.

End MockAgentRunner.

(** ** Chat endpoint ([routes/chat.py]) *)

Module User.
Record t := mk { id : uuid; email : string; name : string }.
End User.

Module ChatRequest.
Record t := mk { message : string; conversation_id : option Z }.
End ChatRequest.

Module ChatResponse.
Record t := mk { conversation_id : Z; message : string; tool_calls : value }.
End ChatResponse.

(** What the endpoint hands back: the response, or an [HTTPException]. *)
Inductive http_result :=
| HTTP200 (response : ChatResponse.t)
| HTTPException (status_code : Z) (detail : string).

(** The test the endpoint applies to the text of a failure. *)
Definition quota_marker (error_str : string) : bool :=
  orb (contains "quota" (lower error_str))
      (orb (contains "rate" (lower error_str)) (contains "429" error_str)).

Definition mock_notice : string :=
  newline ++ newline ++ "_Note: Using mock AI responses (OpenAI quota exceeded)_".

(** [session.rollback()]: the tables return to what they held when the
    request began; identities drawn and time elapsed do not. *)
Definition rollback (s0 s : Session) : Session :=
  mkSession (tasks s0) (conversations s0) (messages s0)
    (tasks_id_seq s) (conversations_id_seq s) (messages_id_seq s) (clock s).

Section Chat.
Context (rt : Runtime) (engine : Engine).

(** [verify_user_access]; its [HTTPException] is raised inside the
    endpoint's [try]. *)
Definition verify_user_access (user_id : uuid) (current_user : User.t)
  : M unit :=
  if Z.eqb user_id (User.id current_user) then ret tt
  else raise (Exn OtherException "Access denied").

(** [AgentRunner()] followed by [agent_runner.run(..., max_iterations=5)]. *)
Definition run_agent_runner (user_id : string) (messages : list value)
  : M value :=
  fun s =>
    match AgentRunner_init rt None with
    | inl e => (inl e, s)
    | inr _ =>
        let (out, st) := AgentRunner_run rt engine s user_id messages 5 in
        (out, session st)
    end.

(** The inner [try ... except Exception as openai_error] of the endpoint. *)
Definition agent_or_mock (user_id : string) (messages : list value)
  : M value :=
  fun s =>
    match run_agent_runner user_id messages s with
    | (inr agent_result, s') => (inr agent_result, s')
    | (inl openai_error, s') =>
        if quota_marker (exn_str openai_error) then
          match MockAgentRunner_run rt user_id messages s' with
          | (inr agent_result, s'') =>
              match agent_result with
              | VDict d =>
                  let original_message :=
                    match dict_get "message" d with
                    | Some v => v
                    | None => VStr ""
                    end in
                  (inr (VDict (dict_set "message"
                                 (VStr (fmt rt original_message ++ mock_notice))
                                 d)), s'')
              | _ =>
                  (inl (Exn OtherException "object has no attribute 'get'"),
                   s'')
              end
          | (inl e, s'') => (inl e, s'')
          end
        else (inl openai_error, s')
    end.

(** [agent_result.get("message") or agent_result.get("assistant_message",
    "I apologize, but I encountered an error.")] *)
Definition assistant_message_of (agent_result : value) : exn + value :=
  exn_bind (get_or "message" VNone agent_result) (fun m =>
  if truthy m then inr m
  else get_or "assistant_message"
         (VStr "I apologize, but I encountered an error.") agent_result).

Definition liftE {A} (r : exn + A) : M A := fun s => (r, s).

(** The body of the endpoint's outer [try]. *)
Definition chat_body (user_id : uuid) (chat_request : ChatRequest.t)
    (current_user : User.t) : M ChatResponse.t :=
  verify_user_access user_id current_user ;;;
  conversation <- get_or_create_conversation rt (User.id current_user)
                    (ChatRequest.conversation_id chat_request) ;;
  conversation_id <- liftE (match Conversation.id conversation with
                            | Some i => inr i
                            | None => inl (Exn OtherException
                                             "conversation without identity")
                            end) ;;
  conversation_history <- get_conversation_messages conversation_id
                            (User.id current_user) 50 ;;
  let messages :=
    (conversation_history
       ++ [message_dict "user" (ChatRequest.message chat_request)])%list in
  agent_result <- agent_or_mock (uuid_str rt (User.id current_user))
                    messages ;;
  store_message rt conversation_id (User.id current_user) "user"
    (VStr (ChatRequest.message chat_request)) ;;;
  assistant_message <- liftE (assistant_message_of agent_result) ;;
  store_message rt conversation_id (User.id current_user) "assistant"
    assistant_message ;;;
  assistant_text <- column_text assistant_message ;;
  tool_calls <- liftE (get_or "tool_calls" (VList []) agent_result) ;;
  ret (ChatResponse.mk conversation_id assistant_text tool_calls).

(** [chat]: the two [except] clauses turn a failure of the body into an
    [HTTPException]; the second rolls the session back. *)
Definition chat (user_id : uuid) (chat_request : ChatRequest.t)
    (current_user : User.t) : Session -> http_result * Session :=
  fun s =>
    match chat_body user_id chat_request current_user s with
    | (inr response, s') => (HTTP200 response, s')
    | (inl e, s') =>
        match exn_class_of e with
        | ValueError => (HTTPException 400 (exn_str e), s')
        | _ =>
            (HTTPException 500
               "An error occurred while processing your request",
             rollback s s')
        end
    end.

End Chat.

(** ** Tool catalog ([mcp/server.py], [ai/converter.py]) *)

Section Catalog.
Context (rt : Runtime).

(** [get_mcp_tools] *)
Definition get_mcp_tools : list (string * Tool.t) := _tools rt.

(** [mcp_tool_to_openai_function] of [mcp/server.py] *)
Definition mcp_tool_to_openai_function (tool : Tool.t) : value :=
  VDict [("type", VStr "function");
         ("function",
          VDict [("name", VStr (Tool.name tool));
                 ("description", VStr (Tool.description tool));
                 ("parameters", Tool.input_schema tool)])].

(** [get_openai_functions]: one entry for each of [_tools.values()]. *)
Definition get_openai_functions : list value :=
  map (fun entry => mcp_tool_to_openai_function (snd entry)) (_tools rt).

(** [mcp_to_openai_function] of [ai/converter.py] *)
Definition mcp_to_openai_function (tool : Tool.t) : value :=
  VDict [("type", VStr "function");
         ("function",
          VDict [("name", VStr (Tool.name tool));
                 ("description", VStr (Tool.description tool));
                 ("parameters", Tool.input_schema tool)])].

(** [mcp_to_openai_functions]: the catalog [AgentRunner.__init__] keeps in
    [self.tools] and passes to every engine call. *)
Definition mcp_to_openai_functions : list value :=
  let tools := get_mcp_tools in
  map (fun entry => mcp_to_openai_function (snd entry)) tools.

(** [get_tool_definitions] *)
Definition get_tool_definitions : list value := mcp_to_openai_functions.

(** [init_mcp_server] *)
Definition init_mcp_server : value :=
  VDict [("server_name", VStr "todo-mcp-server");
         ("version", VStr "1.0.0");
         ("tools", VList (map (fun entry => VStr (fst entry)) (_tools rt)));
         ("tool_count", VInt (Z.of_nat (List.length (_tools rt))));
         ("status", VStr "initialized")].

End Catalog.

(** ** Conversation store, continued ([services/conversation_service.py]) *)

(** [session.delete(conversation); flush]: DELETE by primary key.  The
    relationship [Conversation.messages] of [models.py] is declared with
    [cascade="all, delete-orphan"]: the messages that refer to the
    conversation are deleted with it. *)
Definition delete_conversation_row (c : Conversation.t) : M unit :=
  fun s =>
    (inr tt,
     mkSession (tasks s)
       (filter (fun r => negb (opt_Z_eqb (Conversation.id r) (Conversation.id c)))
               (conversations s))
       (filter (fun m => negb (opt_Z_eqb (Some (Message.conversation_id m))
                                         (Conversation.id c)))
               (messages s))
       (tasks_id_seq s) (conversations_id_seq s) (messages_id_seq s)
       (clock s)).



(** [delete_conversation] *)
Definition delete_conversation (conversation_id : Z) (user_id : uuid)
  : M bool :=
  found <- find_conversation conversation_id user_id ;;
  match found with
  | None => ret false
  | Some conversation =>
      delete_conversation_row conversation ;;;
      ret true
  end.

(** ** Endpoints without a [try] of their own ([routes/chat.py],
    [routes/tasks.py]) and the session provider ([db.py]) *)

(** What such an endpoint hands back: the value it returns, or the
    [HTTPException] that leaves it. *)
Inductive outcome (A : Type) : Type :=
| Returned (a : A)
| Raised (status_code : Z) (detail : string).

Arguments Returned {A} a.
Arguments Raised {A} status_code detail.

(** The head [verify_user_access(user_id, current_user)] of an endpoint:
    its [HTTPException] (403) leaves the endpoint as raised.  An exception
    of the body that is no [HTTPException] is answered 500 by the
    framework. *)
Definition verified {A} (user_id : uuid) (current_user : User.t)
    (body : M (outcome A)) : Session -> outcome A * Session :=
  fun s =>
    match verify_user_access user_id current_user s with
    | (inl e, s') => (Raised 403 (exn_str e), s')
    | (inr _, s') =>
        match body s' with
        | (inr o, s'') => (o, s'')
        | (inl _, s'') => (Raised 500 "Internal Server Error", s'')
        end
    end.

(** [delete_conversation_endpoint] *)
Definition delete_conversation_endpoint (user_id : uuid) (conversation_id : Z)
    (current_user : User.t) : Session -> outcome value * Session :=
  verified user_id current_user
    (deleted <- delete_conversation conversation_id (User.id current_user) ;;
     if negb deleted then ret (Raised 404 "Conversation not found")
     else
       ret (Returned
              (VDict [("message", VStr "Conversation deleted successfully")]))).

(** The answer of [chat] as an outcome. *)
Definition outcome_of (r : http_result) : outcome ChatResponse.t :=
  match r with
  | HTTP200 response => Returned response
  | HTTPException status_code detail => Raised status_code detail
  end.

(** [get_session]: the endpoint runs at the [yield]; when it returns the
    session is committed, when it raises the session is rolled back and the
    exception raised again.  None of the endpoints modelled raises after a
    commit of its own, so the rollback goes back to the start of the
    request. *)
Definition get_session_scope {A} (endpoint : Session -> outcome A * Session)
  : Session -> outcome A * Session :=
  fun s =>
    match endpoint s with
    | (Returned a, s') => (Returned a, s')
    | (Raised status_code detail, s') =>
        (Raised status_code detail, rollback s s')
    end.

(** ** Task endpoints ([routes/tasks.py])

    The request bodies arrive validated by the request schemas; the
    endpoints are given their fields. *)

Section TaskRoutes.
Context (rt : Runtime).

(** [list_tasks]; [status] is the query parameter [status_filter]. *)
Definition list_tasks (user_id : uuid) (status : string)
    (current_user : User.t) : Session -> outcome (list Task.t) * Session :=
  verified user_id current_user
    (s <- get_session ;;
     ret (Returned (order_by_desc Task.created_at
                      (list_tasks_rows user_id (VStr status) s)))).

(** [create_task] *)
Definition create_task (user_id : uuid) (title : string)
    (description : option string) (current_user : User.t)
  : Session -> outcome Task.t * Session :=
  verified user_id current_user
    (new_task <- Task_new rt (User.id current_user) (VStr title)
                   (opt_str_value description) ;;
     new_task <- add_task_row new_task ;;
     ret (Returned new_task)).

(** [get_task] *)
Definition get_task (user_id : uuid) (task_id : Z) (current_user : User.t)
  : Session -> outcome Task.t * Session :=
  verified user_id current_user
    (found <- find_task task_id user_id ;;
     match found with
     | None => ret (Raised 404 "Task not found")
     | Some task => ret (Returned task)
     end).



(** [toggle_task_completion] *)
Definition toggle_task_completion (user_id : uuid) (task_id : Z)
    (current_user : User.t) : Session -> outcome Task.t * Session :=
  verified user_id current_user
    (found <- find_task task_id user_id ;;
     match found with
     | None => ret (Raised 404 "Task not found")
     | Some task =>
         updated <- now rt ;;
         task <- update_task_row
                   (Task.mk (Task.id task) (Task.user_id task) (Task.title task)
                      (Task.description task) (negb (Task.completed task))
                      (Task.created_at task) updated) ;;
         ret (Returned task)
     end).

End TaskRoutes.

(** ** Vocabulary of the statements *)


(** The test "the result is a mapping with an error key". *)
Definition is_error_mapping (result : value) : bool :=
  match result with
  | VDict d => dict_has "error" d
  | _ => false
  end.



(** Identities of conversations come from the sequence, and a message
    refers to a conversation that was given one. *)
Definition conversations_wf (s : Session) : Prop :=
  Forall (fun c => exists i, Conversation.id c = Some i
                             /\ i < conversations_id_seq s)
         (conversations s) /\
  Forall (fun m => Message.conversation_id m < conversations_id_seq s)
         (messages s).

(** The messages of one conversation, in table order. *)
Definition messages_of (conversation_id : Z) (s : Session) : list Message.t :=
  filter (fun m => Z.eqb (Message.conversation_id m) conversation_id)
         (messages s).

(** The session [store_message] leaves on success. *)
Definition after_store (rt : Runtime) (conversation_id : Z) (user_id : uuid)
    (role content : string) (s : Session) : Session :=
  mkSession (tasks s)
    (map (fun c =>
            if opt_Z_eqb (Conversation.id c) (Some conversation_id)
            then Conversation.mk (Conversation.id c) (Conversation.user_id c)
                   (Conversation.created_at c) (utcnow rt (S (clock s)))
            else c)
         (conversations s))
    (messages s
       ++ [Message.mk (Some (messages_id_seq s)) conversation_id user_id role
             content (utcnow rt (clock s))])%list
    (tasks_id_seq s) (conversations_id_seq s) (messages_id_seq s + 1)
    (S (S (clock s))).

(** The engine asks for at least one tool call at every step. *)
Definition always_requests_tools (engine : Engine) : Prop :=
  forall n msgs, exists content tc rest,
    engine n msgs = EngineMessage content (tc :: rest).

(** The parameters of each registered tool's [run] after [self] and
    [session], and those without a default. *)
Definition tool_signature (tool_name : string)
  : option (list string * list string) :=
  if String.eqb tool_name "add_task" then
    Some (["user_id"; "title"; "description"], ["user_id"; "title"])
  else if String.eqb tool_name "list_tasks" then
    Some (["user_id"; "status"], ["user_id"])
  else if String.eqb tool_name "complete_task" then
    Some (["user_id"; "task_id"], ["user_id"; "task_id"])
  else if String.eqb tool_name "delete_task" then
    Some (["user_id"; "task_id"], ["user_id"; "task_id"])
  else if String.eqb tool_name "update_task" then
    Some (["user_id"; "task_id"; "title"; "description"],
          ["user_id"; "task_id"])
  else None.

(** A requested tool call that can be dispatched: its arguments parse to a
    JSON object, its name is registered, every argument name is a parameter
    of the tool and every required parameter other than [user_id] is given. *)
Definition dispatchable (rt : Runtime) (tc : tool_call) : Prop :=
  exists parsed params required,
    json_loads rt (tc_arguments tc) = inr (VDict parsed)
    /\ tool_signature (tc_name tc) = Some (params, required)
    /\ Forall (fun k => In k params) (dict_keys parsed)
    /\ Forall (fun p => p = "user_id" \/ dict_has p parsed = true) required.

(** Every tool call the engine ever requests can be dispatched. *)
Definition requests_dispatchable (rt : Runtime) (engine : Engine) : Prop :=
  forall n msgs content tool_calls,
    engine n msgs = EngineMessage content tool_calls ->
    Forall (dispatchable rt) tool_calls.

(** Executing the tool call returns. *)
Definition dispatch_returns (rt : Runtime) (user_id : string) (tc : tool_call)
  : Prop :=
  forall st, exists st', exec_tool_call rt user_id tc st = (inr tt, st').

Definition requests_dispatch (rt : Runtime) (engine : Engine)
    (user_id : string) : Prop :=
  forall n msgs content tool_calls,
    engine n msgs = EngineMessage content tool_calls ->
    Forall (dispatch_returns rt user_id) tool_calls.

(** The rows of the task table that belong to other owners than [u]. *)
Definition tasks_of_others (u : uuid) (s : Session) : list Task.t :=
  filter (fun t => negb (Z.eqb (Task.user_id t) u)) (tasks s).


(** Every call handed to a tool carries the caller's [user_id]. *)
Definition caller_dispatched (user_id : string) (st : run_state) : Prop :=
  Forall (fun call => dict_get "user_id" (snd call) = Some (VStr user_id))
         (dispatched st).

(** Every record of the audit trail carries the caller's [user_id]. *)
Definition caller_recorded (user_id : string) (st : run_state) : Prop :=
  Forall (fun record =>
            exists tool_name tool_args tool_result,
              record = VDict [("tool", VStr tool_name);
                              ("arguments", VDict tool_args);
                              ("result", tool_result)]
              /\ dict_get "user_id" tool_args = Some (VStr user_id))
         (tool_calls_made st).

(** What a tool run on behalf of [u] may do to a session: keep the primary
    key discipline and leave the rows of other owners alone. *)
Definition frame (u : uuid) (s s' : Session) : Prop :=
  tasks_wf s' /\ tasks_of_others u s' = tasks_of_others u s.

(** What a call made on behalf of the caller [user_id] may do: the rows of
    other owners stay, and when [user_id] is no UUID every row stays. *)
Definition owner_frame (rt : Runtime) (user_id : string) (s s' : Session)
  : Prop :=
  tasks_wf s' /\
  match UUID rt user_id with
  | Some u => tasks_of_others u s' = tasks_of_others u s
  | None => tasks s' = tasks s
  end.

(** The name under which an entry of the catalog offers its function. *)
Definition function_name (entry : value) : option string :=
  match entry with
  | VDict d =>
      match dict_get "function" d with
      | Some (VDict f) =>
          match dict_get "name" f with
          | Some (VStr n) => Some n
          | _ => None
          end
      | _ => None
      end
  | _ => None
  end.


(** The part of the session the task tools do not address: the tables of
    conversations and messages with their identity sequences. *)
Definition chat_store (s : Session)
  : list Conversation.t * list Message.t * Z * Z :=
  (conversations s, messages s, conversations_id_seq s, messages_id_seq s).


(** A chat request as the framework serves it: the endpoint inside the
    scope of the session provider. *)
Definition chat_request_served (rt : Runtime) (engine : Engine)
    (user_id : uuid) (chat_request : ChatRequest.t) (current_user : User.t)
  : Session -> outcome ChatResponse.t * Session :=
  get_session_scope
    (fun s => let (r, s') := chat rt engine user_id chat_request current_user s in
              (outcome_of r, s')).

(** What a handler of the fallback responder may do: act for the caller
    and record at most one tool call. *)
Definition acts_for_caller (rt : Runtime) (user_id : string)
    (handler : Session -> reply * Session) : Prop :=
  forall s, tasks_wf s ->
            owner_frame rt user_id s (snd (handler s))
            /\ (List.length (snd (fst (handler s))) <= 1)%nat.

(** The call a record of the audit trail stands for. *)
Definition audited_call (record : value) : option (string * dict) :=
  match record with
  | VDict d =>
      match dict_get "tool" d, dict_get "arguments" d with
      | Some (VStr tool_name), Some (VDict tool_args) =>
          Some (tool_name, tool_args)
      | _, _ => None
      end
  | _ => None
  end.

(** The audit trail holds the calls handed to the tools, in order, but for
    the calls [pending]. *)
Definition audit_behind (st : run_state) (pending : list (string * dict))
  : Prop :=
  map Some (dispatched st)
  = (map audited_call (tool_calls_made st) ++ map Some pending)%list.

(** How a pass over tool calls ends: with the audit trail complete when it
    returns, one call behind at most when it raises. *)
Definition pass_ends (out : (exn + unit) * run_state) : Prop :=
  match fst out with
  | inr _ => audit_behind (snd out) []
  | inl _ => exists pending, audit_behind (snd out) pending
                             /\ (List.length pending <= 1)%nat
  end.

(** How a run of the loop ends. *)
Definition run_ends (out : (exn + value) * run_state) : Prop :=
  match fst out with
  | inr result =>
      audit_behind (snd out) []
      /\ item "tool_calls" result = inr (VList (tool_calls_made (snd out)))
  | inl _ => exists pending, audit_behind (snd out) pending
                             /\ (List.length pending <= 1)%nat
  end.

(** A message that reports the result of a tool call. *)
Definition is_tool_message (m : value) : bool :=
  match item "role" m with
  | inr role => value_eqb_atom role (VStr "tool")
  | inl _ => false
  end.

(** The history of a run is [base] followed by messages of the assistant
    and of tools, one of a tool for every record of the audit trail. *)
Definition history_grown (base : list value) (st : run_state) : Prop :=
  exists appended,
    full_messages st = (base ++ appended)%list
    /\ Forall (fun m => item "role" m = inr (VStr "assistant")
                        \/ item "role" m = inr (VStr "tool")) appended
    /\ List.length (filter is_tool_message appended)
       = List.length (tool_calls_made st).

(** ** A runtime and sessions for the examples *)

Definition alice : string := "11111111-1111-1111-1111-111111111111".
Definition bob : string := "22222222-2222-2222-2222-222222222222".

(** The JSON text [{"user_id": "<bob>"}]. *)
Definition json_user_id_bob : string :=
  "{" ++ dquote ++ "user_id" ++ dquote ++ ": " ++ dquote ++ bob ++ dquote ++ "}".

(** Two users, a clock that advances by one at each reading, and the JSON
    texts the examples use. *)
Definition example_runtime : Runtime :=
  {| UUID := fun s => if String.eqb s alice then Some 1
                      else if String.eqb s bob then Some 2 else None;
     uuid_str := fun u => if Z.eqb u 1 then alice
                          else if Z.eqb u 2 then bob else "";
     utcnow := fun n => Z.of_nat n;
     json_loads := fun s =>
       if String.eqb s "{}" then inr (VDict [])
       else if String.eqb s json_user_id_bob
            then inr (VDict [("user_id", VStr bob)])
            else inl (Exn ValueError "Expecting value");
     py_str := fun _ => "";
     search_task_number := fun _ => None;
     search_add_to := fun _ => None;
     search_add_plain := fun _ => None;
     search_update_to := fun _ => None;
     sub_filler := fun s => s;
     strip := fun s => s;
     OPENAI_API_KEY := Some "sk-test";
     system_prompt := "You are a helpful task management assistant called Todo Assistant.";
     help_text := "" |}.

Definition empty_session : Session := mkSession [] [] [] 1 1 1 O.

(** Alice owns task 1, Bob owns task 2. *)
Definition two_owner_session : Session :=
  mkSession
    [Task.mk (Some 1) 1 "Buy milk" (Some "2 litres") false 10 11;
     Task.mk (Some 2) 2 "Call mom" None false 12 13]
    [] [] 3 1 1 20%nat.

(** Alice's conversation 1 with three messages. *)
Definition conversation_session : Session :=
  mkSession []
    [Conversation.mk (Some 1) 1 0 6]
    [Message.mk (Some 1) 1 1 "user" "Add a task to buy milk" 2;
     Message.mk (Some 2) 1 1 "assistant" "Added." 4;
     Message.mk (Some 3) 1 1 "user" "Show my tasks" 5]
    1 2 4 7%nat.

(** An engine that asks for [list_tasks] without arguments at every step. *)
Definition listing_engine : Engine :=
  fun _ _ => EngineMessage None
               [{| tc_id := "call_123"; tc_type := "function";
                   tc_name := "list_tasks"; tc_arguments := "{}" |}].

(** An engine that asks at every step for a tool that is not registered. *)
Definition unknown_tool_engine : Engine :=
  fun _ _ => EngineMessage None
               [{| tc_id := "call_1"; tc_type := "function";
                   tc_name := "archive_task"; tc_arguments := "{}" |}].

(** An engine that asks at every step for [add_task] without a title. *)
Definition untitled_engine : Engine :=
  fun _ _ => EngineMessage None
               [{| tc_id := "call_1"; tc_type := "function";
                   tc_name := "add_task"; tc_arguments := "{}" |}].

(** An engine that asks once for [list_tasks] on behalf of Bob, then
    answers. *)
Definition impersonating_engine : Engine :=
  fun n _ =>
    match n with
    | O => EngineMessage None
             [{| tc_id := "call_1"; tc_type := "function";
                 tc_name := "list_tasks"; tc_arguments := json_user_id_bob |}]
    | _ => EngineMessage (Some "Here are your tasks.") []
    end.





Definition alice_user : User.t := User.mk 1 "alice@example.com" "Alice".

Definition show_tasks_request : ChatRequest.t :=
  ChatRequest.mk "Show my tasks" None.

(** [two_owner_session] after the endpoint created conversation 1 for Alice. *)
Definition chat_started : Session :=
  mkSession (tasks two_owner_session) [Conversation.mk (Some 1) 1 20 21] []
    3 2 1 22%nat.


(** ** Further examples *)

(** The JSON text [{"title": "Buy eggs"}]. *)
Definition json_title_eggs : string :=
  "{" ++ dquote ++ "title" ++ dquote ++ ": " ++ dquote ++ "Buy eggs" ++ dquote
      ++ "}".

(** [example_runtime] with the engine's key as given, the JSON text above,
    and the matches of the two patterns on the messages of the examples. *)
Definition second_runtime (key : option string) : Runtime :=
  {| UUID := UUID example_runtime;
     uuid_str := uuid_str example_runtime;
     utcnow := utcnow example_runtime;
     json_loads := fun s =>
       if String.eqb s json_title_eggs
       then inr (VDict [("title", VStr "Buy eggs")])
       else json_loads example_runtime s;
     py_str := py_str example_runtime;
     search_task_number := fun s =>
       if String.eqb s "complete task 1" then Some 1
       else if String.eqb s "change task 2 to buy bread" then Some 2
       else None;
     search_add_to := search_add_to example_runtime;
     search_add_plain := search_add_plain example_runtime;
     search_update_to := fun s =>
       if String.eqb s "change task 2 to buy bread" then Some "buy bread"
       else None;
     sub_filler := sub_filler example_runtime;
     strip := strip example_runtime;
     OPENAI_API_KEY := key;
     system_prompt := system_prompt example_runtime;
     help_text := help_text example_runtime |}.

(** An engine that answers at once, and one that answers at once without
    content. *)
Definition answering_engine : Engine :=
  fun _ _ => EngineMessage (Some "You have one task: Buy milk.") [].



Definition bob_user : User.t := User.mk 2 "bob@example.com" "Bob".


(** * Properties *)

(** ** Dictionaries *)

Lemma dict_get_set_same (k : string) (v : value) (d : dict) :
  dict_get k (dict_set k v d) = Some v.
Proof.
  induction d as [|[k' v'] r IH]; simpl.
  - now rewrite String.eqb_refl.
  - destruct (String.eqb k k') eqn:E; simpl.
    + now rewrite String.eqb_refl.
    + now rewrite E.
Qed.

Lemma dict_get_set_other (k k' : string) (v : value) (d : dict) :
  k' <> k -> dict_get k' (dict_set k v d) = dict_get k' d.
Proof.
  intros Hne. induction d as [|[k0 v0] r IH]; simpl.
  - destruct (String.eqb k' k) eqn:E; auto.
    apply String.eqb_eq in E. contradiction.
  - destruct (String.eqb k k0) eqn:E; simpl.
    + apply String.eqb_eq in E. subst k0.
      destruct (String.eqb k' k) eqn:E'; auto.
      apply String.eqb_eq in E'. contradiction.
    + now rewrite IH.
Qed.

(** ** Ordering *)

Section Ordering.
Context {A : Type} (key : A -> Z).

Lemma insert_desc_perm (x : A) (l : list A) :
  Permutation (x :: l) (insert_desc key x l).
Proof.
  induction l as [|y r IH]; simpl; auto.
  destruct (Z.ltb (key y) (key x)); auto.
  eapply perm_trans; [apply perm_swap|]. now constructor.
Qed.

Lemma order_by_desc_perm (l : list A) :
  Permutation l (order_by_desc key l).
Proof.
  induction l as [|x r IH]; simpl; auto.
  eapply perm_trans; [|apply insert_desc_perm]. now constructor.
Qed.





End Ordering.

(** ** Primary keys *)

Lemma opt_Z_eqb_eq (a b : option Z) : opt_Z_eqb a b = true <-> a = b.
Proof.
  destruct a, b; simpl; try (split; congruence).
  rewrite Z.eqb_eq. split; congruence.
Qed.

Lemma opt_Z_eqb_refl (a : option Z) : opt_Z_eqb a a = true.
Proof. now apply opt_Z_eqb_eq. Qed.

Lemma select_task_absent (tid : Z) (u : uuid) (s : Session) :
  (forall r, In r (tasks s) -> Task.id r = Some tid -> Task.user_id r <> u) ->
  select_task tid u s = [].
Proof.
  unfold select_task. intros H.
  induction (tasks s) as [|r l IH]; simpl; auto.
  destruct (opt_Z_eqb (Task.id r) (Some tid)) eqn:E1; simpl.
  - destruct (Z.eqb (Task.user_id r) u) eqn:E2.
    + apply opt_Z_eqb_eq in E1. apply Z.eqb_eq in E2.
      exfalso. apply (H r); simpl; auto.
    + apply IH. intros; apply H; simpl; auto.
  - apply IH. intros; apply H; simpl; auto.
Qed.

Lemma select_task_present (tid : Z) (s : Session) (t : Task.t) :
  NoDup (map Task.id (tasks s)) ->
  In t (tasks s) -> Task.id t = Some tid ->
  select_task tid (Task.user_id t) s = [t].
Proof.
  unfold select_task. intros Hnd Hin Hid.
  induction (tasks s) as [|r l IH]; simpl in *; [contradiction|].
  inversion Hnd as [|? ? Hnotin Hnd']; subst.
  destruct Hin as [->|Hin].
  - rewrite Hid, opt_Z_eqb_refl, Z.eqb_refl. simpl. f_equal.
    change (filter _ l) with
      (select_task tid (Task.user_id t) (mkSession l [] [] 0 0 0 O)).
    apply select_task_absent. simpl. intros r Hr Hrid _.
    apply Hnotin. rewrite Hid, <- Hrid. now apply in_map.
  - destruct (opt_Z_eqb (Task.id r) (Some tid)) eqn:E1; simpl.
    + apply opt_Z_eqb_eq in E1. exfalso. apply Hnotin.
      rewrite E1, <- Hid. now apply in_map.
    + now apply IH.
Qed.

Ltac run_m :=
  unfold try_except, column_int, column_text, column_opt_text,
    bind, ret, raise, lift; simpl.

(** ** Tools *)

Section ToolProperties.
Context (rt : Runtime).

Lemma find_task_present (tid : Z) (s : Session) (t : Task.t) :
  NoDup (map Task.id (tasks s)) ->
  In t (tasks s) -> Task.id t = Some tid ->
  find_task tid (Task.user_id t) s = (inr (Some t), s).
Proof.
  intros. unfold find_task, bind, get_session.
  now rewrite (select_task_present tid s t).
Qed.

Lemma find_task_absent (tid : Z) (u : uuid) (s : Session) :
  (forall r, In r (tasks s) -> Task.id r = Some tid -> Task.user_id r <> u) ->
  find_task tid u s = (inr None, s).
Proof.
  intros. unfold find_task, bind, get_session.
  now rewrite select_task_absent.
Qed.

Lemma delete_removes_key (t : Task.t) (s : Session) (r : Task.t) :
  In r (tasks (snd (delete_task_row t s))) -> Task.id r <> Task.id t.
Proof.
  simpl. intros Hin Heq. apply filter_In in Hin. destruct Hin as [_ Hneg].
  rewrite Heq, opt_Z_eqb_refl in Hneg. discriminate.
Qed.

(** The three tools that address one task, on a task that the query
    finds and on one it does not. *)
Lemma CompleteTaskTool_found (user_id : string) (u : uuid) (tid : Z)
    (t : Task.t) (s : Session) :
  UUID rt user_id = Some u ->
  find_task tid u s = (inr (Some t), s) ->
  CompleteTaskTool_run rt user_id (VInt tid) s
  = (task_result (opt_int_value (Task.id t)) "completed" (Task.title t),
     snd (update_task_row
            (Task.mk (Task.id t) (Task.user_id t) (Task.title t)
               (Task.description t) true (Task.created_at t)
               (Task.updated_at t)) s)).
Proof.
  intros Hu Hf. unfold CompleteTaskTool_run. rewrite Hu. run_m.
  now rewrite Hf.
Qed.


Lemma DeleteTaskTool_found (user_id : string) (u : uuid) (tid : Z)
    (t : Task.t) (s : Session) :
  UUID rt user_id = Some u ->
  find_task tid u s = (inr (Some t), s) ->
  DeleteTaskTool_run rt user_id (VInt tid) s
  = (task_result (VInt tid) "deleted" (Task.title t),
     snd (delete_task_row t s)).
Proof.
  intros Hu Hf. unfold DeleteTaskTool_run. rewrite Hu. run_m.
  now rewrite Hf.
Qed.

Lemma DeleteTaskTool_not_found (user_id : string) (u : uuid) (tid : Z)
    (s : Session) :
  UUID rt user_id = Some u ->
  find_task tid u s = (inr None, s) ->
  DeleteTaskTool_run rt user_id (VInt tid) s = (task_not_found tid, s).
Proof.
  intros Hu Hf. unfold DeleteTaskTool_run. rewrite Hu. run_m.
  now rewrite Hf.
Qed.



(** Dispatch by name with the keywords of each signature. *)
Lemma execute_delete_task (user_id : string) (task_id : value) (s : Session) :
  execute_mcp_tool rt "delete_task"
    [("user_id", VStr user_id); ("task_id", task_id)] s
  = lift (DeleteTaskTool_run rt user_id task_id) s.
Proof. reflexivity. Qed.





End ToolProperties.

(** C7. Deleting the same task twice: the first call returns the success
    result with status "deleted" and the title the task had, the second
    returns the not_found error result; both calls return (neither raises). *)
Theorem delete_task_twice (rt : Runtime) (s : Session) (owner : string)
    (tid : Z) (t : Task.t) :
  UUID rt owner = Some (Task.user_id t) ->
  NoDup (map Task.id (tasks s)) ->
  In t (tasks s) ->
  Task.id t = Some tid ->
  exists s1,
    execute_mcp_tool rt "delete_task"
      [("user_id", VStr owner); ("task_id", VInt tid)] s
    = (inr (VDict [("task_id", VInt tid); ("status", VStr "deleted");
                   ("title", VStr (Task.title t))]), s1)
    /\ ~ In t (tasks s1)
    /\ execute_mcp_tool rt "delete_task"
         [("user_id", VStr owner); ("task_id", VInt tid)] s1
       = (inr (VDict [("error", VStr "not_found");
                      ("message",
                       VStr ("Task " ++ string_of_Z tid ++ " not found"))]), s1).
Proof.
  intros Hu Hnd Hin Hid.
  exists (snd (delete_task_row t s)).
  rewrite !execute_delete_task. unfold lift.
  split; [|split].
  - rewrite (DeleteTaskTool_found rt owner _ tid t s Hu); auto.
    now apply find_task_present.
  - intros Hin'. apply delete_removes_key in Hin'. congruence.
  - rewrite (DeleteTaskTool_not_found rt owner _ tid _ Hu); auto.
    apply find_task_absent.
    intros r Hr Hrid. apply delete_removes_key in Hr. congruence.
Qed.

(** A run of C7: Alice deletes her task 1 twice. *)
Lemma delete_task_twice_witness :
  exists s1,
    execute_mcp_tool example_runtime "delete_task"
      [("user_id", VStr alice); ("task_id", VInt 1)] two_owner_session
    = (inr (VDict [("task_id", VInt 1); ("status", VStr "deleted");
                   ("title", VStr "Buy milk")]), s1)
    /\ ~ In (Task.mk (Some 1) 1 "Buy milk" (Some "2 litres") false 10 11)
            (tasks s1)
    /\ execute_mcp_tool example_runtime "delete_task"
         [("user_id", VStr alice); ("task_id", VInt 1)] s1
       = (inr (VDict [("error", VStr "not_found");
                      ("message", VStr "Task 1 not found")]), s1).
Proof.
  apply (delete_task_twice example_runtime two_owner_session alice 1
           (Task.mk (Some 1) 1 "Buy milk" (Some "2 litres") false 10 11)).
  - reflexivity.
  - simpl. repeat constructor; simpl; intuition discriminate.
  - simpl. auto.
  - reflexivity.
Defined.

Lemma nodup_key_unique {A B} (f : A -> B) (l : list A) (x y : A) :
  NoDup (map f l) -> In x l -> In y l -> f x = f y -> x = y.
Proof.
  induction l as [|z r IH]; simpl; [contradiction|].
  intros Hnd Hx Hy Hf. inversion Hnd as [|? ? Hnotin Hnd']; subst.
  destruct Hx as [->|Hx], Hy as [->|Hy]; auto.
  - exfalso. apply Hnotin. rewrite Hf. now apply in_map.
  - exfalso. apply Hnotin. rewrite <- Hf. now apply in_map.
Qed.



(** C10. With an owner that is no well-formed identifier, list_tasks
    returns a one-element list holding the validation_error mapping, while
    add_task, complete_task, delete_task and update_task return that mapping
    itself; the test for a mapping with an error key, which recognises the
    error of the four, does not recognise the error of list_tasks. *)
Theorem list_tasks_wraps_validation_error (rt : Runtime) (s : Session)
    (owner : string) (status task_id title description : value) :
  UUID rt owner = None ->
  let error :=
    VDict [("error", VStr "validation_error");
           ("message", VStr ("Invalid user_id format: " ++ owner))] in
  ListTasksTool_run rt owner status s = (VList [error], s) /\
  AddTaskTool_run rt owner title description s = (error, s) /\
  CompleteTaskTool_run rt owner task_id s = (error, s) /\
  DeleteTaskTool_run rt owner task_id s = (error, s) /\
  UpdateTaskTool_run rt owner task_id title description s = (error, s) /\
  is_error_mapping error = true /\
  is_error_mapping (VList [error]) = false.
Proof.
  intros Hu error.
  unfold ListTasksTool_run, AddTaskTool_run, CompleteTaskTool_run,
    DeleteTaskTool_run, UpdateTaskTool_run.
  rewrite Hu. repeat split.
Qed.

(** A run of C10 with the owner "invalid-uuid". *)
Lemma list_tasks_wraps_validation_error_witness :
  let error :=
    VDict [("error", VStr "validation_error");
           ("message", VStr "Invalid user_id format: invalid-uuid")] in
  ListTasksTool_run example_runtime "invalid-uuid" (VStr "all") empty_session
  = (VList [error], empty_session) /\
  AddTaskTool_run example_runtime "invalid-uuid" (VStr "Test task") VNone
    empty_session = (error, empty_session) /\
  CompleteTaskTool_run example_runtime "invalid-uuid" (VInt 1) empty_session
  = (error, empty_session) /\
  DeleteTaskTool_run example_runtime "invalid-uuid" (VInt 1) empty_session
  = (error, empty_session) /\
  UpdateTaskTool_run example_runtime "invalid-uuid" (VInt 1) (VStr "Test task")
    VNone empty_session = (error, empty_session) /\
  is_error_mapping error = true /\
  is_error_mapping (VList [error]) = false.
Proof.
  apply (list_tasks_wraps_validation_error example_runtime empty_session
           "invalid-uuid" (VStr "all") (VInt 1) (VStr "Test task") VNone).
  reflexivity.
Defined.








(** ** Conversation store *)





Section ConversationProperties.
Context (rt : Runtime).






End ConversationProperties.

Lemma filter_none {A} (f : A -> bool) (l : list A) :
  Forall (fun x => f x = false) l -> filter f l = [].
Proof.
  induction 1 as [|x r Hx Hr IH]; simpl; auto. now rewrite Hx.
Qed.

Lemma select_conversation_absent (cid : Z) (u : uuid) (s : Session) :
  (forall c, In c (conversations s) -> Conversation.id c <> Some cid) ->
  select_conversation cid u s = [].
Proof.
  unfold select_conversation. intros H.
  induction (conversations s) as [|c l IH]; simpl; auto.
  destruct (opt_Z_eqb (Conversation.id c) (Some cid)) eqn:E; simpl.
  - apply opt_Z_eqb_eq in E. exfalso. apply (H c); simpl; auto.
  - apply IH. intros; apply H; simpl; auto.
Qed.

Lemma find_conversation_present (cid : Z) (s : Session) (c : Conversation.t) :
  NoDup (map Conversation.id (conversations s)) ->
  In c (conversations s) -> Conversation.id c = Some cid ->
  find_conversation cid (Conversation.user_id c) s = (inr (Some c), s).
Proof.
  unfold find_conversation, bind, get_session, select_conversation.
  intros Hnd Hin Hid.
  enough (E : filter
                (fun c0 => andb (opt_Z_eqb (Conversation.id c0) (Some cid))
                             (Z.eqb (Conversation.user_id c0)
                                    (Conversation.user_id c)))
                (conversations s) = [c]) by now rewrite E.
  induction (conversations s) as [|r l IH]; simpl in *; [contradiction|].
  inversion Hnd as [|? ? Hnotin Hnd']; subst.
  destruct Hin as [->|Hin].
  - rewrite Hid, opt_Z_eqb_refl, Z.eqb_refl. simpl. f_equal.
    change (filter _ l) with
      (select_conversation cid (Conversation.user_id c)
         (mkSession [] l [] 0 0 0 O)).
    apply select_conversation_absent. simpl. intros r Hr Hrid.
    apply Hnotin. rewrite Hid, <- Hrid. now apply in_map.
  - destruct (opt_Z_eqb (Conversation.id r) (Some cid)) eqn:E1; simpl.
    + apply opt_Z_eqb_eq in E1. exfalso. apply Hnotin.
      rewrite E1, <- Hid. now apply in_map.
    + now apply IH.
Qed.




(** ** Orchestration loop *)

Section LoopProperties.
Context (rt : Runtime) (engine : Engine) (user_id : string).

Lemma exec_tool_call_counters (tc : tool_call) (st : run_state) :
  reasoning_calls (snd (exec_tool_call rt user_id tc st)) = reasoning_calls st
  /\ iterations (snd (exec_tool_call rt user_id tc st)) = iterations st.
Proof.
  unfold exec_tool_call.
  destruct (json_loads rt (tc_arguments tc)) as [e|[| | | | |parsed]];
    simpl; auto.
  destruct (execute_mcp_tool rt _ _ _) as [[e|r] s']; simpl; auto.
Qed.

Lemma exec_tool_calls_counters (tcs : list tool_call) (st : run_state) :
  reasoning_calls (snd (exec_tool_calls rt user_id tcs st)) = reasoning_calls st
  /\ iterations (snd (exec_tool_calls rt user_id tcs st)) = iterations st.
Proof.
  revert st. induction tcs as [|tc rest IH]; intros st; simpl; auto.
  destruct (exec_tool_call_counters tc st) as [H1 H2].
  destruct (exec_tool_call rt user_id tc st) as [[e|[]] st']; simpl in *; auto.
  destruct (IH st') as [H3 H4]. split; congruence.
Qed.

Lemma run_loop_step (max_iterations : Z) (fuel : nat) (st : run_state)
    (content : option string) (tc : tool_call) (rest : list tool_call) :
  Z.ltb (iterations st) max_iterations = true ->
  engine (reasoning_calls st) (full_messages st)
  = EngineMessage content (tc :: rest) ->
  run_loop rt engine user_id max_iterations (S fuel) st
  = match exec_tool_calls rt user_id (tc :: rest)
            (step_state content (tc :: rest) st) with
    | (inl e, st3) => (inl e, st3)
    | (inr _, st3) => run_loop rt engine user_id max_iterations fuel st3
    end.
Proof. intros Hlt Heng. cbn [run_loop]. now rewrite Hlt, Heng. Qed.

(** Each pass of the loop makes one engine call and consumes one unit of
    fuel. *)
Lemma run_loop_calls_bounded (max_iterations : Z) (fuel : nat)
    (st : run_state) :
  (reasoning_calls (snd (run_loop rt engine user_id max_iterations fuel st))
   <= reasoning_calls st + fuel)%nat.
Proof.
  revert st. induction fuel as [|fuel IH]; intros st; [simpl; lia|].
  destruct (Z.ltb (iterations st) max_iterations) eqn:Hlt;
    [|cbn [run_loop]; rewrite Hlt; simpl; lia].
  destruct (engine (reasoning_calls st) (full_messages st))
    as [e|content [|tc rest]] eqn:Heng;
    try (cbn [run_loop]; rewrite Hlt, Heng; simpl; lia).
  rewrite (run_loop_step _ _ _ _ _ _ Hlt Heng).
  pose proof (exec_tool_calls_counters (tc :: rest)
                (step_state content (tc :: rest) st)) as [Hc _].
  destruct (exec_tool_calls rt user_id (tc :: rest) _) as [[e|[]] st3];
    simpl in *; [lia|].
  specialize (IH st3). lia.
Qed.

Lemma exec_tool_calls_returns (tcs : list tool_call) (st : run_state) :
  Forall (dispatch_returns rt user_id) tcs ->
  exists st', exec_tool_calls rt user_id tcs st = (inr tt, st').
Proof.
  intros H. revert st. induction H as [|tc rest Htc Hrest IH]; intros st.
  - exists st. reflexivity.
  - simpl. destruct (Htc st) as [st1 E]. rewrite E. apply IH.
Qed.

(** An engine that keeps asking for tools, all of which dispatch, runs
    the loop until the budget is used up. *)
Lemma run_loop_exhausts (max_iterations : Z) (fuel : nat) (st : run_state) :
  always_requests_tools engine ->
  requests_dispatch rt engine user_id ->
  iterations st + Z.of_nat fuel = max_iterations ->
  exists st',
    run_loop rt engine user_id max_iterations fuel st
    = (inr (max_iterations_result st'), st')
    /\ reasoning_calls st' = (reasoning_calls st + fuel)%nat
    /\ iterations st' = max_iterations.
Proof.
  intros Hall Hdisp. revert st.
  induction fuel as [|fuel IH]; intros st Hit.
  - exists st. simpl. repeat split; lia.
  - assert (Hlt : Z.ltb (iterations st) max_iterations = true)
      by (apply Z.ltb_lt; lia).
    destruct (Hall (reasoning_calls st) (full_messages st))
      as (content & tc & rest & Heng).
    rewrite (run_loop_step _ _ _ _ _ _ Hlt Heng).
    pose proof (Hdisp _ _ _ _ Heng) as Hfa.
    destruct (exec_tool_calls_returns (tc :: rest)
                (step_state content (tc :: rest) st) Hfa) as [st3 E3].
    pose proof (exec_tool_calls_counters (tc :: rest)
                  (step_state content (tc :: rest) st)) as [Hc Hi].
    rewrite E3 in *. simpl in Hc, Hi.
    destruct (IH st3) as (st' & Hrun & Hcalls & Hits); [lia|].
    exists st'. repeat split; auto. lia.
Qed.

End LoopProperties.

Lemma dict_keys_set (P : string -> Prop) (k : string) (v : value) (d : dict) :
  P k -> Forall P (dict_keys d) -> Forall P (dict_keys (dict_set k v d)).
Proof.
  intros Hk. induction d as [|[k' v'] r IH]; simpl; intros H.
  - repeat constructor. exact Hk.
  - inversion H; subst. destruct (String.eqb k k'); simpl; constructor; auto.
Qed.

Lemma dict_get_outside (k : string) (params : list string) (d : dict) :
  Forall (fun k' => In k' params) (dict_keys d) -> ~ In k params ->
  dict_get k d = None.
Proof.
  intros H Hk. induction d as [|[k' v'] r IH]; simpl in *; auto.
  inversion H; subst. destruct (String.eqb k k') eqn:E.
  - apply String.eqb_eq in E. subst. contradiction.
  - auto.
Qed.

Lemma existsb_eqb_in (k : string) (params : list string) :
  In k params -> existsb (String.eqb k) params = true.
Proof.
  intros H. apply existsb_exists. exists k. split; auto.
  apply String.eqb_refl.
Qed.

Lemma bind_kwargs_fits (cls : string) (params required : list string)
    (kwargs : dict) (body : M value) :
  Forall (fun k => In k params) (dict_keys kwargs) ->
  Forall (fun p => dict_has p kwargs = true) required ->
  bind_kwargs cls params required kwargs body = body.
Proof.
  intros Hkeys Hreq. unfold bind_kwargs.
  rewrite filter_none.
  - rewrite filter_none; auto.
    eapply Forall_impl; [|exact Hreq]. simpl. intros p Hp. now rewrite Hp.
  - eapply Forall_impl; [|exact Hkeys]. simpl. intros k Hk.
    now rewrite existsb_eqb_in.
Qed.

Lemma lift_eq {A} (f : Session -> A * Session) (s : Session) :
  lift f s = (inr (fst (f s)), snd (f s)).
Proof. unfold lift. now destruct (f s). Qed.

(** A dispatchable call is executed and returns, for any caller. *)
Lemma dispatchable_returns (rt : Runtime) (user_id : string) (tc : tool_call) :
  dispatchable rt tc -> dispatch_returns rt user_id tc.
Proof.
  intros (parsed & params & required & Hjson & Hsig & Hkeys & Hreq) st.
  unfold exec_tool_call. rewrite Hjson.
  set (kwargs := dict_set "user_id" (VStr user_id) parsed).
  assert (Hin : In "user_id" params).
  { unfold tool_signature in Hsig.
    repeat match type of Hsig with
           | (if ?c then _ else _) = _ => destruct c
           end; inversion Hsig; subst; simpl; auto. }
  assert (Hkeys' : Forall (fun k => In k params) (dict_keys kwargs))
    by (apply dict_keys_set; auto).
  assert (Hreq' : Forall (fun p => dict_has p kwargs = true) required).
  { eapply Forall_impl; [|exact Hreq]. simpl. intros p [->|Hp].
    - unfold dict_has, kwargs. now rewrite dict_get_set_same.
    - unfold dict_has, kwargs in *.
      destruct (String.eqb p "user_id") eqn:E.
      + apply String.eqb_eq in E. subst. now rewrite dict_get_set_same.
      + apply String.eqb_neq in E. now rewrite dict_get_set_other. }
  assert (Hget : dict_get "user_id" kwargs = Some (VStr user_id))
    by apply dict_get_set_same.
  assert (Hexec : exists r s',
             execute_mcp_tool rt (tc_name tc) kwargs (session st) = (inr r, s')).
  { unfold execute_mcp_tool, dict_has.
    assert (Hno : forall k, ~ In k params -> dict_get k kwargs = None)
      by (intros k; now apply dict_get_outside).
    unfold tool_signature in Hsig. unfold _tools, lookup_tool.
    repeat match type of Hsig with
           | (if String.eqb (tc_name tc) ?k then _ else _) = _ =>
               destruct (String.eqb (tc_name tc) k)
           end; inversion Hsig; subst params required;
      rewrite !Hno by (simpl; intuition discriminate);
      change (orb false false) with false; cbv iota;
      unfold Tool.run, AddTaskTool, ListTasksTool, CompleteTaskTool,
        DeleteTaskTool, UpdateTaskTool;
      rewrite bind_kwargs_fits by assumption;
      unfold arg; rewrite Hget;
      change (as_str (VStr user_id)) with (Some user_id); cbv iota beta;
      rewrite lift_eq; eauto. }
  destruct Hexec as (r & s' & Hexec). rewrite Hexec. eauto.
Qed.

(** C1. The loop makes at most max_iterations engine calls (none when
    max_iterations is not positive), whatever the engine answers.  When the
    engine asks for at least one tool call at every step and every requested
    call can be dispatched (JSON object arguments, a registered tool name,
    argument names that fit the tool's parameters), the loop makes exactly
    max_iterations engine calls and
    returns the fixed apology with the audit trail, the iteration count and
    the marker "max_iterations_reached"; with the default budget that is
    five calls. *)
Theorem run_stays_within_budget (rt : Runtime) (engine : Engine)
    (s : Session) (user_id : string) (messages : list value) :
  (forall max_iterations : Z,
      Z.of_nat (reasoning_calls
                  (snd (AgentRunner_run rt engine s user_id messages
                          max_iterations)))
      <= Z.max 0 max_iterations)
  /\
  (always_requests_tools engine ->
   requests_dispatchable rt engine ->
   (forall max_iterations : Z,
       exists st,
         AgentRunner_run rt engine s user_id messages max_iterations
         = (inr (VDict [("assistant_message",
                         VStr "I apologize, but I'm having trouble completing that request. Could you try rephrasing?");
                        ("tool_calls", VList (tool_calls_made st));
                        ("iterations", VInt (Z.max 0 max_iterations));
                        ("error", VStr "max_iterations_reached")]), st)
         /\ reasoning_calls st = Z.to_nat max_iterations)
   /\
   (forall api_key : string,
       api_key <> "" ->
       exists st,
         run_agent rt engine s user_id messages (Some api_key)
         = (inr (VDict [("assistant_message", VStr apology);
                        ("tool_calls", VList (tool_calls_made st));
                        ("iterations", VInt 5);
                        ("error", VStr "max_iterations_reached")]), st)
         /\ reasoning_calls st = 5%nat)).
Proof.
  split.
  - intros max_iterations. unfold AgentRunner_run.
    match goal with
    | |- context [run_loop rt engine user_id max_iterations ?f ?st0] =>
        pose proof (run_loop_calls_bounded rt engine user_id max_iterations
                      f st0) as H
    end.
    simpl in H. lia.
  - intros Hall Hsyntax.
    assert (Hdisp : requests_dispatch rt engine user_id).
    { intros n msgs content tool_calls Heng.
      eapply Forall_impl; [|exact (Hsyntax _ _ _ _ Heng)].
      intros tc. apply dispatchable_returns. }
    assert (Hrun : forall max_iterations : Z,
               exists st,
                 AgentRunner_run rt engine s user_id messages max_iterations
                 = (inr (max_iterations_result st), st)
                 /\ reasoning_calls st = Z.to_nat max_iterations
                 /\ iterations st = Z.max 0 max_iterations).
    { intros max_iterations. unfold AgentRunner_run.
      destruct (Z.le_gt_cases 0 max_iterations) as [Hnn|Hneg].
      - match goal with
        | |- context [run_loop rt engine user_id max_iterations ?f ?st0] =>
            destruct (run_loop_exhausts rt engine user_id max_iterations f st0
                        Hall Hdisp) as (st & E & Hc & Hi)
        end.
        + simpl. lia.
        + exists st. simpl in Hc. repeat split; auto. lia.
      - assert (E : Z.to_nat max_iterations = O) by lia.
        rewrite E. simpl. eexists. repeat split; simpl; lia. }
    split.
    + intros max_iterations.
      destruct (Hrun max_iterations) as (st & E & Hc & Hi).
      exists st. split; auto. rewrite E. unfold max_iterations_result.
      now rewrite Hi.
    + intros api_key Hkey. unfold run_agent, AgentRunner_init.
      assert (E : String.eqb api_key "" = false) by now apply String.eqb_neq.
      rewrite E.
      destruct (Hrun default_max_iterations) as (st & E' & Hc & Hi).
      exists st. split; auto. rewrite E'. unfold max_iterations_result.
      rewrite E, Hi. reflexivity.
Qed.

(** A run of C1: the engine that always lists tasks, with a budget of two
    and with the default budget. *)
Lemma run_stays_within_budget_witness :
  Z.of_nat (reasoning_calls
              (snd (AgentRunner_run example_runtime listing_engine
                      two_owner_session alice [message_dict "user" "Test"] 2)))
  <= Z.max 0 2
  /\
  (exists st,
      AgentRunner_run example_runtime listing_engine two_owner_session alice
        [message_dict "user" "Test"] 2
      = (inr (VDict [("assistant_message",
                      VStr "I apologize, but I'm having trouble completing that request. Could you try rephrasing?");
                     ("tool_calls", VList (tool_calls_made st));
                     ("iterations", VInt (Z.max 0 2));
                     ("error", VStr "max_iterations_reached")]), st)
      /\ reasoning_calls st = Z.to_nat 2)
  /\
  (exists st,
      run_agent example_runtime listing_engine two_owner_session alice
        [message_dict "user" "Test"] (Some "sk-test")
      = (inr (VDict [("assistant_message", VStr apology);
                     ("tool_calls", VList (tool_calls_made st));
                     ("iterations", VInt 5);
                     ("error", VStr "max_iterations_reached")]), st)
      /\ reasoning_calls st = 5%nat).
Proof.
  destruct (run_stays_within_budget example_runtime listing_engine
              two_owner_session alice [message_dict "user" "Test"])
    as [Hbound Hexact].
  split; [apply Hbound|].
  destruct Hexact as [Hrun Hdefault].
  - intros n msgs. do 3 eexists. reflexivity.
  - intros n msgs content tool_calls E. inversion E; subst.
    constructor; [|constructor].
    exists [], ["user_id"; "status"], ["user_id"].
    repeat split; repeat constructor.
  - split; [apply Hrun|]. apply Hdefault. discriminate.
Defined.

(** C1 as stated fails: an engine that asks for a tool at every step but
    names a tool that is not registered, or leaves out a required argument,
    makes the loop raise after the first engine call. *)
Lemma run_raises_on_undispatchable_call :
  (always_requests_tools unknown_tool_engine
   /\ exists st,
       AgentRunner_run example_runtime unknown_tool_engine two_owner_session
         alice [message_dict "user" "Archive task 1"] 5
       = (inl (Exn ValueError "Unknown tool: archive_task"), st)
       /\ reasoning_calls st = 1%nat)
  /\
  (always_requests_tools untitled_engine
   /\ exists st,
       AgentRunner_run example_runtime untitled_engine two_owner_session
         alice [message_dict "user" "Add a task"] 5
       = (inl (Exn TypeError
                 "AddTaskTool.run() missing 1 required positional argument: 'title'"),
          st)
       /\ reasoning_calls st = 1%nat).
Proof.
  split; (split; [intros n msgs; do 3 eexists; reflexivity|]);
    eexists; split; reflexivity.
Qed.

(** ** Owner isolation of the tools *)

Section OwnerFrame.
Context (rt : Runtime) (u : uuid).

Lemma find_task_found (tid : Z) (s s' : Session) (t : Task.t) :
  find_task tid u s = (inr (Some t), s') ->
  s' = s /\ In t (tasks s) /\ Task.id t = Some tid /\ Task.user_id t = u.
Proof.
  unfold find_task, bind, get_session, scalar_one_or_none.
  destruct (select_task tid u s) as [|r [|r' l]] eqn:E; simpl;
    intros H; try discriminate.
  injection H as Ht Hs. subst r s'.
  assert (Hin : In t (select_task tid u s)) by (rewrite E; simpl; auto).
  unfold select_task in Hin. apply filter_In in Hin.
  destruct Hin as [Hin Hb]. apply andb_true_iff in Hb.
  destruct Hb as [Hb1 Hb2]. apply opt_Z_eqb_eq in Hb1. apply Z.eqb_eq in Hb2.
  auto.
Qed.

Lemma find_task_session (tid : Z) (s : Session) :
  snd (find_task tid u s) = s.
Proof.
  unfold find_task, bind, get_session, scalar_one_or_none.
  now destruct (select_task tid u s) as [|r [|r' l]].
Qed.

Lemma frame_add (t : Task.t) (s : Session) :
  tasks_wf s -> Task.user_id t = u ->
  frame u s (snd (add_task_row t s)).
Proof.
  intros [Hnd Hbound] Hu. unfold frame, tasks_wf, tasks_of_others. simpl.
  repeat split.
  - rewrite map_app. simpl.
    apply NoDup_app; auto.
    + repeat constructor. intros [].
    + intros x Hx [<-|[]]. apply in_map_iff in Hx.
      destruct Hx as (r & Hr & Hin). rewrite Forall_forall in Hbound.
      destruct (Hbound r Hin) as (i & Hi & Hlt). rewrite Hi in Hr.
      inversion Hr. lia.
  - apply Forall_app. split.
    + eapply Forall_impl; [|exact Hbound]. simpl.
      intros r (i & Hi & Hlt). exists i. split; auto. lia.
    + constructor; [|constructor]. simpl. eexists. split; eauto. lia.
  - rewrite filter_app. simpl. rewrite Hu, Z.eqb_refl. simpl.
    apply app_nil_r.
Qed.

Lemma frame_update (t t' : Task.t) (s : Session) :
  tasks_wf s -> In t (tasks s) ->
  Task.user_id t = u -> Task.user_id t' = u -> Task.id t' = Task.id t ->
  frame u s (snd (update_task_row t' s)).
Proof.
  intros [Hnd Hbound] Hin Hu Hu' Hid. unfold frame, tasks_wf, tasks_of_others.
  simpl.
  assert (Hids : map Task.id
                   (map (fun r => if opt_Z_eqb (Task.id r) (Task.id t')
                                  then t' else r) (tasks s))
                 = map Task.id (tasks s)).
  { rewrite map_map. apply map_ext. intros r.
    destruct (opt_Z_eqb (Task.id r) (Task.id t')) eqn:E; auto.
    apply opt_Z_eqb_eq in E. congruence. }
  repeat split.
  - now rewrite Hids.
  - rewrite Forall_forall in *. intros r Hr. apply in_map_iff in Hr.
    destruct Hr as (r0 & Hr0 & Hin0).
    destruct (opt_Z_eqb (Task.id r0) (Task.id t')) eqn:E; subst r.
    + rewrite Hid. now apply Hbound.
    + now apply Hbound.
  - clear Hbound Hids. induction (tasks s) as [|r l IH]; simpl in *; auto.
    apply NoDup_cons_iff in Hnd as [Hnotin Hnd'].
    destruct (opt_Z_eqb (Task.id r) (Task.id t')) eqn:E.
    + apply opt_Z_eqb_eq in E.
      assert (r = t).
      { destruct Hin as [->|Hin]; auto. exfalso. apply Hnotin.
        rewrite E, Hid. now apply in_map. }
      subst r. rewrite Hu, Hu', Z.eqb_refl. simpl.
      assert (Hl : forall r0, In r0 l -> Task.id r0 <> Task.id t').
      { intros r0 Hr0 Heq. apply Hnotin. rewrite <- Hid, <- Heq.
        now apply in_map. }
      clear - Hl. induction l as [|r0 l IH]; simpl; auto.
      assert (E0 : opt_Z_eqb (Task.id r0) (Task.id t') = false).
      { destruct (opt_Z_eqb _ _) eqn:E0; auto. apply opt_Z_eqb_eq in E0.
        exfalso. apply (Hl r0); simpl; auto. }
      rewrite E0. rewrite IH by (intros; apply Hl; simpl; auto).
      reflexivity.
    + destruct Hin as [->|Hin].
      * rewrite Hid, opt_Z_eqb_refl in E. discriminate.
      * rewrite (IH Hnd' Hin). reflexivity.
Qed.

Lemma frame_delete (t : Task.t) (s : Session) :
  tasks_wf s -> In t (tasks s) -> Task.user_id t = u ->
  frame u s (snd (delete_task_row t s)).
Proof.
  intros [Hnd Hbound] Hin Hu. unfold frame, tasks_wf, tasks_of_others. simpl.
  repeat split.
  - clear Hbound Hin. induction (tasks s) as [|r l IH]; simpl in *; auto.
    apply NoDup_cons_iff in Hnd as [Hnotin Hnd'].
    destruct (negb (opt_Z_eqb (Task.id r) (Task.id t))); simpl; auto.
    constructor; auto. intros Hx. apply Hnotin.
    apply in_map_iff in Hx. destruct Hx as (r0 & Hr0 & Hin0).
    apply filter_In in Hin0. rewrite <- Hr0. apply in_map. tauto.
  - rewrite Forall_forall in *. intros r Hr. apply filter_In in Hr.
    apply Hbound. tauto.
  - clear Hbound. induction (tasks s) as [|r l IH]; simpl in *; auto.
    apply NoDup_cons_iff in Hnd as [Hnotin Hnd'].
    destruct (opt_Z_eqb (Task.id r) (Task.id t)) eqn:E; simpl.
    + apply opt_Z_eqb_eq in E.
      assert (r = t).
      { destruct Hin as [->|Hin]; auto. exfalso. apply Hnotin.
        rewrite E. now apply in_map. }
      subst r. rewrite Hu, Z.eqb_refl. simpl.
      assert (Hl : forall r0, In r0 l -> Task.id r0 <> Task.id t).
      { intros r0 Hr0 Heq. apply Hnotin. rewrite <- Heq. now apply in_map. }
      clear - Hl. induction l as [|r0 l IH]; simpl; auto.
      assert (E0 : opt_Z_eqb (Task.id r0) (Task.id t) = false).
      { destruct (opt_Z_eqb _ _) eqn:E0; auto. apply opt_Z_eqb_eq in E0.
        exfalso. apply (Hl r0); simpl; auto. }
      rewrite E0. simpl. rewrite IH by (intros; apply Hl; simpl; auto).
      reflexivity.
    + destruct Hin as [->|Hin].
      * rewrite opt_Z_eqb_refl in E. discriminate.
      * destruct (negb (Z.eqb (Task.user_id r) u)); simpl;
          now rewrite (IH Hnd' Hin).
Qed.

End OwnerFrame.

Section ToolFrames.
Context (rt : Runtime) (user_id : string).

Lemma owner_frame_of_frame (u : uuid) (s s' : Session) :
  UUID rt user_id = Some u -> frame u s s' -> owner_frame rt user_id s s'.
Proof. intros Hu [H1 H2]. unfold owner_frame. now rewrite Hu. Qed.

Lemma owner_frame_same_tasks (s s' : Session) :
  tasks_wf s -> tasks s' = tasks s -> tasks_id_seq s' = tasks_id_seq s ->
  owner_frame rt user_id s s'.
Proof.
  intros Hwf Ht Hseq. unfold owner_frame, tasks_wf, tasks_of_others in *.
  rewrite Ht, Hseq. split; auto. now destruct (UUID rt user_id).
Qed.

Lemma owner_frame_trans (s1 s2 s3 : Session) :
  owner_frame rt user_id s1 s2 -> owner_frame rt user_id s2 s3 ->
  owner_frame rt user_id s1 s3.
Proof.
  unfold owner_frame. intros [_ H12] [Hwf H23]. split; auto.
  destruct (UUID rt user_id); congruence.
Qed.

Ltac same_tasks Hwf :=
  apply owner_frame_same_tasks; [exact Hwf | reflexivity | reflexivity].

Lemma AddTaskTool_frame (title description : value) (s : Session) :
  tasks_wf s ->
  owner_frame rt user_id s (snd (AddTaskTool_run rt user_id title description s)).
Proof.
  intros Hwf. unfold AddTaskTool_run.
  destruct (UUID rt user_id) as [u|] eqn:Hu; [|same_tasks Hwf].
  unfold Task_new. run_m.
  destruct title; simpl; try same_tasks Hwf.
  destruct description; simpl; try same_tasks Hwf.
  - apply (owner_frame_of_frame u); auto.
    apply (frame_add u
             (Task.mk None u s0 None false (utcnow rt (clock s))
                (utcnow rt (S (clock s))))
             (snd (now rt (snd (now rt s))))); auto.
  - apply (owner_frame_of_frame u); auto.
    apply (frame_add u
             (Task.mk None u s0 (Some s1) false (utcnow rt (clock s))
                (utcnow rt (S (clock s))))
             (snd (now rt (snd (now rt s))))); auto.
Qed.

Lemma ListTasksTool_frame (status : value) (s : Session) :
  tasks_wf s ->
  owner_frame rt user_id s (snd (ListTasksTool_run rt user_id status s)).
Proof.
  intros Hwf. unfold ListTasksTool_run.
  destruct (UUID rt user_id) as [u|] eqn:Hu; same_tasks Hwf.
Qed.

Lemma CompleteTaskTool_frame (task_id : value) (s : Session) :
  tasks_wf s ->
  owner_frame rt user_id s (snd (CompleteTaskTool_run rt user_id task_id s)).
Proof.
  intros Hwf. unfold CompleteTaskTool_run.
  destruct (UUID rt user_id) as [u|] eqn:Hu; [|same_tasks Hwf].
  run_m. destruct task_id as [| |tid| | |]; simpl; try same_tasks Hwf.
  pose proof (find_task_session u tid s) as Hs.
  destruct (find_task tid u s) as [[e|[t|]] s'] eqn:Hf; simpl in *; subst s';
    try same_tasks Hwf.
  apply find_task_found in Hf. destruct Hf as (_ & Hin & Hid & Hown).
  apply (owner_frame_of_frame u); auto.
  apply (frame_update u t
           (Task.mk (Task.id t) (Task.user_id t) (Task.title t)
              (Task.description t) true (Task.created_at t)
              (Task.updated_at t)) s); auto.
Qed.

Lemma DeleteTaskTool_frame (task_id : value) (s : Session) :
  tasks_wf s ->
  owner_frame rt user_id s (snd (DeleteTaskTool_run rt user_id task_id s)).
Proof.
  intros Hwf. unfold DeleteTaskTool_run.
  destruct (UUID rt user_id) as [u|] eqn:Hu; [|same_tasks Hwf].
  run_m. destruct task_id as [| |tid| | |]; simpl; try same_tasks Hwf.
  pose proof (find_task_session u tid s) as Hs.
  destruct (find_task tid u s) as [[e|[t|]] s'] eqn:Hf; simpl in *; subst s';
    try same_tasks Hwf.
  apply find_task_found in Hf. destruct Hf as (_ & Hin & Hid & Hown).
  apply (owner_frame_of_frame u); auto.
  apply (frame_delete u t s); auto.
Qed.

Lemma assign_title_keeps (title : value) (task : Task.t) (s : Session) :
  snd (assign_title title task s) = s /\
  forall t', fst (assign_title title task s) = inr t' ->
             Task.id t' = Task.id task /\ Task.user_id t' = Task.user_id task.
Proof.
  unfold assign_title.
  destruct title; run_m; split; auto; intros t' H; inversion H; auto.
Qed.

Lemma assign_description_keeps (descr : value) (task : Task.t) (s : Session) :
  snd (assign_description descr task s) = s /\
  forall t', fst (assign_description descr task s) = inr t' ->
             Task.id t' = Task.id task /\ Task.user_id t' = Task.user_id task.
Proof.
  unfold assign_description.
  destruct descr; run_m; split; auto; intros t' H; inversion H; auto.
Qed.

Lemma UpdateTaskTool_frame (task_id title descr : value) (s : Session) :
  tasks_wf s ->
  owner_frame rt user_id s
    (snd (UpdateTaskTool_run rt user_id task_id title descr s)).
Proof.
  intros Hwf. unfold UpdateTaskTool_run.
  destruct (UUID rt user_id) as [u|] eqn:Hu; [|same_tasks Hwf].
  assert (Hfound :
            forall t, In t (tasks s) -> Task.user_id t = u ->
              owner_frame rt user_id s
                (snd (try_except
                        (task <- assign_title title t ;;
                         task <- assign_description descr task ;;
                         task <- update_task_row task ;;
                         ret (task_result (opt_int_value (Task.id task))
                                "updated" (Task.title task)))
                        internal_error s))).
  { intros t Hin Hown. unfold try_except, bind.
    destruct (assign_title_keeps title t s) as [Hs1 Ht1].
    destruct (assign_title title t s) as [[e|t1] s1]; simpl in *; subst s1;
      [same_tasks Hwf|].
    destruct (Ht1 t1 eq_refl) as [Hid1 Hu1].
    destruct (assign_description_keeps descr t1 s) as [Hs2 Ht2].
    destruct (assign_description descr t1 s) as [[e|t2] s2]; simpl in *;
      subst s2; [same_tasks Hwf|].
    destruct (Ht2 t2 eq_refl) as [Hid2 Hu2].
    apply (owner_frame_of_frame u); auto.
    apply (frame_update u t t2 s); auto; congruence. }
  assert (Hbody :
            owner_frame rt user_id s
              (snd (try_except
                      (task_id <- column_int task_id ;;
                       found <- find_task task_id u ;;
                       match found with
                       | None => ret (task_not_found task_id)
                       | Some task =>
                           task <- assign_title title task ;;
                           task <- assign_description descr task ;;
                           task <- update_task_row task ;;
                           ret (task_result (opt_int_value (Task.id task))
                                  "updated" (Task.title task))
                       end)
                      internal_error s))).
  { destruct task_id as [| |tid| | |];
      try (unfold try_except, bind, column_int, raise; simpl;
           same_tasks Hwf).
    unfold column_int. unfold try_except, bind at 1 2. unfold ret at 1.
    pose proof (find_task_session u tid s) as Hs.
    destruct (find_task tid u s) as [[e|[t|]] s'] eqn:Hf; simpl in Hs;
      subst s'; try same_tasks Hwf.
    apply find_task_found in Hf. destruct Hf as (_ & Hin & Hid & Hown).
    exact (Hfound t Hin Hown). }
  destruct title; try exact Hbody.
  destruct descr; try exact Hbody.
  same_tasks Hwf.
Qed.

End ToolFrames.

Lemma snd_lift {A} (f : Session -> A * Session) (s : Session) :
  snd (lift f s) = snd (f s).
Proof. unfold lift. now destruct (f s). Qed.

(** Whatever tool is named and whatever the other keywords are, a dispatch
    whose [user_id] keyword is the caller's stays within the caller's rows. *)
Lemma execute_mcp_tool_frame (rt : Runtime) (user_id tool_name : string)
    (kwargs : dict) (s : Session) :
  dict_get "user_id" kwargs = Some (VStr user_id) ->
  tasks_wf s ->
  owner_frame rt user_id s (snd (execute_mcp_tool rt tool_name kwargs s)).
Proof.
  intros Hget Hwf.
  assert (Hsame : owner_frame rt user_id s s)
    by (apply owner_frame_same_tasks; auto).
  unfold execute_mcp_tool.
  destruct (orb _ _); [exact Hsame|].
  unfold _tools, lookup_tool.
  repeat match goal with
         | |- context [String.eqb tool_name ?k] =>
             destruct (String.eqb tool_name k)
         end;
    try exact Hsame;
    unfold Tool.run, AddTaskTool, ListTasksTool, CompleteTaskTool,
      DeleteTaskTool, UpdateTaskTool, bind_kwargs;
    (match goal with
     | |- context [filter ?f (dict_keys kwargs)] =>
         destruct (filter f (dict_keys kwargs)); [|exact Hsame]
     end);
    (match goal with
     | |- context [filter ?f ?l] => destruct (filter f l); [|exact Hsame]
     end);
    unfold arg; rewrite Hget;
    change (as_str (VStr user_id)) with (Some user_id); cbv iota beta;
    rewrite snd_lift.
  - now apply AddTaskTool_frame.
  - now apply ListTasksTool_frame.
  - now apply CompleteTaskTool_frame.
  - now apply DeleteTaskTool_frame.
  - now apply UpdateTaskTool_frame.
Qed.

Section LoopInvariants.
Context (rt : Runtime) (engine : Engine) (user_id : string).

(** A property of the audit trail, the session and the dispatch log that
    every tool call preserves holds when the loop ends, however it ends. *)
Lemma run_loop_invariant (P : run_state -> Prop) :
  (forall st fm its rc,
      P st ->
      P (mk_run_state fm (tool_calls_made st) its (session st) rc
           (dispatched st))) ->
  (forall tc st, P st -> P (snd (exec_tool_call rt user_id tc st))) ->
  forall max_iterations fuel st,
    P st -> P (snd (run_loop rt engine user_id max_iterations fuel st)).
Proof.
  intros Hfields Hcall max_iterations.
  assert (Hcalls : forall tcs st,
             P st -> P (snd (exec_tool_calls rt user_id tcs st))).
  { induction tcs as [|tc rest IH]; intros st HP; simpl; auto.
    specialize (Hcall tc st HP).
    destruct (exec_tool_call rt user_id tc st) as [[e|[]] st']; simpl in *;
      auto. }
  induction fuel as [|fuel IH]; intros st HP; [exact HP|].
  destruct (Z.ltb (iterations st) max_iterations) eqn:Hlt;
    [|cbn [run_loop]; rewrite Hlt; exact HP].
  destruct (engine (reasoning_calls st) (full_messages st))
    as [e|content [|tc rest]] eqn:Heng;
    try (cbn [run_loop]; rewrite Hlt, Heng; simpl snd; now apply Hfields).
  rewrite (run_loop_step rt engine user_id _ _ _ _ _ _ Hlt Heng).
  specialize (Hcalls (tc :: rest) (step_state content (tc :: rest) st)
                (Hfields st _ _ _ HP)).
  destruct (exec_tool_calls rt user_id (tc :: rest) _) as [[e|[]] st3];
    simpl in *; auto.
Qed.

Lemma exec_tool_call_caller (tc : tool_call) (st : run_state) :
  caller_dispatched user_id st /\ caller_recorded user_id st ->
  caller_dispatched user_id (snd (exec_tool_call rt user_id tc st))
  /\ caller_recorded user_id (snd (exec_tool_call rt user_id tc st)).
Proof.
  unfold caller_dispatched, caller_recorded, exec_tool_call.
  intros [Hd Hr].
  destruct (json_loads rt (tc_arguments tc)) as [e|[| | | | |parsed]];
    simpl; auto.
  assert (Hd' : Forall
                  (fun call => dict_get "user_id" (snd call)
                               = Some (VStr user_id))
                  (dispatched st
                     ++ [(tc_name tc,
                          dict_set "user_id" (VStr user_id) parsed)])%list).
  { apply Forall_app. split; auto. constructor; [|constructor]. simpl.
    apply dict_get_set_same. }
  destruct (execute_mcp_tool rt _ _ _) as [[e|r] s']; simpl; split; auto.
  apply Forall_app. split; auto. constructor; [|constructor].
  do 3 eexists. split; [reflexivity|]. apply dict_get_set_same.
Qed.

Lemma exec_tool_call_frame (s0 : Session) (tc : tool_call) (st : run_state) :
  owner_frame rt user_id s0 (session st) ->
  owner_frame rt user_id s0 (session (snd (exec_tool_call rt user_id tc st))).
Proof.
  intros Hframe. unfold exec_tool_call.
  destruct (json_loads rt (tc_arguments tc)) as [e|[| | | | |parsed]];
    simpl; auto.
  pose proof (execute_mcp_tool_frame rt user_id (tc_name tc)
                (dict_set "user_id" (VStr user_id) parsed) (session st)
                (dict_get_set_same _ _ _) (proj1 Hframe)) as Hstep.
  destruct (execute_mcp_tool rt _ _ _) as [[e|r] s']; simpl in *;
    eapply owner_frame_trans; eauto.
Qed.

End LoopInvariants.

(** C2. Every call the loop hands to a tool carries the caller's user_id,
    whatever user_id the engine wrote into the requested arguments; so does
    every record of the audit trail; and the run leaves the tasks of every
    other owner as they were. *)
Theorem tools_run_for_the_caller (rt : Runtime) (engine : Engine)
    (s : Session) (user_id : string) (messages : list value)
    (max_iterations : Z) :
  let st := snd (AgentRunner_run rt engine s user_id messages max_iterations) in
  Forall (fun call => dict_get "user_id" (snd call) = Some (VStr user_id))
         (dispatched st)
  /\ Forall (fun record =>
               exists tool_name tool_args tool_result,
                 record = VDict [("tool", VStr tool_name);
                                 ("arguments", VDict tool_args);
                                 ("result", tool_result)]
                 /\ dict_get "user_id" tool_args = Some (VStr user_id))
            (tool_calls_made st)
  /\ (tasks_wf s ->
      match UUID rt user_id with
      | Some u => tasks_of_others u (session st) = tasks_of_others u s
      | None => tasks (session st) = tasks s
      end).
Proof.
  intros st. unfold st, AgentRunner_run.
  pose proof (run_loop_invariant rt engine user_id
                (fun st => caller_dispatched user_id st
                           /\ caller_recorded user_id st)) as Hcaller.
  match goal with
  | |- context [run_loop rt engine user_id max_iterations ?f ?st0] =>
      specialize (Hcaller (fun st fm its rc H => H)
                    (exec_tool_call_caller rt user_id)
                    max_iterations f st0);
      pose proof (run_loop_invariant rt engine user_id
                    (fun st => owner_frame rt user_id s (session st))
                    (fun st fm its rc H => H)
                    (exec_tool_call_frame rt user_id s)
                    max_iterations f st0) as Hframe
  end.
  destruct Hcaller as [Hd Hr]; [split; constructor|].
  repeat split; auto.
  intros Hwf. apply Hframe. simpl. now apply owner_frame_same_tasks.
Qed.

(** A run of C2: the engine asks for Bob's list while Alice is the caller;
    the tool is called with Alice's user_id. *)
Lemma tools_run_for_the_caller_witness :
  let st := snd (AgentRunner_run example_runtime impersonating_engine
                   two_owner_session alice
                   [message_dict "user" "Show me Bob's tasks"] 5) in
  dispatched st = [("list_tasks", [("user_id", VStr alice)])]
  /\ Forall (fun call => dict_get "user_id" (snd call) = Some (VStr alice))
            (dispatched st)
  /\ Forall (fun record =>
               exists tool_name tool_args tool_result,
                 record = VDict [("tool", VStr tool_name);
                                 ("arguments", VDict tool_args);
                                 ("result", tool_result)]
                 /\ dict_get "user_id" tool_args = Some (VStr alice))
            (tool_calls_made st)
  /\ tasks_of_others 1 (session st) = tasks_of_others 1 two_owner_session.
Proof.
  intros st.
  destruct (tools_run_for_the_caller example_runtime impersonating_engine
              two_owner_session alice
              [message_dict "user" "Show me Bob's tasks"] 5)
    as (Hd & Hr & Hframe).
  split; [reflexivity|]. split; [exact Hd|]. split; [exact Hr|].
  apply Hframe. split.
  - simpl. repeat constructor; simpl; intuition discriminate.
  - simpl. repeat constructor; eexists; split; try reflexivity; lia.
Defined.

(** ** Chat endpoint *)

Lemma bind_inr {A B} (m : M A) (f : A -> M B) (s s' : Session) (a : A) :
  m s = (inr a, s') -> bind m f s = f a s'.
Proof. intros H. unfold bind. now rewrite H. Qed.

Lemma bind_inl {A B} (m : M A) (f : A -> M B) (s s' : Session) (e : exn) :
  m s = (inl e, s') -> bind m f s = (inl e, s').
Proof. intros H. unfold bind. now rewrite H. Qed.

Section ConversationsKept.
Context (rt : Runtime).








End ConversationsKept.


Lemma find_conversation_session (cid : Z) (u : uuid) (s : Session) :
  snd (find_conversation cid u s) = s.
Proof.
  unfold find_conversation, bind, get_session, scalar_one_or_none.
  now destruct (select_conversation cid u s) as [|c [|c' l]].
Qed.

Section FallbackProperties.
Context (rt : Runtime).




End FallbackProperties.







(** ** Tool catalog *)

Lemma lookup_tool_registered (rt : Runtime) (name : string) (tool : Tool.t) :
  lookup_tool name (_tools rt) = Some tool ->
  Tool.name tool = name
  /\ In name ["add_task"; "list_tasks"; "complete_task"; "delete_task";
              "update_task"].
Proof.
  unfold _tools, lookup_tool.
  repeat match goal with
         | |- context [String.eqb name ?k] =>
             let E := fresh "E" in
             destruct (String.eqb name k) eqn:E;
             [apply String.eqb_eq in E; subst name; intros H;
              injection H as <-; simpl; intuition auto |]
         end.
  discriminate.
Qed.

(** X1. The catalog handed to the engine and the registry agree.  The two
    converters build the same catalog; every entry of it offers, under the
    name of its tool, a tool that the registry dispatches by that name, with
    the tool's description and declared schema; every registered tool is
    offered under its registry key; a name the catalog does not offer is
    refused with ValueError "Unknown tool: <name>" and the session stays as
    it was; and the server info lists the offered names and their number. *)
Theorem catalog_offers_the_registered_tools (rt : Runtime) :
  mcp_to_openai_functions rt = get_openai_functions rt
  /\ (forall entry,
         In entry (mcp_to_openai_functions rt) ->
         exists name tool,
           function_name entry = Some name
           /\ lookup_tool name (_tools rt) = Some tool
           /\ entry = mcp_tool_to_openai_function tool)
  /\ (forall name tool,
         lookup_tool name (_tools rt) = Some tool ->
         Tool.name tool = name
         /\ In (mcp_tool_to_openai_function tool) (mcp_to_openai_functions rt))
  /\ (forall name kwargs s,
         ~ In (Some name) (map function_name (mcp_to_openai_functions rt)) ->
         dict_has "tool_name" kwargs = false ->
         dict_has "session" kwargs = false ->
         execute_mcp_tool rt name kwargs s
         = (inl (Exn ValueError ("Unknown tool: " ++ name)), s))
  /\ init_mcp_server rt
     = VDict [("server_name", VStr "todo-mcp-server");
              ("version", VStr "1.0.0");
              ("tools",
               VList (map (fun entry =>
                             match function_name entry with
                             | Some name => VStr name
                             | None => VNone
                             end)
                          (get_tool_definitions rt)));
              ("tool_count",
               VInt (Z.of_nat (List.length (get_tool_definitions rt))));
              ("status", VStr "initialized")].
Proof.
  split; [reflexivity|].
  split.
  { intros entry Hin.
    unfold mcp_to_openai_functions, get_mcp_tools, _tools in Hin.
    simpl in Hin.
    repeat (destruct Hin as [<-|Hin];
            [eexists _, _; repeat split; reflexivity|]).
    contradiction. }
  split.
  { intros name tool Hl. split; [now apply (lookup_tool_registered rt)|].
    revert Hl. unfold _tools, lookup_tool.
    repeat match goal with
           | |- context [String.eqb name ?k] =>
               destruct (String.eqb name k);
               [intros H; injection H as <-; simpl; tauto |]
           end.
    discriminate. }
  split; [|reflexivity].
  intros name kwargs s Hnot Ht Hs.
  unfold execute_mcp_tool. rewrite Ht, Hs. simpl orb. cbv iota.
  replace (lookup_tool name (_tools rt)) with (@None Tool.t); [reflexivity|].
  symmetry. unfold _tools, lookup_tool.
  repeat match goal with
         | |- context [String.eqb name ?k] =>
             let E := fresh "E" in
             destruct (String.eqb name k) eqn:E;
             [apply String.eqb_eq in E; subst name;
              exfalso; apply Hnot; simpl; tauto |]
         end.
  reflexivity.
Qed.

(** ** Declared schemas and the signatures of the tools *)








Section SchemaProperties.
Context (rt : Runtime).







End SchemaProperties.



(** ** Tools, continued *)

Lemma filter_split_perm {A} (f : A -> bool) (l : list A) :
  Permutation (filter (fun x => negb (f x)) l ++ filter f l) l.
Proof.
  induction l as [|x l IH]; simpl; [constructor|].
  destruct (f x); simpl.
  - apply Permutation_sym, Permutation_cons_app, Permutation_sym, IH.
  - now constructor.
Qed.

Lemma with_tasks_same (s : Session) : with_tasks s (tasks s) = s.
Proof. now destruct s. Qed.

(** Writing a row over itself changes nothing. *)
Lemma update_same_row (t : Task.t) (l : list Task.t) :
  NoDup (map Task.id l) -> In t l ->
  map (fun r => if opt_Z_eqb (Task.id r) (Task.id t) then t else r) l = l.
Proof.
  intros Hnd Hin.
  rewrite <- (map_id l) at 2. apply map_ext_in. intros r Hr.
  destruct (opt_Z_eqb (Task.id r) (Task.id t)) eqn:E; [|reflexivity].
  apply opt_Z_eqb_eq in E. symmetry.
  now apply (nodup_key_unique Task.id l r t).
Qed.

Lemma update_row_ids (t : Task.t) (l : list Task.t) :
  map Task.id
    (map (fun r => if opt_Z_eqb (Task.id r) (Task.id t) then t else r) l)
  = map Task.id l.
Proof.
  rewrite map_map. apply map_ext. intros r.
  destruct (opt_Z_eqb (Task.id r) (Task.id t)) eqn:E; [|reflexivity].
  apply opt_Z_eqb_eq in E. now symmetry.
Qed.

Lemma update_row_in (t t' : Task.t) (l : list Task.t) :
  In t l -> Task.id t' = Task.id t ->
  In t' (map (fun r => if opt_Z_eqb (Task.id r) (Task.id t') then t' else r) l).
Proof.
  intros Hin Hid. apply in_map_iff. exists t. split; [|exact Hin].
  now rewrite Hid, opt_Z_eqb_refl.
Qed.


(** X3. The three listings of list_tasks.  The pending and the completed
    listing hold tasks that are not, respectively are, completed, and
    together they are the listing for "all"; any status other than these
    two, declared by the schema or not, lists as "all" does. *)
Theorem list_tasks_status_partition (rt : Runtime) (s : Session)
    (owner : string) (u : uuid) :
  UUID rt owner = Some u ->
  exists every pending completed : list value,
    ListTasksTool_run rt owner (VStr "all") s = (VList every, s)
    /\ ListTasksTool_run rt owner (VStr "pending") s = (VList pending, s)
    /\ ListTasksTool_run rt owner (VStr "completed") s = (VList completed, s)
    /\ Permutation (pending ++ completed) every
    /\ Forall (fun entry => item "completed" entry = inr (VBool false)) pending
    /\ Forall (fun entry => item "completed" entry = inr (VBool true)) completed
    /\ (forall status : value,
           status <> VStr "pending" -> status <> VStr "completed" ->
           ListTasksTool_run rt owner status s = (VList every, s)).
Proof.
  intros Hu. unfold ListTasksTool_run. rewrite Hu. run_m.
  do 3 eexists. repeat (split; [reflexivity|]).
  assert (Hrows : forall status,
             list_tasks_rows u status s
             = filter (status_filter status)
                      (filter (fun t => Z.eqb (Task.user_id t) u) (tasks s))).
  { intros status. unfold list_tasks_rows.
    induction (tasks s) as [|t l IH]; simpl; [reflexivity|].
    destruct (Z.eqb (Task.user_id t) u); simpl; [|exact IH].
    destruct (status_filter status t); simpl; now rewrite IH. }
  set (mine := filter (fun t => Z.eqb (Task.user_id t) u) (tasks s)) in *.
  assert (Hall : forall status,
             status <> VStr "pending" -> status <> VStr "completed" ->
             list_tasks_rows u status s = mine).
  { intros status Hp Hc. rewrite Hrows.
    rewrite <- (filter_ext (fun _ => true)).
    - clear. induction mine; simpl; congruence.
    - intros t. destruct status as [| | |st| |]; try reflexivity. simpl.
      destruct (String.eqb_spec st "pending"); [congruence|].
      destruct (String.eqb_spec st "completed"); [congruence|reflexivity]. }
  split; [|split; [|split]].
  - rewrite <- map_app. apply Permutation_map.
    rewrite (Hall (VStr "all")) by discriminate.
    rewrite !Hrows.
    rewrite <- !order_by_desc_perm.
    apply (filter_split_perm Task.completed mine).
  - apply Forall_forall. intros entry Hin.
    apply in_map_iff in Hin as [t [<- Hin]].
    apply (Permutation_in _ (Permutation_sym (order_by_desc_perm _ _))) in Hin.
    rewrite Hrows in Hin. apply filter_In in Hin as [_ Hc]. simpl in Hc.
    simpl. now destruct (Task.completed t).
  - apply Forall_forall. intros entry Hin.
    apply in_map_iff in Hin as [t [<- Hin]].
    apply (Permutation_in _ (Permutation_sym (order_by_desc_perm _ _))) in Hin.
    rewrite Hrows in Hin. apply filter_In in Hin as [_ Hc]. simpl in Hc.
    simpl. now rewrite Hc.
  - intros status Hp Hc. rewrite (Hall status Hp Hc).
    now rewrite (Hall (VStr "all")) by discriminate.
Qed.

(** A run of X3: the three listings of Alice. *)
Lemma list_tasks_status_partition_witness :
  exists every pending completed : list value,
    ListTasksTool_run example_runtime alice (VStr "all") two_owner_session
    = (VList every, two_owner_session)
    /\ ListTasksTool_run example_runtime alice (VStr "pending") two_owner_session
       = (VList pending, two_owner_session)
    /\ ListTasksTool_run example_runtime alice (VStr "completed")
         two_owner_session
       = (VList completed, two_owner_session)
    /\ Permutation (pending ++ completed) every
    /\ Forall (fun entry => item "completed" entry = inr (VBool false)) pending
    /\ Forall (fun entry => item "completed" entry = inr (VBool true)) completed
    /\ (forall status : value,
           status <> VStr "pending" -> status <> VStr "completed" ->
           ListTasksTool_run example_runtime alice status two_owner_session
           = (VList every, two_owner_session)).
Proof.
  apply (list_tasks_status_partition example_runtime two_owner_session alice 1).
  reflexivity.
Defined.

(** X4. complete_task is idempotent: on a task of the caller it sets
    completed and nothing else (the clock is not read, updated_at stays), and
    a second call returns the same result and leaves the session as the
    first left it. *)
Theorem complete_task_is_idempotent (rt : Runtime) (s : Session)
    (owner : string) (tid : Z) (t : Task.t) :
  UUID rt owner = Some (Task.user_id t) ->
  NoDup (map Task.id (tasks s)) ->
  In t (tasks s) ->
  Task.id t = Some tid ->
  let done :=
    Task.mk (Some tid) (Task.user_id t) (Task.title t) (Task.description t)
      true (Task.created_at t) (Task.updated_at t) in
  let result :=
    VDict [("task_id", VInt tid); ("status", VStr "completed");
           ("title", VStr (Task.title t))] in
  exists s',
    CompleteTaskTool_run rt owner (VInt tid) s = (result, s')
    /\ tasks s'
       = map (fun r => if opt_Z_eqb (Task.id r) (Some tid) then done else r)
             (tasks s)
    /\ clock s' = clock s
    /\ CompleteTaskTool_run rt owner (VInt tid) s' = (result, s').
Proof.
  intros Hu Hnd Hin Hid done result.
  rewrite (CompleteTaskTool_found rt owner _ tid t s Hu)
    by now apply find_task_present.
  rewrite Hid. fold done. simpl opt_int_value. fold result.
  eexists. split; [reflexivity|]. simpl.
  split; [reflexivity|]. split; [reflexivity|].
  set (s' := with_tasks s _).
  assert (Hnd' : NoDup (map Task.id (tasks s'))).
  { unfold s'. simpl.
    change (Some tid) with (Task.id done). now rewrite update_row_ids. }
  assert (Hin' : In done (tasks s')).
  { unfold s'. simpl. change (Some tid) with (Task.id done).
    apply (update_row_in t); auto. }
  rewrite (CompleteTaskTool_found rt owner (Task.user_id done) tid done s' Hu)
    by now apply find_task_present.
  simpl opt_int_value. fold result. f_equal.
  unfold update_task_row. simpl snd.
  etransitivity; [|exact (with_tasks_same s')]. f_equal.
  exact (update_same_row done (tasks s') Hnd' Hin').
Qed.

(** A run of X4: Alice completes her task 1 twice. *)
Lemma complete_task_is_idempotent_witness :
  exists s',
    CompleteTaskTool_run example_runtime alice (VInt 1) two_owner_session
    = (VDict [("task_id", VInt 1); ("status", VStr "completed");
              ("title", VStr "Buy milk")], s')
    /\ tasks s'
       = map (fun r =>
                if opt_Z_eqb (Task.id r) (Some 1)
                then Task.mk (Some 1) 1 "Buy milk" (Some "2 litres") true 10 11
                else r)
             (tasks two_owner_session)
    /\ clock s' = clock two_owner_session
    /\ CompleteTaskTool_run example_runtime alice (VInt 1) s'
       = (VDict [("task_id", VInt 1); ("status", VStr "completed");
                 ("title", VStr "Buy milk")], s').
Proof.
  apply (complete_task_is_idempotent example_runtime two_owner_session alice 1
           (Task.mk (Some 1) 1 "Buy milk" (Some "2 litres") false 10 11)).
  - reflexivity.
  - simpl. repeat constructor; simpl; intuition discriminate.
  - simpl. auto.
  - reflexivity.
Defined.






(** ** Audit trail of the loop *)

Section AuditTrail.
Context (rt : Runtime) (engine : Engine) (user_id : string).

Lemma exec_tool_call_audit (tc : tool_call) (st : run_state) :
  audit_behind st [] -> pass_ends (exec_tool_call rt user_id tc st).
Proof.
  unfold pass_ends, audit_behind. rewrite app_nil_r. intros H.
  unfold exec_tool_call. cbv zeta.
  destruct (json_loads rt (tc_arguments tc)) as [e|[| | | | |parsed]];
    try (simpl; exists []; rewrite app_nil_r; split; [exact H|simpl; lia]).
  destruct (execute_mcp_tool rt (tc_name tc)
              (dict_set "user_id" (VStr user_id) parsed) (session st))
    as [[e|r] s']; simpl.
  - exists [(tc_name tc, dict_set "user_id" (VStr user_id) parsed)].
    split; [|simpl; lia]. rewrite map_app, H. reflexivity.
  - rewrite !map_app, H, app_nil_r. reflexivity.
Qed.

Lemma exec_tool_calls_audit (tcs : list tool_call) (st : run_state) :
  audit_behind st [] -> pass_ends (exec_tool_calls rt user_id tcs st).
Proof.
  revert st. induction tcs as [|tc rest IH]; intros st H; simpl.
  - exact H.
  - pose proof (exec_tool_call_audit tc st H) as Hone.
    destruct (exec_tool_call rt user_id tc st) as [[e|u] st'].
    + exact Hone.
    + apply IH. exact Hone.
Qed.

Lemma run_loop_audit (max_iterations : Z) (fuel : nat) (st : run_state) :
  audit_behind st [] ->
  run_ends (run_loop rt engine user_id max_iterations fuel st).
Proof.
  revert st. induction fuel as [|fuel IH]; intros st H.
  - simpl. split; [exact H|reflexivity].
  - destruct (Z.ltb (iterations st) max_iterations) eqn:Hlt.
    2:{ cbn [run_loop]. rewrite Hlt. split; [exact H|reflexivity]. }
    destruct (engine (reasoning_calls st) (full_messages st))
      as [e|content [|tc rest]] eqn:Hengine.
    + cbn [run_loop]. rewrite Hlt, Hengine. exists []. split; [exact H|simpl; lia].
    + cbn [run_loop]. rewrite Hlt, Hengine. split; [exact H|reflexivity].
    + rewrite (run_loop_step rt engine user_id max_iterations fuel st content
                 tc rest Hlt Hengine).
      pose proof (exec_tool_calls_audit (tc :: rest)
                    (step_state content (tc :: rest) st) H) as Hpass.
      destruct (exec_tool_calls rt user_id (tc :: rest) _) as [[e|u] st3].
      * exact Hpass.
      * apply IH. exact Hpass.
Qed.

End AuditTrail.

(** X7. The audit trail of a run holds, in order, the calls that were
    handed to the tools.  When the run returns, every call handed out is
    recorded and the result carries the trail; when the run raises, at most
    the one call whose dispatch raised is missing. *)
Theorem audit_trail_records_served_calls (rt : Runtime) (engine : Engine)
    (s : Session) (user_id : string) (messages : list value)
    (max_iterations : Z) :
  let out := AgentRunner_run rt engine s user_id messages max_iterations in
  exists pending : list (string * dict),
    audit_behind (snd out) pending
    /\ (List.length pending <= 1)%nat
    /\ forall result,
         fst out = inr result ->
         pending = []
         /\ item "tool_calls" result
            = inr (VList (tool_calls_made (snd out))).
Proof.
  intros out.
  assert (H : run_ends out).
  { unfold out, AgentRunner_run. apply run_loop_audit. reflexivity. }
  unfold run_ends in H. destruct (fst out) as [e|result].
  - destruct H as (pending & Hb & Hlen). exists pending.
    repeat split; auto; discriminate.
  - destruct H as [Hb Hcalls]. exists []. split; [exact Hb|].
    split; [simpl; lia|]. intros r Hr. injection Hr as <-. auto.
Qed.

(** ** Message history of the loop *)

Section History.
Context (rt : Runtime) (engine : Engine) (user_id : string)
        (base : list value).

Lemma history_grown_append (st st' : run_state) (m : value) :
  history_grown base st ->
  full_messages st' = (full_messages st ++ [m])%list ->
  (item "role" m = inr (VStr "assistant")
   /\ tool_calls_made st' = tool_calls_made st)
  \/ (item "role" m = inr (VStr "tool")
      /\ exists record,
           tool_calls_made st' = (tool_calls_made st ++ [record])%list) ->
  history_grown base st'.
Proof.
  intros (appended & Hfull & Hroles & Hcount) Hfull' Hm.
  exists (appended ++ [m])%list. split; [|split].
  - rewrite Hfull', Hfull. now rewrite app_assoc.
  - apply Forall_app. split; [exact Hroles|]. constructor; [|constructor].
    destruct Hm as [[Hm _]|[Hm _]]; auto.
  - rewrite filter_app, length_app. unfold is_tool_message at 2. simpl.
    destruct Hm as [[Hm ->]|[Hm [record ->]]]; rewrite Hm; simpl.
    + lia.
    + rewrite length_app. simpl. lia.
Qed.

Lemma history_grown_same (st st' : run_state) :
  history_grown base st ->
  full_messages st' = full_messages st ->
  tool_calls_made st' = tool_calls_made st ->
  history_grown base st'.
Proof.
  intros (appended & Hfull & Hroles & Hcount) Hfull' Hmade.
  exists appended. rewrite Hfull', Hmade. auto.
Qed.

Lemma exec_tool_call_history (tc : tool_call) (st : run_state) :
  history_grown base st ->
  history_grown base (snd (exec_tool_call rt user_id tc st)).
Proof.
  intros H. unfold exec_tool_call. cbv zeta.
  destruct (json_loads rt (tc_arguments tc)) as [e|[| | | | |parsed]];
    try exact H.
  destruct (execute_mcp_tool rt (tc_name tc)
              (dict_set "user_id" (VStr user_id) parsed) (session st))
    as [[e|r] s']; simpl.
  - now apply (history_grown_same st).
  - eapply (history_grown_append st); [exact H|reflexivity|].
    right. split; [reflexivity|]. eexists. reflexivity.
Qed.

Lemma exec_tool_calls_history (tcs : list tool_call) (st : run_state) :
  history_grown base st ->
  history_grown base (snd (exec_tool_calls rt user_id tcs st)).
Proof.
  revert st. induction tcs as [|tc rest IH]; intros st H; simpl; [exact H|].
  pose proof (exec_tool_call_history tc st H) as Hone.
  destruct (exec_tool_call rt user_id tc st) as [[e|u] st']; simpl in *.
  - exact Hone.
  - now apply IH.
Qed.

Lemma run_loop_history (max_iterations : Z) (fuel : nat) (st : run_state) :
  history_grown base st ->
  history_grown base (snd (run_loop rt engine user_id max_iterations fuel st)).
Proof.
  revert st. induction fuel as [|fuel IH]; intros st H; [exact H|].
  destruct (Z.ltb (iterations st) max_iterations) eqn:Hlt.
  2:{ cbn [run_loop]. now rewrite Hlt. }
  destruct (engine (reasoning_calls st) (full_messages st))
    as [e|content [|tc rest]] eqn:Hengine.
  - cbn [run_loop]. rewrite Hlt, Hengine.
    now apply (history_grown_same st).
  - cbn [run_loop]. rewrite Hlt, Hengine.
    now apply (history_grown_same st).
  - rewrite (run_loop_step rt engine user_id max_iterations fuel st content
               tc rest Hlt Hengine).
    assert (Hstep : history_grown base (step_state content (tc :: rest) st)).
    { eapply (history_grown_append st); [exact H|reflexivity|].
      left. split; reflexivity. }
    pose proof (exec_tool_calls_history (tc :: rest) _ Hstep) as Hpass.
    destruct (exec_tool_calls rt user_id (tc :: rest) _) as [[e|u] st3];
      simpl in *.
    + exact Hpass.
    + now apply IH.
Qed.

End History.

(** X8. The message history of a run only grows.  It starts with the
    system prompt followed by the caller's messages, and what a run appends
    are messages of the assistant and of tools, one of a tool for every
    record of the audit trail. *)
Theorem run_appends_to_the_history (rt : Runtime) (engine : Engine)
    (s : Session) (user_id : string) (messages : list value)
    (max_iterations : Z) :
  let st := snd (AgentRunner_run rt engine s user_id messages max_iterations) in
  exists appended,
    full_messages st
    = (VDict [("role", VStr "system"); ("content", VStr (system_prompt rt))]
         :: messages ++ appended)%list
    /\ Forall (fun m => item "role" m = inr (VStr "assistant")
                        \/ item "role" m = inr (VStr "tool")) appended
    /\ List.length (filter is_tool_message appended)
       = List.length (tool_calls_made st).
Proof.
  intros st.
  assert (H : history_grown
                (VDict [("role", VStr "system");
                        ("content", VStr (system_prompt rt))] :: messages) st).
  { unfold st, AgentRunner_run. apply run_loop_history.
    exists []. simpl. rewrite app_nil_r. repeat split. constructor. }
  exact H.
Qed.

(** ** Conversation store, continued *)




Section ConversationStore.
Context (rt : Runtime).


End ConversationStore.


(** Deleting the messages of one conversation keeps those of another. *)
Lemma messages_of_other_kept (cid other : Z) (l : list Message.t) :
  other <> cid ->
  filter (fun m => Z.eqb (Message.conversation_id m) other)
    (filter (fun m => negb (Z.eqb (Message.conversation_id m) cid)) l)
  = filter (fun m => Z.eqb (Message.conversation_id m) other) l.
Proof.
  intros Hother. induction l as [|m l IH]; simpl; [reflexivity|].
  destruct (Z.eqb_spec (Message.conversation_id m) cid) as [E|E]; simpl.
  - destruct (Z.eqb_spec (Message.conversation_id m) other); [lia|].
    exact IH.
  - destruct (Z.eqb (Message.conversation_id m) other); simpl;
      now rewrite IH.
Qed.

Section ConversationLifecycle.
Context (rt : Runtime).

(** X10. get_or_create_conversation without an identity creates one
    conversation for the user, with an identity no stored conversation has
    and no messages; with that identity it returns the conversation and
    creates nothing, and for another user it raises the ValueError. *)
Theorem get_or_create_conversation_creates_once (s : Session) (u : uuid) :
  conversations_wf s ->
  let cid := conversations_id_seq s in
  let created :=
    Conversation.mk (Some cid) u (utcnow rt (clock s))
      (utcnow rt (S (clock s))) in
  exists s',
    get_or_create_conversation rt u None s = (inr created, s')
    /\ conversations s' = (conversations s ++ [created])%list
    /\ (forall c, In c (conversations s) -> Conversation.id c <> Some cid)
    /\ messages s' = messages s
    /\ tasks s' = tasks s
    /\ messages_of cid s' = []
    /\ conversations_wf s'
    /\ get_or_create_conversation rt u (Some cid) s' = (inr created, s')
    /\ (forall other, other <> u ->
          get_or_create_conversation rt other (Some cid) s'
          = (inl (conversation_not_found cid), s')).
Proof.
  intros [Hconv Hmsg] cid created.
  assert (Hfresh : forall c, In c (conversations s) ->
                             Conversation.id c <> Some cid).
  { intros c Hin Hid. rewrite Forall_forall in Hconv.
    destruct (Hconv c Hin) as (i & Hi & Hlt).
    rewrite Hi in Hid. injection Hid as Hid. unfold cid in Hid. lia. }
  eexists. split; [reflexivity|]. simpl.
  split; [reflexivity|]. split; [exact Hfresh|].
  split; [reflexivity|]. split; [reflexivity|].
  split; [|split; [|split]].
  - unfold messages_of. simpl. apply filter_none.
    eapply Forall_impl; [|exact Hmsg]. simpl. intros m Hlt.
    apply Z.eqb_neq. unfold cid. lia.
  - split; simpl.
    + apply Forall_app. split.
      * eapply Forall_impl; [|exact Hconv]. simpl.
        intros c (i & Hi & Hlt). exists i. split; [exact Hi|lia].
      * constructor; [|constructor]. exists cid. split; [reflexivity|].
        unfold cid. lia.
    + eapply Forall_impl; [|exact Hmsg]. simpl. intros m Hlt. lia.
  - unfold get_or_create_conversation, find_conversation, bind, get_session,
      select_conversation.
    simpl. rewrite filter_app. simpl. rewrite !Z.eqb_refl. simpl.
    change (filter _ (conversations s)) with (select_conversation cid u s).
    now rewrite (select_conversation_absent cid u s Hfresh).
  - intros other Hother.
    unfold get_or_create_conversation, find_conversation, bind, get_session,
      select_conversation.
    simpl. rewrite filter_app. simpl. rewrite Z.eqb_refl.
    destruct (Z.eqb_spec u other); [congruence|]. simpl.
    change (filter _ (conversations s)) with (select_conversation cid other s).
    now rewrite (select_conversation_absent cid other s Hfresh).
Qed.



(** X13. delete_conversation of a conversation of the user returns True
    and removes the conversation and, by the cascade of the relationship,
    its messages; the messages of other conversations and the tasks stay.
    After it a second delete returns False, and reading or get-or-create
    with the identity raise the ValueError. *)
Theorem deleted_conversation_takes_its_messages (s : Session) (cid : Z)
    (c : Conversation.t) (limit : Z) :
  NoDup (map Conversation.id (conversations s)) ->
  In c (conversations s) ->
  Conversation.id c = Some cid ->
  let u := Conversation.user_id c in
  exists s',
    delete_conversation cid u s = (inr true, s')
    /\ (forall c', In c' (conversations s') <->
                   In c' (conversations s) /\ c' <> c)
    /\ messages_of cid s' = []
    /\ (forall other, other <> cid -> messages_of other s' = messages_of other s)
    /\ tasks s' = tasks s
    /\ delete_conversation cid u s' = (inr false, s')
    /\ get_conversation_messages cid u limit s'
       = (inl (conversation_not_found cid), s')
    /\ get_or_create_conversation rt u (Some cid) s'
       = (inl (conversation_not_found cid), s').
Proof.
  intros Hnd Hin Hid u.
  pose proof (find_conversation_present cid s c Hnd Hin Hid) as Hf.
  fold u in Hf.
  unfold delete_conversation at 1. unfold bind at 1. rewrite Hf.
  unfold bind, delete_conversation_row, ret. rewrite Hid.
  set (s' := mkSession _ _ _ _ _ _ _).
  assert (Hgone : forall c', In c' (conversations s') ->
                             Conversation.id c' <> Some cid).
  { intros c' Hc'. unfold s' in Hc'. simpl in Hc'.
    apply filter_In in Hc' as [_ Hne]. intros Heq.
    rewrite Heq, opt_Z_eqb_refl in Hne. discriminate. }
  assert (Habsent : find_conversation cid u s' = (inr None, s')).
  { unfold find_conversation, bind, get_session.
    now rewrite (select_conversation_absent cid u s' Hgone). }
  exists s'. split; [reflexivity|].
  split; [|split; [|split; [|split; [|split; [|split]]]]].
  - intros c'. unfold s'. simpl. rewrite filter_In. split.
    + intros [Hc' Hne]. split; [exact Hc'|]. intros ->.
      rewrite Hid, opt_Z_eqb_refl in Hne. discriminate.
    + intros [Hc' Hne]. split; [exact Hc'|].
      destruct (opt_Z_eqb (Conversation.id c') (Some cid)) eqn:E; [|reflexivity].
      apply opt_Z_eqb_eq in E. exfalso. apply Hne.
      apply (nodup_key_unique Conversation.id (conversations s)); auto.
      congruence.
  - unfold messages_of, s'. simpl. apply filter_none.
    apply Forall_forall. intros m Hm. apply filter_In in Hm as [_ Hne].
    simpl in Hne. now destruct (Z.eqb (Message.conversation_id m) cid).
  - intros other Hother. unfold messages_of, s'. simpl.
    exact (messages_of_other_kept cid other (messages s) Hother).
  - reflexivity.
  - unfold delete_conversation, bind. now rewrite Habsent.
  - unfold get_conversation_messages, bind. now rewrite Habsent.
  - unfold get_or_create_conversation, bind. now rewrite Habsent.
Qed.

End ConversationLifecycle.

(** A run of X10: Bob starts a conversation beside Alice's. *)
Lemma get_or_create_conversation_creates_once_witness :
  let created := Conversation.mk (Some 2) 2 7 8 in
  exists s',
    get_or_create_conversation example_runtime 2 None conversation_session
    = (inr created, s')
    /\ conversations s' = (conversations conversation_session ++ [created])%list
    /\ (forall c, In c (conversations conversation_session) ->
                  Conversation.id c <> Some 2)
    /\ messages s' = messages conversation_session
    /\ tasks s' = tasks conversation_session
    /\ messages_of 2 s' = []
    /\ conversations_wf s'
    /\ get_or_create_conversation example_runtime 2 (Some 2) s'
       = (inr created, s')
    /\ (forall other, other <> 2 ->
          get_or_create_conversation example_runtime other (Some 2) s'
          = (inl (conversation_not_found 2), s')).
Proof.
  apply (get_or_create_conversation_creates_once example_runtime
           conversation_session 2).
  split; repeat constructor; simpl; try lia.
  exists 1. split; [reflexivity|lia].
Defined.



(** A run of X13: Alice deletes her conversation 1 with its three messages. *)
Lemma deleted_conversation_takes_its_messages_witness :
  exists s',
    delete_conversation 1 1 conversation_session = (inr true, s')
    /\ (forall c', In c' (conversations s') <->
                   In c' (conversations conversation_session)
                   /\ c' <> Conversation.mk (Some 1) 1 0 6)
    /\ messages_of 1 s' = []
    /\ (forall other, other <> 1 ->
                      messages_of other s' = messages_of other conversation_session)
    /\ tasks s' = tasks conversation_session
    /\ delete_conversation 1 1 s' = (inr false, s')
    /\ get_conversation_messages 1 1 50 s'
       = (inl (conversation_not_found 1), s')
    /\ get_or_create_conversation example_runtime 1 (Some 1) s'
       = (inl (conversation_not_found 1), s').
Proof.
  apply (deleted_conversation_takes_its_messages example_runtime
           conversation_session 1 (Conversation.mk (Some 1) 1 0 6) 50).
  - simpl. repeat constructor. simpl. tauto.
  - simpl. auto.
  - reflexivity.
Defined.

(** ** The task tools and the chat store *)

Section ChatStoreKept.
Context (rt : Runtime).

Ltac stays :=
  unfold chat_store;
  repeat match goal with
         | |- context [find_task ?tid ?u ?s] =>
             let H := fresh "Hs" in
             pose proof (find_task_session u tid s) as H;
             destruct (find_task tid u s) as [[?|[?|]] ?];
             simpl in H; subst
         | |- context [match ?v with VNone => _ | _ => _ end] =>
             is_var v; destruct v
         end;
  simpl; try reflexivity.

Lemma AddTaskTool_chat_store (user_id : string) (title descr : value)
    (s : Session) :
  chat_store (snd (AddTaskTool_run rt user_id title descr s)) = chat_store s.
Proof.
  unfold AddTaskTool_run. destruct (UUID rt user_id); [|reflexivity].
  unfold Task_new. run_m. stays.
Qed.

Lemma ListTasksTool_chat_store (user_id : string) (status : value)
    (s : Session) :
  chat_store (snd (ListTasksTool_run rt user_id status s)) = chat_store s.
Proof.
  unfold ListTasksTool_run. now destruct (UUID rt user_id).
Qed.

Lemma CompleteTaskTool_chat_store (user_id : string) (task_id : value)
    (s : Session) :
  chat_store (snd (CompleteTaskTool_run rt user_id task_id s)) = chat_store s.
Proof.
  unfold CompleteTaskTool_run. destruct (UUID rt user_id); [|reflexivity].
  run_m. destruct task_id; simpl; try reflexivity. stays.
Qed.

Lemma DeleteTaskTool_chat_store (user_id : string) (task_id : value)
    (s : Session) :
  chat_store (snd (DeleteTaskTool_run rt user_id task_id s)) = chat_store s.
Proof.
  unfold DeleteTaskTool_run. destruct (UUID rt user_id); [|reflexivity].
  run_m. destruct task_id; simpl; try reflexivity. stays.
Qed.

Lemma UpdateTaskTool_chat_store (user_id : string)
    (task_id title descr : value) (s : Session) :
  chat_store (snd (UpdateTaskTool_run rt user_id task_id title descr s))
  = chat_store s.
Proof.
  unfold UpdateTaskTool_run. destruct (UUID rt user_id) as [u|]; [|reflexivity].
  assert (Hbody :
            chat_store
              (snd (try_except
                      (task_id <- column_int task_id ;;
                       found <- find_task task_id u ;;
                       match found with
                       | None => ret (task_not_found task_id)
                       | Some task =>
                           task <- assign_title title task ;;
                           task <- assign_description descr task ;;
                           task <- update_task_row task ;;
                           ret (task_result (opt_int_value (Task.id task))
                                  "updated" (Task.title task))
                       end)
                      internal_error s))
            = chat_store s).
  { destruct task_id as [| |tid| | |];
      try (unfold try_except, bind, column_int, raise; reflexivity).
    unfold column_int. unfold try_except, bind at 1 2. unfold ret at 1.
    pose proof (find_task_session u tid s) as Hs.
    destruct (find_task tid u s) as [[e|[t|]] s'] eqn:Hf; simpl in Hs;
      subst s'; try reflexivity.
    unfold bind.
    destruct (assign_title_keeps title t s) as [Hs1 _].
    destruct (assign_title title t s) as [[e|t1] s1]; simpl in *; subst s1;
      [reflexivity|].
    destruct (assign_description_keeps descr t1 s) as [Hs2 _].
    destruct (assign_description descr t1 s) as [[e|t2] s2]; simpl in *;
      subst s2; reflexivity. }
  destruct title; try exact Hbody.
  destruct descr; try exact Hbody.
  reflexivity.
Qed.

Lemma execute_mcp_tool_chat_store (tool_name : string) (kwargs : dict)
    (s : Session) :
  chat_store (snd (execute_mcp_tool rt tool_name kwargs s)) = chat_store s.
Proof.
  unfold execute_mcp_tool.
  destruct (orb _ _); [reflexivity|].
  unfold _tools, lookup_tool.
  repeat match goal with
         | |- context [String.eqb tool_name ?k] =>
             destruct (String.eqb tool_name k)
         end;
    try reflexivity;
    unfold Tool.run, AddTaskTool, ListTasksTool, CompleteTaskTool,
      DeleteTaskTool, UpdateTaskTool, bind_kwargs;
    (match goal with
     | |- context [filter ?f (dict_keys kwargs)] =>
         destruct (filter f (dict_keys kwargs)); [|reflexivity]
     end);
    (match goal with
     | |- context [filter ?f ?l] => destruct (filter f l); [|reflexivity]
     end);
    destruct (as_str _); try reflexivity; rewrite snd_lift.
  - apply AddTaskTool_chat_store.
  - apply ListTasksTool_chat_store.
  - apply CompleteTaskTool_chat_store.
  - apply DeleteTaskTool_chat_store.
  - apply UpdateTaskTool_chat_store.
Qed.

Ltac dispatch_once :=
  repeat match goal with
         | |- context [execute_mcp_tool rt ?n ?k ?s] =>
             let H := fresh "Hk" in
             pose proof (execute_mcp_tool_chat_store n k s) as H;
             destruct (execute_mcp_tool rt n k s) as [[?|?] ?];
             simpl in H
         | |- context [match ?x with _ => _ end] =>
             destruct x; simpl; auto
         end;
  simpl; auto.

Lemma _process_intent_chat_store (user_id original lowered : string)
    (s : Session) :
  chat_store (snd (_process_intent rt user_id original lowered s))
  = chat_store s.
Proof.
  unfold _process_intent.
  repeat match goal with
         | |- context [keyword_in ?l lowered] =>
             destruct (keyword_in l lowered)
         end;
    try reflexivity.
  - unfold _handle_add_task.
    destruct (too_short _); [reflexivity|]. dispatch_once.
  - unfold _handle_list_tasks. dispatch_once.
  - unfold _handle_complete_task.
    destruct (search_task_number rt lowered); [|reflexivity].
    destruct (Z.eqb _ _); [reflexivity|]. dispatch_once.
  - unfold _handle_delete_task.
    destruct (search_task_number rt lowered); [|reflexivity].
    destruct (Z.eqb _ _); [reflexivity|]. dispatch_once.
  - unfold _handle_update_task.
    destruct (search_task_number rt lowered); [|reflexivity].
    destruct (Z.eqb _ _); [reflexivity|].
    destruct (too_short _); [reflexivity|]. dispatch_once.
Qed.

Lemma MockAgentRunner_run_chat_store (user_id : string) (messages : list value)
    (s : Session) :
  chat_store (snd (MockAgentRunner_run rt user_id messages s)) = chat_store s.
Proof.
  unfold MockAgentRunner_run.
  destruct (last_user_message (rev messages)) as [e|m]; [reflexivity|].
  destruct (negb (truthy m)); [reflexivity|].
  destruct m; try reflexivity.
  pose proof (_process_intent_chat_store user_id s0 (lower s0) s) as Hk.
  now destruct (_process_intent rt user_id s0 (lower s0) s).
Qed.

End ChatStoreKept.

Lemma AgentRunner_run_chat_store (rt : Runtime) (engine : Engine)
    (s : Session) (user_id : string) (messages : list value)
    (max_iterations : Z) :
  chat_store
    (session (snd (AgentRunner_run rt engine s user_id messages max_iterations)))
  = chat_store s.
Proof.
  unfold AgentRunner_run.
  apply (run_loop_invariant rt engine user_id
           (fun st => chat_store (session st) = chat_store s)).
  - auto.
  - intros tc st H. unfold exec_tool_call.
    destruct (json_loads rt (tc_arguments tc)) as [e|[| | | | |parsed]];
      simpl; auto.
    pose proof (execute_mcp_tool_chat_store rt (tc_name tc)
                  (dict_set "user_id" (VStr user_id) parsed) (session st))
      as Hk.
    destruct (execute_mcp_tool rt _ _ _) as [[e|r] s']; simpl in *; congruence.
  - reflexivity.
Qed.

Lemma agent_or_mock_chat_store (rt : Runtime) (engine : Engine)
    (user_id : string) (messages : list value) (s : Session) :
  chat_store (snd (agent_or_mock rt engine user_id messages s)) = chat_store s.
Proof.
  unfold agent_or_mock, run_agent_runner.
  destruct (AgentRunner_init rt None) as [e|key].
  - destruct (quota_marker (exn_str e)); [|reflexivity].
    pose proof (MockAgentRunner_run_chat_store rt user_id messages s) as Hm.
    destruct (MockAgentRunner_run rt user_id messages s) as [[e'|[| | | | |d]] s'];
      exact Hm.
  - pose proof (AgentRunner_run_chat_store rt engine s user_id messages 5) as Hk.
    destruct (AgentRunner_run rt engine s user_id messages 5) as [[e|r] st];
      simpl in *; [|exact Hk].
    destruct (quota_marker (exn_str e)); [|exact Hk].
    pose proof (MockAgentRunner_run_chat_store rt user_id messages (session st))
      as Hm.
    destruct (MockAgentRunner_run rt user_id messages (session st))
      as [[e'|[| | | | |d]] s']; simpl in *; congruence.
Qed.

(** ** Chat endpoint, continued *)

Lemma bind_returns {A B} (m : M A) (f : A -> M B) (s s' : Session) (b : B) :
  bind m f s = (inr b, s') ->
  exists a s1, m s = (inr a, s1) /\ f a s1 = (inr b, s').
Proof.
  unfold bind. destruct (m s) as [[e|a] s1]; [discriminate|]. eauto.
Qed.

Lemma rollback_same (s : Session) : rollback s s = s.
Proof. now destruct s. Qed.

Lemma get_conversation_messages_session (cid : Z) (u : uuid) (limit : Z)
    (s : Session) :
  snd (get_conversation_messages cid u limit s) = s.
Proof.
  unfold get_conversation_messages, bind.
  pose proof (find_conversation_session cid u s) as Hs.
  destruct (find_conversation cid u s) as [[e|[c|]] s0]; simpl in Hs; subst s0;
    try reflexivity.
  now destruct (Z.ltb limit 0).
Qed.

(** What a successful [store_message] did. *)
Lemma store_message_returns (rt : Runtime) (cid : Z) (u : uuid)
    (role : string) (content : value) (s s' : Session) (m : Message.t) :
  store_message rt cid u role content s = (inr m, s') ->
  exists text,
    content = VStr text
    /\ m = Message.mk (Some (messages_id_seq s)) cid u role text
             (utcnow rt (clock s))
    /\ s' = after_store rt cid u role text s.
Proof.
  unfold store_message.
  destruct (negb _); [discriminate|]. unfold bind.
  pose proof (find_conversation_session cid u s) as Hs.
  destruct (find_conversation cid u s) as [[e|[c|]] s0]; simpl in Hs; subst s0;
    try discriminate.
  destruct content; simpl; try discriminate.
  intros H. injection H as <- <-. eexists. repeat split.
Qed.

(** What [get_or_create_conversation] leaves of the messages. *)
Lemma get_or_create_conversation_returns (rt : Runtime) (u : uuid)
    (conversation_id : option Z) (s s' : Session) (c : Conversation.t) :
  get_or_create_conversation rt u conversation_id s = (inr c, s') ->
  messages s' = messages s
  /\ messages_id_seq s' = messages_id_seq s
  /\ tasks s' = tasks s
  /\ Conversation.user_id c = u
  /\ Conversation.id c
     = Some (match conversation_id with
             | Some cid => cid
             | None => conversations_id_seq s
             end).
Proof.
  unfold get_or_create_conversation. destruct conversation_id as [cid|].
  - unfold find_conversation. unfold bind, get_session, scalar_one_or_none.
    cbv beta.
    destruct (select_conversation cid u s) as [|c0 [|c1 l]] eqn:E;
      unfold ret, raise; simpl; try discriminate.
    intros H. injection H as <- <-.
    assert (Hin : In c0 (select_conversation cid u s)) by (rewrite E; now left).
    unfold select_conversation in Hin. apply filter_In in Hin as [_ Hm].
    apply andb_true_iff in Hm as [Hid Hu].
    apply opt_Z_eqb_eq in Hid. apply Z.eqb_eq in Hu. auto.
  - run_m. intros H. injection H as <- <-. simpl. auto.
Qed.

Section ChatProperties.
Context (rt : Runtime) (engine : Engine).

(** X14. A request whose path names another user than the authenticated
    one.  The chat endpoint raises the 403 of verify_user_access inside its
    own try, whose handler for Exception answers 500; the endpoints without
    a try answer 403.  The session stays as it was. *)
Theorem chat_answers_denied_access_with_500 (user_id : uuid)
    (chat_request : ChatRequest.t) (current_user : User.t)
    (conversation_id task_id : Z) (s : Session) :
  user_id <> User.id current_user ->
  chat rt engine user_id chat_request current_user s
  = (HTTPException 500 "An error occurred while processing your request", s)
  /\ delete_conversation_endpoint user_id conversation_id current_user s
     = (Raised 403 "Access denied", s)
  /\ get_task user_id task_id current_user s = (Raised 403 "Access denied", s).
Proof.
  intros Hne.
  assert (Hv : verify_user_access user_id current_user s
               = (inl (Exn OtherException "Access denied"), s)).
  { unfold verify_user_access. destruct (Z.eqb_spec user_id (User.id current_user));
      [contradiction|reflexivity]. }
  repeat split.
  - unfold chat, chat_body. rewrite (bind_inl _ _ _ _ _ Hv). simpl.
    now rewrite rollback_same.
  - unfold delete_conversation_endpoint, verified. now rewrite Hv.
  - unfold get_task, verified. now rewrite Hv.
Qed.


End ChatProperties.

(** A run of X14: Alice, authenticated, on the paths of user 2. *)
Lemma chat_answers_denied_access_with_500_witness :
  chat example_runtime listing_engine 2 show_tasks_request alice_user
    two_owner_session
  = (HTTPException 500 "An error occurred while processing your request",
     two_owner_session)
  /\ delete_conversation_endpoint 2 1 alice_user two_owner_session
     = (Raised 403 "Access denied", two_owner_session)
  /\ get_task 2 2 alice_user two_owner_session
     = (Raised 403 "Access denied", two_owner_session).
Proof.
  apply (chat_answers_denied_access_with_500 example_runtime listing_engine 2
           show_tasks_request alice_user 1 2 two_owner_session).
  discriminate.
Defined.


Section ChatTurn.
Context (rt : Runtime) (engine : Engine).

(** The turn from the agent's result on. *)
Lemma chat_body_after_agent (chat_request : ChatRequest.t)
    (current_user : User.t) (s s1 s2 : Session)
    (conversation : Conversation.t) (cid : Z) (history : list value)
    (outcome : exn + value) :
  let uid := User.id current_user in
  let messages :=
    (history ++ [message_dict "user" (ChatRequest.message chat_request)])%list in
  get_or_create_conversation rt uid (ChatRequest.conversation_id chat_request) s
  = (inr conversation, s1) ->
  Conversation.id conversation = Some cid ->
  get_conversation_messages cid uid 50 s1 = (inr history, s1) ->
  agent_or_mock rt engine (uuid_str rt uid) messages s1 = (outcome, s2) ->
  chat_body rt engine uid chat_request current_user s
  = match outcome with
    | inl e => (inl e, s2)
    | inr agent_result =>
        (store_message rt cid uid "user"
           (VStr (ChatRequest.message chat_request)) ;;;
         assistant_message <- liftE (assistant_message_of agent_result) ;;
         store_message rt cid uid "assistant" assistant_message ;;;
         assistant_text <- column_text assistant_message ;;
         tool_calls <- liftE (get_or "tool_calls" (VList []) agent_result) ;;
         ret (ChatResponse.mk cid assistant_text tool_calls)) s2
    end.
Proof.
  intros uid messages Hconv Hid Hhist Hagent.
  assert (Hverify : verify_user_access uid current_user s = (inr tt, s)).
  { unfold verify_user_access, uid. now rewrite Z.eqb_refl. }
  assert (Hcid : liftE (match Conversation.id conversation with
                        | Some i => inr i
                        | None => inl (Exn OtherException
                                         "conversation without identity")
                        end) s1 = (inr cid, s1)).
  { unfold liftE. now rewrite Hid. }
  unfold chat_body.
  rewrite (bind_inr _ _ _ _ _ Hverify).
  rewrite (bind_inr _ _ _ _ _ Hconv).
  rewrite (bind_inr _ _ _ _ _ Hcid).
  rewrite (bind_inr _ _ _ _ _ Hhist).
  fold messages. fold uid.
  destruct outcome as [e|agent_result].
  - now rewrite (bind_inl _ _ _ _ _ Hagent).
  - now rewrite (bind_inr _ _ _ _ _ Hagent).
Qed.

(** The agent run of a turn without a key for the engine. *)
Lemma run_agent_runner_without_key (user_id : string) (messages : list value)
    (s : Session) :
  OPENAI_API_KEY rt = None \/ OPENAI_API_KEY rt = Some "" ->
  agent_or_mock rt engine user_id messages s
  = (inl (Exn ValueError "OPENAI_API_KEY environment variable is not set"), s).
Proof.
  intros Hkey. unfold agent_or_mock, run_agent_runner, AgentRunner_init.
  destruct Hkey as [-> | ->]; reflexivity.
Qed.


(** X16. Without a key for the engine every chat turn that reached the
    agent run is answered 400 with the text "OPENAI_API_KEY environment
    variable is not set": the constructor's ValueError carries no capacity
    marker and is not diverted to the fallback responder.  No message is
    stored. *)
Theorem chat_answers_missing_key_with_400 (chat_request : ChatRequest.t)
    (current_user : User.t) (s s1 : Session) (conversation : Conversation.t)
    (cid : Z) (history : list value) :
  let uid := User.id current_user in
  OPENAI_API_KEY rt = None \/ OPENAI_API_KEY rt = Some "" ->
  get_or_create_conversation rt uid (ChatRequest.conversation_id chat_request) s
  = (inr conversation, s1) ->
  Conversation.id conversation = Some cid ->
  get_conversation_messages cid uid 50 s1 = (inr history, s1) ->
  chat rt engine uid chat_request current_user s
  = (HTTPException 400 "OPENAI_API_KEY environment variable is not set", s1)
  /\ chat_request_served rt engine uid chat_request current_user s
     = (Raised 400 "OPENAI_API_KEY environment variable is not set",
        rollback s s1)
  /\ messages s1 = messages s.
Proof.
  intros uid Hkey Hconv Hid Hhist.
  pose proof (chat_body_after_agent chat_request current_user s s1 s1
                conversation cid history _ Hconv Hid Hhist
                (run_agent_runner_without_key _ _ s1 Hkey)) as Hbody.
  assert (Hchat : chat rt engine uid chat_request current_user s
                  = (HTTPException 400
                       "OPENAI_API_KEY environment variable is not set", s1)).
  { unfold chat. fold uid in Hbody. now rewrite Hbody. }
  split; [exact Hchat|]. split.
  - unfold chat_request_served, get_session_scope. now rewrite Hchat.
  - now destruct (get_or_create_conversation_returns _ _ _ _ _ _ Hconv).
Qed.



End ChatTurn.

(** A run of X16: Alice asks for her tasks and no key is configured. *)
Lemma chat_answers_missing_key_with_400_witness :
  chat (second_runtime None) listing_engine 1 show_tasks_request alice_user
    two_owner_session
  = (HTTPException 400 "OPENAI_API_KEY environment variable is not set",
     chat_started)
  /\ chat_request_served (second_runtime None) listing_engine 1
       show_tasks_request alice_user two_owner_session
     = (Raised 400 "OPENAI_API_KEY environment variable is not set",
        rollback two_owner_session chat_started)
  /\ messages chat_started = messages two_owner_session.
Proof.
  apply (chat_answers_missing_key_with_400 (second_runtime None) listing_engine
           show_tasks_request alice_user two_owner_session chat_started
           (Conversation.mk (Some 1) 1 20 21) 1 []).
  - now left.
  - reflexivity.
  - reflexivity.
  - reflexivity.
Defined.



(** X19. A chat turn answered 200, whatever the engine did: the caller is
    the authenticated user, the conversation is the one named (or the one
    created for the turn), and the message table gained exactly the user's
    message followed by the assistant message that the response carries. *)
Theorem successful_chat_turn_stores_both_messages (rt : Runtime)
    (engine : Engine) (user_id : uuid) (chat_request : ChatRequest.t)
    (current_user : User.t) (s s' : Session) (response : ChatResponse.t) :
  chat rt engine user_id chat_request current_user s = (HTTP200 response, s') ->
  let cid := ChatResponse.conversation_id response in
  user_id = User.id current_user
  /\ cid = match ChatRequest.conversation_id chat_request with
           | Some given => given
           | None => conversations_id_seq s
           end
  /\ exists asked answered : Z,
       messages s'
       = (messages s
            ++ [Message.mk (Some (messages_id_seq s)) cid user_id "user"
                  (ChatRequest.message chat_request) asked;
                Message.mk (Some (messages_id_seq s + 1)) cid user_id
                  "assistant" (ChatResponse.message response) answered])%list.
Proof.
  unfold chat.
  destruct (chat_body rt engine user_id chat_request current_user s)
    as [[e|r] s0] eqn:Hbody; [destruct (exn_class_of e); discriminate|].
  intros H. injection H as -> ->. unfold chat_body in Hbody.
  apply bind_returns in Hbody as (x & sa & Hverify & Hbody).
  unfold verify_user_access in Hverify.
  destruct (Z.eqb_spec user_id (User.id current_user)) as [Huser|];
    [|discriminate].
  injection Hverify as _ <-.
  apply bind_returns in Hbody as (conversation & s1 & Hconv & Hbody).
  apply bind_returns in Hbody as (cid & s1a & Hcid & Hbody).
  unfold liftE in Hcid.
  destruct (get_or_create_conversation_returns _ _ _ _ _ _ Hconv)
    as (Hm1 & Hq1 & _ & _ & Hid).
  rewrite Hid in Hcid. injection Hcid as <- <-.
  apply bind_returns in Hbody as (history & s1b & Hhist & Hbody).
  pose proof (get_conversation_messages_session
                (match ChatRequest.conversation_id chat_request with
                 | Some given => given
                 | None => conversations_id_seq s
                 end) (User.id current_user) 50 s1) as Hs1.
  rewrite Hhist in Hs1. simpl in Hs1. subst s1b.
  apply bind_returns in Hbody as (agent_result & s2 & Hagent & Hbody).
  match type of Hagent with
  | agent_or_mock _ _ ?caller ?msgs _ = _ =>
      pose proof (agent_or_mock_chat_store rt engine caller msgs s1) as Hkept
  end.
  rewrite Hagent in Hkept. simpl in Hkept. unfold chat_store in Hkept.
  injection Hkept as _ Hm2 _ Hq2.
  apply bind_returns in Hbody as (m1 & s3 & Hstore1 & Hbody).
  apply store_message_returns in Hstore1 as (text1 & Ht1 & _ & ->).
  injection Ht1 as <-.
  apply bind_returns in Hbody as (am & s3a & Ham & Hbody).
  unfold liftE in Ham. injection Ham as Ham <-.
  apply bind_returns in Hbody as (m2 & s4 & Hstore2 & Hbody).
  apply store_message_returns in Hstore2 as (text2 & -> & _ & ->).
  apply bind_returns in Hbody as (text & s4a & Htext & Hbody).
  unfold column_text, ret in Htext. injection Htext as <- <-.
  apply bind_returns in Hbody as (calls & s4b & Hcalls & Hbody).
  unfold liftE in Hcalls. injection Hcalls as _ <-.
  unfold ret in Hbody. injection Hbody as <- <-.
  simpl. split; [exact Huser|]. split; [reflexivity|].
  do 2 eexists. rewrite Huser, Hm2, Hm1, Hq2, Hq1.
  rewrite <- app_assoc. reflexivity.
Qed.

(** A run of X19: the turn of X17 that was answered 200. *)
Lemma successful_chat_turn_stores_both_messages_witness :
  let s' :=
    after_store example_runtime 1 1 "assistant" "You have one task: Buy milk."
      (after_store example_runtime 1 1 "user" "Show my tasks" chat_started) in
  1 = User.id alice_user
  /\ 1 = conversations_id_seq two_owner_session
  /\ exists asked answered : Z,
       messages s'
       = (messages two_owner_session
            ++ [Message.mk (Some 1) 1 1 "user" "Show my tasks" asked;
                Message.mk (Some (1 + 1)) 1 1 "assistant"
                  "You have one task: Buy milk." answered])%list.
Proof.
  apply (successful_chat_turn_stores_both_messages example_runtime
           answering_engine 1 show_tasks_request alice_user two_owner_session
           _ (ChatResponse.mk 1 "You have one task: Buy milk." (VList []))).
  vm_compute. reflexivity.
Defined.

(** ** Endpoints of conversations and tasks *)

Lemma verified_own {A} (current_user : User.t) (body : M (outcome A))
    (s : Session) :
  verified (User.id current_user) current_user body s
  = match body s with
    | (inr o, s') => (o, s')
    | (inl _, s') => (Raised 500 "Internal Server Error", s')
    end.
Proof.
  unfold verified, verify_user_access. now rewrite Z.eqb_refl.
Qed.

Section Endpoints.
Context (rt : Runtime).



(** X22. toggle_task_completion applied twice restores the completion
    status of the task; each application refreshes updated_at. *)
Theorem rest_toggle_twice_restores_completion (current_user : User.t)
    (s : Session) (tid : Z) (t : Task.t) :
  let uid := User.id current_user in
  Task.user_id t = uid ->
  NoDup (map Task.id (tasks s)) ->
  In t (tasks s) ->
  Task.id t = Some tid ->
  let toggled (completed : bool) (updated_at : Z) :=
    Task.mk (Some tid) uid (Task.title t) (Task.description t) completed
      (Task.created_at t) updated_at in
  exists s1 s2,
    toggle_task_completion rt uid tid current_user s
    = (Returned (toggled (negb (Task.completed t)) (utcnow rt (clock s))), s1)
    /\ toggle_task_completion rt uid tid current_user s1
       = (Returned (toggled (Task.completed t) (utcnow rt (S (clock s)))), s2)
    /\ tasks s2
       = map (fun r => if opt_Z_eqb (Task.id r) (Some tid)
                       then toggled (Task.completed t) (utcnow rt (S (clock s)))
                       else r) (tasks s).
Proof.
  intros uid Hown Hnd Hin Hid toggled.
  pose proof (find_task_present tid s t Hnd Hin Hid) as Hf.
  rewrite Hown in Hf.
  unfold toggle_task_completion at 1. unfold uid at 1.
  rewrite verified_own. fold uid. unfold bind at 1. rewrite Hf. run_m.
  rewrite Hid, Hown. fold (toggled (negb (Task.completed t)) (utcnow rt (clock s))).
  set (t1 := toggled (negb (Task.completed t)) (utcnow rt (clock s))).
  set (s1 := with_tasks _ _).
  assert (Hnd1 : NoDup (map Task.id (tasks s1))).
  { unfold s1. simpl. change (Some tid) with (Task.id t1).
    now rewrite update_row_ids. }
  assert (Hin1 : In t1 (tasks s1)).
  { unfold s1. simpl. change (Some tid) with (Task.id t1).
    apply (update_row_in t); auto. }
  pose proof (find_task_present tid s1 t1 Hnd1 Hin1 eq_refl) as Hf1.
  simpl Task.user_id in Hf1.
  exists s1. eexists. split; [reflexivity|].
  unfold toggle_task_completion. unfold uid at 1.
  rewrite verified_own. fold uid. unfold bind at 1. rewrite Hf1. run_m.
  rewrite negb_involutive. split; [reflexivity|].
  rewrite map_map. apply map_ext. intros r.
  destruct (opt_Z_eqb (Task.id r) (Some tid)) eqn:E; simpl.
  - now rewrite Z.eqb_refl.
  - now rewrite E.
Qed.


End Endpoints.



(** A run of X22: Alice toggles her task 1 twice. *)
Lemma rest_toggle_twice_restores_completion_witness :
  exists s1 s2,
    toggle_task_completion example_runtime 1 1 alice_user two_owner_session
    = (Returned (Task.mk (Some 1) 1 "Buy milk" (Some "2 litres") true 10 20), s1)
    /\ toggle_task_completion example_runtime 1 1 alice_user s1
       = (Returned (Task.mk (Some 1) 1 "Buy milk" (Some "2 litres") false 10 21),
          s2)
    /\ tasks s2
       = map (fun r => if opt_Z_eqb (Task.id r) (Some 1)
                       then Task.mk (Some 1) 1 "Buy milk" (Some "2 litres")
                              false 10 21
                       else r) (tasks two_owner_session).
Proof.
  apply (rest_toggle_twice_restores_completion example_runtime alice_user
           two_owner_session 1
           (Task.mk (Some 1) 1 "Buy milk" (Some "2 litres") false 10 11)).
  - reflexivity.
  - simpl. repeat constructor; simpl; intuition discriminate.
  - simpl. auto.
  - reflexivity.
Defined.


(** X24. A task created through the endpoint belongs to the authenticated
    user and gets the next identity; get_task then returns it to that user
    and answers 404 to any other, and list_tasks of the user holds it. *)
Theorem rest_created_task_round_trip (rt : Runtime) (current_user : User.t)
    (other_user : User.t) (title : string) (description : option string)
    (s : Session) :
  let uid := User.id current_user in
  tasks_wf s ->
  User.id other_user <> uid ->
  let created :=
    Task.mk (Some (tasks_id_seq s)) uid title description false
      (utcnow rt (clock s)) (utcnow rt (S (clock s))) in
  exists s',
    create_task rt uid title description current_user s = (Returned created, s')
    /\ tasks s' = (tasks s ++ [created])%list
    /\ tasks_wf s'
    /\ get_task uid (tasks_id_seq s) current_user s' = (Returned created, s')
    /\ get_task (User.id other_user) (tasks_id_seq s) other_user s'
       = (Raised 404 "Task not found", s')
    /\ exists rows,
         list_tasks uid "all" current_user s' = (Returned rows, s')
         /\ In created rows.
Proof.
  intros uid Hwf Hother created.
  assert (Hcreate : create_task rt uid title description current_user s
                    = (Returned created,
                       mkSession (tasks s ++ [created]) (conversations s)
                         (messages s) (tasks_id_seq s + 1)
                         (conversations_id_seq s) (messages_id_seq s)
                         (S (S (clock s))))).
  { unfold create_task, uid. rewrite verified_own. unfold Task_new.
    destruct description; run_m; reflexivity. }
  rewrite Hcreate. set (s' := mkSession _ _ _ _ _ _ _).
  assert (Hwf' : tasks_wf s').
  { pose proof (frame_add uid created
                  (mkSession (tasks s) (conversations s) (messages s)
                     (tasks_id_seq s) (conversations_id_seq s)
                     (messages_id_seq s) (S (S (clock s))))) as Hframe.
    destruct Hframe as [Hwf' _]; [exact Hwf|reflexivity|exact Hwf']. }
  assert (Hin : In created (tasks s'))
    by (unfold s'; simpl; apply in_or_app; right; now left).
  destruct Hwf' as [Hnd' Hids'].
  pose proof (find_task_present (tasks_id_seq s) s' created Hnd' Hin eq_refl)
    as Hf.
  simpl Task.user_id in Hf.
  exists s'. split; [reflexivity|]. split; [reflexivity|].
  split; [split; assumption|]. split; [|split].
  - unfold get_task, uid. rewrite verified_own. fold uid.
    unfold bind. now rewrite Hf.
  - unfold get_task. rewrite verified_own. unfold bind.
    rewrite (find_task_absent (tasks_id_seq s) (User.id other_user) s');
      [reflexivity|].
    intros r Hr Hid.
    assert (r = created)
      by (apply (nodup_key_unique Task.id (tasks s')); auto).
    subst r. simpl. auto.
  - eexists. split.
    + unfold list_tasks, uid. rewrite verified_own. reflexivity.
    + apply (Permutation_in _ (order_by_desc_perm _ _)).
      unfold list_tasks_rows. apply filter_In. split; [exact Hin|].
      simpl. now rewrite Z.eqb_refl.
Qed.

(** A run of X24: Alice creates a task, reads it back, and Bob does not
    see it. *)
Lemma rest_created_task_round_trip_witness :
  let created := Task.mk (Some 3) 1 "Water plants" None false 20 21 in
  exists s',
    create_task example_runtime 1 "Water plants" None alice_user
      two_owner_session
    = (Returned created, s')
    /\ tasks s' = (tasks two_owner_session ++ [created])%list
    /\ tasks_wf s'
    /\ get_task 1 3 alice_user s' = (Returned created, s')
    /\ get_task 2 3 bob_user s' = (Raised 404 "Task not found", s')
    /\ exists rows,
         list_tasks 1 "all" alice_user s' = (Returned rows, s')
         /\ In created rows.
Proof.
  apply (rest_created_task_round_trip example_runtime alice_user bob_user
           "Water plants" None two_owner_session).
  - split.
    + simpl. repeat constructor; simpl; intuition discriminate.
    + repeat constructor; simpl; eexists; split; try reflexivity; lia.
  - discriminate.
Defined.

(** ** Fallback responder *)

Section Fallback.
Context (rt : Runtime) (user_id : string).

Ltac dispatched_for_caller Hwf :=
  match goal with
  | |- context [execute_mcp_tool rt ?n ?k ?s] =>
      let H := fresh "Hframe" in
      pose proof (execute_mcp_tool_frame rt user_id n k s eq_refl Hwf) as H;
      destruct (execute_mcp_tool rt n k s) as [[?|?] ?];
      simpl in H
  end;
  repeat match goal with
         | |- context [match ?x with _ => _ end] => destruct x; simpl
         end;
  (split; [assumption | simpl; lia]).

Ltac undispatched Hwf :=
  split; [apply owner_frame_same_tasks; auto | simpl; lia].

Lemma _handle_add_task_for_caller (original lowered : string) :
  acts_for_caller rt user_id (_handle_add_task rt user_id original lowered).
Proof.
  intros s Hwf. unfold _handle_add_task.
  destruct (too_short _); [undispatched Hwf|].
  dispatched_for_caller Hwf.
Qed.

Lemma _handle_list_tasks_for_caller :
  acts_for_caller rt user_id (_handle_list_tasks rt user_id).
Proof.
  intros s Hwf. unfold _handle_list_tasks. dispatched_for_caller Hwf.
Qed.

Lemma reply_to_result_one (task_id : Z) (failure success : string)
    (audit : value -> value) (result : value) :
  (List.length (snd (handled (reply_to_result task_id failure success audit
                                result))) <= 1)%nat.
Proof.
  unfold reply_to_result.
  destruct result as [| | | |l|d]; simpl; try lia.
  - destruct (existsb _ l); simpl; lia.
  - destruct (dict_has "error" d); simpl; [|lia].
    destruct (match dict_get "message" d with
              | Some v => v
              | None => match dict_get "error" d with
                        | Some v => v
                        | None => VStr "Unknown error"
                        end
              end); simpl; try lia.
    destruct (contains _ _); simpl; lia.
Qed.

Ltac addressed Hwf :=
  match goal with
  | |- context [execute_mcp_tool rt ?n ?k ?s] =>
      let H := fresh "Hframe" in
      pose proof (execute_mcp_tool_frame rt user_id n k s eq_refl Hwf) as H;
      destruct (execute_mcp_tool rt n k s) as [[?|?] ?];
      simpl in H
  end;
  (split; [assumption | simpl; try lia; apply reply_to_result_one]).

Lemma _handle_complete_task_for_caller (lowered : string) :
  acts_for_caller rt user_id (_handle_complete_task rt user_id lowered).
Proof.
  intros s Hwf. unfold _handle_complete_task.
  destruct (search_task_number rt lowered); [|undispatched Hwf].
  destruct (Z.eqb _ _); [undispatched Hwf|]. addressed Hwf.
Qed.

Lemma _handle_delete_task_for_caller (lowered : string) :
  acts_for_caller rt user_id (_handle_delete_task rt user_id lowered).
Proof.
  intros s Hwf. unfold _handle_delete_task.
  destruct (search_task_number rt lowered); [|undispatched Hwf].
  destruct (Z.eqb _ _); [undispatched Hwf|]. addressed Hwf.
Qed.

Lemma _handle_update_task_for_caller (original lowered : string) :
  acts_for_caller rt user_id (_handle_update_task rt user_id original lowered).
Proof.
  intros s Hwf. unfold _handle_update_task.
  destruct (search_task_number rt lowered); [|undispatched Hwf].
  destruct (Z.eqb _ _); [undispatched Hwf|].
  destruct (too_short _); [undispatched Hwf|]. addressed Hwf.
Qed.

Lemma _process_intent_for_caller (original lowered : string) :
  acts_for_caller rt user_id (_process_intent rt user_id original lowered).
Proof.
  unfold _process_intent.
  repeat match goal with
         | |- context [keyword_in ?l lowered] =>
             destruct (keyword_in l lowered)
         end.
  - apply _handle_add_task_for_caller.
  - apply _handle_list_tasks_for_caller.
  - apply _handle_complete_task_for_caller.
  - apply _handle_delete_task_for_caller.
  - apply _handle_update_task_for_caller.
  - intros s Hwf. undispatched Hwf.
  - intros s Hwf. undispatched Hwf.
Qed.

(** X25. The fallback responder acts for the caller.  A run keeps the
    primary key discipline of the task table, leaves the tasks of every
    other owner, the conversations and the messages as they were, and
    records at most one tool call. *)
Theorem fallback_acts_for_the_caller (messages : list value) (s : Session) :
  tasks_wf s ->
  let out := MockAgentRunner_run rt user_id messages s in
  tasks_wf (snd out)
  /\ match UUID rt user_id with
     | Some u => tasks_of_others u (snd out) = tasks_of_others u s
     | None => tasks (snd out) = tasks s
     end
  /\ chat_store (snd out) = chat_store s
  /\ forall result,
       fst out = inr result ->
       exists text calls,
         result = VDict [("message", VStr text); ("tool_calls", VList calls)]
         /\ (List.length calls <= 1)%nat.
Proof.
  intros Hwf out.
  assert (Hframe : owner_frame rt user_id s (snd out)
                   /\ forall result,
                        fst out = inr result ->
                        exists text calls,
                          result = VDict [("message", VStr text);
                                          ("tool_calls", VList calls)]
                          /\ (List.length calls <= 1)%nat).
  { unfold out, MockAgentRunner_run.
    destruct (last_user_message (rev messages)) as [e|m]; simpl.
    { split; [apply owner_frame_same_tasks; auto|]. discriminate. }
    destruct (negb (truthy m)); simpl.
    { split; [apply owner_frame_same_tasks; auto|].
      intros result H. injection H as <-. do 2 eexists.
      split; [reflexivity|]. simpl. lia. }
    destruct m as [| | |text| |]; simpl;
      try (split; [apply owner_frame_same_tasks; auto|]; discriminate).
    destruct (_process_intent_for_caller text (lower text) s Hwf)
      as [Hf Hone].
    destruct (_process_intent rt user_id text (lower text) s) as [r s'].
    simpl in *. split; [exact Hf|].
    intros result H. injection H as <-. do 2 eexists.
    split; [reflexivity|exact Hone]. }
  destruct Hframe as [[Hwf' Hothers] Hone].
  split; [exact Hwf'|]. split; [exact Hothers|].
  split; [apply MockAgentRunner_run_chat_store|exact Hone].
Qed.

End Fallback.

(** A run of X25: Alice asks the responder for her tasks. *)
Lemma fallback_acts_for_the_caller_witness :
  let out :=
    MockAgentRunner_run example_runtime alice
      [message_dict "user" "Show my tasks"] two_owner_session in
  tasks_wf (snd out)
  /\ tasks_of_others 1 (snd out) = tasks_of_others 1 two_owner_session
  /\ chat_store (snd out) = chat_store two_owner_session
  /\ forall result,
       fst out = inr result ->
       exists text calls,
         result = VDict [("message", VStr text); ("tool_calls", VList calls)]
         /\ (List.length calls <= 1)%nat.
Proof.
  apply (fallback_acts_for_the_caller example_runtime alice
           [message_dict "user" "Show my tasks"] two_owner_session).
  split.
  - simpl. repeat constructor; simpl; intuition discriminate.
  - repeat constructor; simpl; eexists; split; try reflexivity; lia.
Defined.




Section FallbackIntents.
Context (rt : Runtime).



End FallbackIntents.


